(** * A shallow embedding of the Kubernetes assistant

    The development follows the layout of the repository:

    - [Py]        the fragment of Python the sources rely on (values,
                  truthiness, [str()], exceptions, [try]/[except]);
    - [K8sTools]  [k8s_tools.py]: the registry of cluster operations;
    - [Database]  [database.py]: the session store;
    - [Main]      [main.py]: the buffered and the streaming chat paths;
    - [AgentLoop] the bounded reasoning/acting cycle of the specification;
    - [RefPy]     a reference instance of the library functions, and sample
                  clusters, used to run the tools on concrete inputs;
    - [ToolFacts], [DatabaseFacts], [MainFacts], [AgentLoopFacts]
                  the properties proved of each part.

    Text is modelled by [string]; a Python [dict] whose iteration order is
    observable is an association list in insertion order. *)

From Stdlib Require Import String Ascii List ZArith Lia Bool Arith.
From Stdlib Require Import DecimalString.
From Stdlib Require Import Permutation Sorted.
Import ListNotations.
Open Scope string_scope.

(* ===================================================================== *)
(** ** Python values, exceptions and control flow                         *)
(* ===================================================================== *)

Module Py.

(** Values that reach a tool as an argument or travel in a manifest. *)
#[warnings="-register-all"]
Inductive pyval : Type :=
| PNone
| PBool (b : bool)
| PInt (z : Z)
| PFloat (repr : string)
| PStr (s : string)
| PList (l : list pyval)
| PDict (d : list (string * pyval)).

(** [isinstance(v, int)]: [bool] is a subclass of [int]. *)
Definition isinstance_int (v : pyval) : bool :=
  match v with
  | PInt _ | PBool _ => true
  | _ => false
  end.

(** The integer a value of class [int] (or [bool]) stands for. *)
Definition int_value (v : pyval) : option Z :=
  match v with
  | PInt z => Some z
  | PBool true => Some 1%Z
  | PBool false => Some 0%Z
  | _ => None
  end.

(** The value is an integer and is not negative. *)
Definition non_negative_int (v : pyval) : bool :=
  match int_value v with
  | Some z => (0 <=? z)%Z
  | None => false
  end.

Definition str_of_Z (z : Z) : string := NilZero.string_of_int (Z.to_int z).

(** [str(v)] of a scalar interpolated into an f-string.  No tool
    interpolates a list or a dict; their [repr] is left out. *)
Definition str_scalar (v : pyval) : string :=
  match v with
  | PNone => "None"
  | PBool true => "True"
  | PBool false => "False"
  | PInt z => str_of_Z z
  | PFloat r => r
  | PStr s => s
  | PList _ => "[...]"
  | PDict _ => "{...}"
  end.

(** [str(x)] for an optional attribute: [None] prints as [None]. *)
Definition str_opt (o : option string) : string :=
  match o with Some s => s | None => "None" end.

Definition str_optZ (o : option Z) : string :=
  match o with Some z => str_of_Z z | None => "None" end.

(** Truthiness of the optional values the tools test with [if x:]. *)
Definition truthy_str (o : option string) : bool :=
  match o with
  | Some s => negb (s =? "")
  | None => false
  end.

Definition truthy_int (o : option Z) : bool :=
  match o with
  | Some z => negb (z =? 0)%Z
  | None => false
  end.

(** [x or d] on an optional string / integer. *)
Definition or_str (o : option string) (d : string) : string :=
  if truthy_str o then str_opt o else d.

Definition or_Z (o : option Z) (d : Z) : Z :=
  match o with
  | Some z => if (z =? 0)%Z then d else z
  | None => d
  end.

Definition nl : string := String "010"%char EmptyString.
Definition dquote : string := String "034"%char EmptyString.

(** [sep.join(l)] *)
Definition join (sep : string) (l : list string) : string := String.concat sep l.

(** Exceptions.  [ApiException] is the class every tool catches; [str(e)] of
    an [ApiException] is its [text]. *)
Inductive exn : Type :=
| ApiException (status : Z) (text : string)
| UnicodeDecodeError
| BinasciiError
| AttributeError (text : string)
| TypeError (text : string)
| OtherError (text : string).

Inductive outcome (A : Type) : Type :=
| Ret (a : A)
| Raise (e : exn).
Arguments Ret {A} a.
Arguments Raise {A} e.

(** The computation ended with a value. *)
Definition returned {A} (o : outcome A) : bool :=
  match o with Ret _ => true | Raise _ => false end.

Definition obind {A B} (o : outcome A) (f : A -> outcome B) : outcome B :=
  match o with
  | Ret a => f a
  | Raise e => Raise e
  end.

(** [[f(x) for x in l]] where [f] may raise: the first failure aborts. *)
Fixpoint omap {A B} (f : A -> outcome B) (l : list A) : outcome (list B) :=
  match l with
  | [] => Ret []
  | x :: xs => obind (f x) (fun y => obind (omap f xs) (fun ys => Ret (y :: ys)))
  end.

End Py.
Import Py.

(* ===================================================================== *)
(** ** k8s_tools.py: the operation registry                               *)
(* ===================================================================== *)

Module K8sTools.

(** *** What the cluster API returns *)

(** Only the attributes the tools read are kept.  Objects that a tool merely
    formats (ingress rules, node and autoscaler status, events) stay
    untyped [pyval] trees. *)

Record V1PodStatus := { phase : option string; pod_ip : option string }.

Record V1Condition := {
  cond_type : option string; cond_status : option string;
  cond_reason : option string; cond_message : option string }.

Record V1DeploymentStatus := {
  available_replicas : option Z; ready_replicas : option Z;
  replicas : option Z; updated_replicas : option Z;
  conditions : option (list V1Condition) }.

Record V1ConfigMap := { cm_data : option (list (string * string)) }.

(** [secret.type] and [secret.data]; the values of [data] are the base64
    texts the API server stores. *)
Record V1Secret := {
  secret_type : option string;
  secret_data : option (list (string * string)) }.

Record V1PersistentVolumeClaim := {
  pvc_phase : option string;
  pvc_capacity : option (list (string * string));
  pvc_volume_name : option string;
  pvc_storage_class_name : option string;
  pvc_access_modes : option (list string) }.

(** The calls on [v1], [apps_v1], [autoscaling_v1] and [networking_v1] that
    the module makes, indexed by what the tool reads from the answer.  A
    [list_*] call answers with the [metadata.name] of its items. *)
Inductive request : Type -> Type :=
(* CoreV1Api *)
| create_namespaced_pod (body : pyval) (namespace : string) : request unit
| delete_namespaced_pod (name namespace : string) : request unit
| read_namespaced_pod (name namespace : string) : request V1PodStatus
| list_namespaced_pod (namespace : string) : request (list string)
| list_pod_for_all_namespaces : request (list string)
| read_namespaced_pod_log (name namespace : string) (tail_lines : Z) : request string
| create_namespace (body : pyval) : request unit
| delete_namespace (name : string) : request unit
| list_namespace : request (list string)
| create_namespaced_service (body : pyval) (namespace : string) : request unit
| delete_namespaced_service (name namespace : string) : request unit
| list_namespaced_service (namespace : string) : request (list string)
| list_service_for_all_namespaces : request (list string)
| read_namespaced_config_map (name namespace : string) : request V1ConfigMap
| create_namespaced_secret (body : pyval) (namespace : string) : request unit
| delete_namespaced_secret (name namespace : string) : request unit
| read_namespaced_secret (name namespace : string) : request V1Secret
| create_namespaced_persistent_volume_claim (body : pyval) (namespace : string) : request unit
| delete_namespaced_persistent_volume_claim (name namespace : string) : request unit
| read_namespaced_persistent_volume_claim (name namespace : string)
    : request V1PersistentVolumeClaim
| list_namespaced_persistent_volume_claim (namespace : string) : request (list string)
| list_persistent_volume_claim_for_all_namespaces : request (list string)
| read_node_status (name : string) : request pyval
| list_node : request (list pyval)
| list_namespaced_event (namespace : string) (field_selector : option string) (limit : Z)
    : request (list pyval)
| list_event_for_all_namespaces (field_selector : option string) (limit : Z)
    : request (list pyval)
(* AppsV1Api *)
| create_namespaced_deployment (body : pyval) (namespace : string) : request unit
| delete_namespaced_deployment (name namespace : string) : request unit
| list_namespaced_deployment (namespace : string) : request (list string)
| list_deployment_for_all_namespaces : request (list string)
| patch_namespaced_deployment_scale (name namespace : string) (body : pyval) : request unit
| read_namespaced_deployment_status (name namespace : string) : request V1DeploymentStatus
(* AutoscalingV1Api *)
| create_namespaced_horizontal_pod_autoscaler (body : pyval) (namespace : string)
    : request unit
| delete_namespaced_horizontal_pod_autoscaler (name namespace : string) : request unit
| read_namespaced_horizontal_pod_autoscaler_status (name namespace : string)
    : request pyval
| list_namespaced_horizontal_pod_autoscaler (namespace : string) : request (list string)
| list_horizontal_pod_autoscaler_for_all_namespaces : request (list string)
(* NetworkingV1Api *)
| create_namespaced_ingress (body : pyval) (namespace : string) : request unit
| delete_namespaced_ingress (name namespace : string) : request unit
| read_namespaced_ingress (name namespace : string) : request pyval
| list_namespaced_network_policy (namespace : string) : request (list string)
(* [getattr(api_client, read_method_name)(...)] of [describe_kubernetes_resource] *)
| read_by_method (read_method_name : string) (name : string) (namespace : option string)
    : request pyval.

(** A cluster answers every request with a value or an exception.  A tool
    sends at most one request per invocation, so one answer per request is
    all an invocation can observe. *)
Definition cluster : Type := forall A, request A -> outcome A.

(** A request as it appears in the trace of an invocation. *)
Inductive sent : Type := Sent (A : Type) (r : request A).
Arguments Sent {A} r.

(** Requests that change the cluster. *)
Definition mutates (s : sent) : bool :=
  match s with
  | Sent r =>
      match r with
      | create_namespaced_pod _ _ | delete_namespaced_pod _ _
      | create_namespace _ | delete_namespace _
      | create_namespaced_service _ _ | delete_namespaced_service _ _
      | create_namespaced_secret _ _ | delete_namespaced_secret _ _
      | create_namespaced_persistent_volume_claim _ _
      | delete_namespaced_persistent_volume_claim _ _
      | create_namespaced_deployment _ _ | delete_namespaced_deployment _ _
      | patch_namespaced_deployment_scale _ _ _
      | create_namespaced_horizontal_pod_autoscaler _ _
      | delete_namespaced_horizontal_pod_autoscaler _ _
      | create_namespaced_ingress _ _ | delete_namespaced_ingress _ _ => true
      | _ => false
      end
  end.

(** *** The monad of a tool body: the requests sent so far, and a value or
    an exception in flight. *)

Definition K (A : Type) : Type := (list sent * outcome A)%type.

Definition ret {A} (a : A) : K A := ([], Ret a).
Definition raise {A} (e : exn) : K A := ([], Raise e).

Definition bind {A B} (m : K A) (f : A -> K B) : K B :=
  match m with
  | (log, Ret a) => let (log', r) := f a in ((log ++ log')%list, r)
  | (log, Raise e) => (log, Raise e)
  end.

(** Lifting a pure computation that may raise. *)
Definition lift {A} (o : outcome A) : K A := ([], o).

(** [try: body except ApiException as e: handler(e.status, str(e))] *)
Definition try_except_ApiException {A} (body : K A) (handler : Z -> string -> K A) : K A :=
  match body with
  | (log, Raise (ApiException status text)) =>
      let (log', r) := handler status text in ((log ++ log')%list, r)
  | other => other
  end.

(** [str(e)] of an exception caught by [except Exception as e]. *)
Definition str_exn (e : exn) : string :=
  match e with
  | ApiException _ text | AttributeError text | TypeError text | OtherError text => text
  | UnicodeDecodeError => "'utf-8' codec can't decode bytes"
  | BinasciiError => "Incorrect padding"
  end.

(** [... except Exception as e: handler(str(e))], tried after the
    [ApiException] clause. *)
Definition try_except_Exception {A} (body : K A) (handler : string -> K A) : K A :=
  match body with
  | (log, Raise e) => let (log', r) := handler (str_exn e) in ((log ++ log')%list, r)
  | other => other
  end.

Definition requests {A} (m : K A) : list sent := fst m.
Definition result {A} (m : K A) : outcome A := snd m.

Declare Scope tool_scope.
Delimit Scope tool_scope with tool.
Notation "x <- m ;; k" := (bind m (fun x => k))
  (at level 61, m at next level, right associativity) : tool_scope.
Notation "m ;;; k" := (bind m (fun _ => k))
  (at level 61, right associativity) : tool_scope.

(** *** Library functions the tools call *)

(** [base64], the UTF-8 codec and the [str] methods of Python that the
    tools call. *)
Record pylib := {
  (** [base64.b64decode(s)]; raises [binascii.Error] *)
  b64decode : string -> outcome (list Byte.byte);
  (** [b.decode('utf-8')]; raises [UnicodeDecodeError] *)
  utf8_decode : list Byte.byte -> outcome string;
  (** [s.encode('utf-8')] *)
  utf8_encode : string -> list Byte.byte;
  (** [base64.b64encode(b).decode('utf-8')]: the output is ASCII *)
  b64encode_text : list Byte.byte -> string;
  (** [s.lower()], Unicode case mapping included *)
  lower : string -> string;
  (** [not s.strip()]: the text holds nothing but white space, Unicode
      white space included *)
  blank : string -> bool }.

(** Straight-line formatting of API objects that no gate, handler or
    argument check depends on.  Each may raise, e.g. on a missing
    attribute. *)
Record formatters := {
  (** [yaml.dump(resource_obj.to_dict(), default_flow_style=False)] *)
  yaml_dump : pyval -> outcome string;
  (** [rules_str] of [get_kubernetes_ingress] *)
  ingress_rules_str : pyval -> outcome string;
  (** [status_summary] of [get_kubernetes_hpa_status] *)
  hpa_status_summary : string -> string -> pyval -> outcome string;
  (** [status_summary] of [get_kubernetes_node_status] *)
  node_status_summary : string -> pyval -> outcome string;
  (** the text built from [nodes] in [get_kubernetes_cluster_status] *)
  cluster_status_summary : list pyval -> outcome string;
  (** one entry of [event_strings] in [get_kubernetes_events] *)
  event_string : pyval -> outcome string }.

(** *** String helpers *)

(** [needle in hay] *)
Fixpoint contains (needle hay : string) : bool :=
  prefix needle hay ||
  match hay with
  | EmptyString => false
  | String _ rest => contains needle rest
  end.

(** [d.get(k)] *)
Fixpoint dict_get {V} (k : string) (d : list (string * V)) : option V :=
  match d with
  | [] => None
  | (k', v) :: rest => if k =? k' then Some v else dict_get k rest
  end.

Section Tools.

(** The module-level clients [v1], [apps_v1], [autoscaling_v1] and
    [networking_v1], seen as the cluster behind them. *)
Variable api : cluster.
Variable py : pylib.
Variable fmt : formatters.

Definition call {A} (r : request A) : K A := ([Sent r], api A r).

Local Open Scope tool_scope.

Definition default_namespace : string := "default".

(** [port] is tested with [if port:], so [None] and [0] add no port. *)
Definition container (name image : string) (port : option Z) : pyval :=
  PDict ([("name", PStr name); ("image", PStr image)] ++
         (if truthy_int port
          then [("ports", PList [PDict [("containerPort", PInt (or_Z port 0))]])]
          else []))%list.

Definition create_kubernetes_pod (name image namespace : string) (port : option Z)
  : K string :=
  try_except_ApiException
    (let pod_manifest :=
       PDict [("apiVersion", PStr "v1"); ("kind", PStr "Pod");
              ("metadata", PDict [("name", PStr name)]);
              ("spec", PDict [("containers", PList [container name image port])])] in
     _ <- call (create_namespaced_pod pod_manifest namespace) ;;
     ret ("Pod " ++ name ++ " created successfully in namespace " ++ namespace ++ "."))
    (fun _ e => ret ("Error creating pod " ++ name ++ ": " ++ e)).

Definition delete_kubernetes_pod (name namespace : string) (confirm : bool) : K string :=
  try_except_ApiException
    (if negb confirm then
       ret ("Confirmation required to delete pod '" ++ name ++ "' in namespace '" ++
            namespace ++ "'. Please confirm by saying 'yes, delete pod " ++ name ++ "'.")
     else
       _ <- call (delete_namespaced_pod name namespace) ;;
       ret ("Pod " ++ name ++ " deleted successfully from namespace " ++ namespace ++ "."))
    (fun status e =>
       if (status =? 404)%Z
       then ret ("Pod " ++ name ++ " not found in namespace " ++ namespace ++ ".")
       else ret ("Error deleting pod " ++ name ++ ": " ++ e)).

Definition create_kubernetes_namespace (name : string) : K string :=
  try_except_ApiException
    (let namespace_manifest :=
       PDict [("apiVersion", PStr "v1"); ("kind", PStr "Namespace");
              ("metadata", PDict [("name", PStr name)])] in
     _ <- call (create_namespace namespace_manifest) ;;
     ret ("Namespace " ++ name ++ " created successfully."))
    (fun _ e => ret ("Error creating namespace " ++ name ++ ": " ++ e)).

Definition delete_kubernetes_namespace (name : string) (confirm : bool) : K string :=
  try_except_ApiException
    (if negb confirm then
       ret ("Confirmation required to delete namespace '" ++ name ++
            "'. Please confirm by saying 'yes, delete namespace " ++ name ++ "'.")
     else
       _ <- call (delete_namespace name) ;;
       ret ("Namespace " ++ name ++ " deleted successfully."))
    (fun status e =>
       if (status =? 404)%Z
       then ret ("Namespace " ++ name ++ " not found.")
       else ret ("Error deleting namespace " ++ name ++ ": " ++ e)).

Definition create_kubernetes_deployment
  (name image : string) (replicas : Z) (namespace : string) (port : option Z) : K string :=
  try_except_ApiException
    (let deployment_manifest :=
       PDict [("apiVersion", PStr "apps/v1"); ("kind", PStr "Deployment");
              ("metadata", PDict [("name", PStr name)]);
              ("spec", PDict [
                 ("replicas", PInt replicas);
                 ("selector", PDict [("matchLabels", PDict [("app", PStr name)])]);
                 ("template", PDict [
                    ("metadata", PDict [("labels", PDict [("app", PStr name)])]);
                    ("spec", PDict [("containers", PList [container name image port])])])])] in
     _ <- call (create_namespaced_deployment deployment_manifest namespace) ;;
     ret ("Deployment " ++ name ++ " created successfully in namespace " ++ namespace ++ "."))
    (fun _ e => ret ("Error creating deployment " ++ name ++ ": " ++ e)).

Definition delete_kubernetes_deployment (name namespace : string) (confirm : bool)
  : K string :=
  try_except_ApiException
    (if negb confirm then
       ret ("Confirmation required to delete deployment '" ++ name ++ "' in namespace '" ++
            namespace ++ "'. Please confirm by saying 'yes, delete deployment " ++
            name ++ "'.")
     else
       _ <- call (delete_namespaced_deployment name namespace) ;;
       ret ("Deployment " ++ name ++ " deleted successfully from namespace " ++
            namespace ++ "."))
    (fun status e =>
       if (status =? 404)%Z
       then ret ("Deployment " ++ name ++ " not found in namespace " ++ namespace ++ ".")
       else ret ("Error deleting deployment " ++ name ++ ": " ++ e)).

Definition create_kubernetes_service
  (name selector_app : string) (port target_port : Z) (namespace service_type : string)
  : K string :=
  try_except_ApiException
    (let service_manifest :=
       PDict [("apiVersion", PStr "v1"); ("kind", PStr "Service");
              ("metadata", PDict [("name", PStr name)]);
              ("spec", PDict [
                 ("selector", PDict [("app", PStr selector_app)]);
                 ("ports", PList [PDict [("protocol", PStr "TCP"); ("port", PInt port);
                                         ("targetPort", PInt target_port)]]);
                 ("type", PStr service_type)])] in
     _ <- call (create_namespaced_service service_manifest namespace) ;;
     ret ("Service " ++ name ++ " created successfully in namespace " ++ namespace ++ "."))
    (fun _ e => ret ("Error creating service " ++ name ++ ": " ++ e)).

Definition delete_kubernetes_service (name namespace : string) (confirm : bool) : K string :=
  try_except_ApiException
    (if negb confirm then
       ret ("Confirmation required to delete service '" ++ name ++ "' in namespace '" ++
            namespace ++ "'. Please confirm by saying 'yes, delete service " ++ name ++ "'.")
     else
       _ <- call (delete_namespaced_service name namespace) ;;
       ret ("Service " ++ name ++ " deleted successfully from namespace " ++ namespace ++ "."))
    (fun status e =>
       if (status =? 404)%Z
       then ret ("Service " ++ name ++ " not found in namespace " ++ namespace ++ ".")
       else ret ("Error deleting service " ++ name ++ ": " ++ e)).

Definition list_kubernetes_services (namespace : option string) : K string :=
  try_except_ApiException
    (if truthy_str namespace then
       services <- call (list_namespaced_service (str_opt namespace)) ;;
       ret ("Services in namespace " ++ str_opt namespace ++ ": " ++ join ", " services)
     else
       services <- call list_service_for_all_namespaces ;;
       ret ("All services: " ++ join ", " services))
    (fun _ e => ret ("Error listing services: " ++ e)).

Definition list_kubernetes_deployments (namespace : option string) : K string :=
  try_except_ApiException
    (if truthy_str namespace then
       deployments <- call (list_namespaced_deployment (str_opt namespace)) ;;
       ret ("Deployments in namespace " ++ str_opt namespace ++ ": " ++
            join ", " deployments)
     else
       deployments <- call list_deployment_for_all_namespaces ;;
       ret ("All deployments: " ++ join ", " deployments))
    (fun _ e => ret ("Error listing deployments: " ++ e)).

Definition list_kubernetes_namespaces : K string :=
  try_except_ApiException
    (namespaces <- call list_namespace ;;
     ret ("Available namespaces: " ++ join ", " namespaces))
    (fun _ e => ret ("Error listing namespaces: " ++ e)).

Definition get_kubernetes_pod (name namespace : string) : K string :=
  try_except_ApiException
    (pod <- call (read_namespaced_pod name namespace) ;;
     ret ("Pod " ++ name ++ " in namespace " ++ namespace ++ ": Status=" ++
          str_opt (phase pod) ++ ", IP=" ++ str_opt (pod_ip pod)))
    (fun status e =>
       if (status =? 404)%Z
       then ret ("Pod " ++ name ++ " not found in namespace " ++ namespace ++ ".")
       else ret ("Error getting pod " ++ name ++ ": " ++ e)).

Definition list_kubernetes_pods (namespace : option string) : K string :=
  try_except_ApiException
    (if truthy_str namespace then
       pods <- call (list_namespaced_pod (str_opt namespace)) ;;
       ret ("Pods in namespace " ++ str_opt namespace ++ ": " ++ join ", " pods)
     else
       pods <- call list_pod_for_all_namespaces ;;
       ret ("All pods: " ++ join ", " pods))
    (fun _ e => ret ("Error listing pods: " ++ e)).

(** [replicas < 0], evaluated only when [replicas] is an [int]. *)
Definition negative (v : pyval) : bool :=
  match int_value v with
  | Some z => (z <? 0)%Z
  | None => false
  end.

Definition scale_kubernetes_deployment (name : string) (replicas : pyval) (namespace : string)
  : K string :=
  try_except_ApiException
    (if negb (isinstance_int replicas) || negative replicas then
       ret "Error: Replicas must be a non-negative integer."
     else
       let patch := PDict [("spec", PDict [("replicas", replicas)])] in
       _ <- call (patch_namespaced_deployment_scale name namespace patch) ;;
       ret ("Deployment " ++ name ++ " in namespace " ++ namespace ++ " scaled to " ++
            str_scalar replicas ++ " replicas successfully."))
    (fun status e =>
       if (status =? 404)%Z
       then ret ("Deployment " ++ name ++ " not found in namespace " ++ namespace ++ ".")
       else ret ("Error scaling deployment " ++ name ++ ": " ++ e)).

Definition condition_line (c : V1Condition) : string :=
  "- " ++ str_opt (cond_type c) ++ ": " ++ str_opt (cond_status c) ++ " (Reason: " ++
  str_opt (cond_reason c) ++ ", Message: " ++ str_opt (cond_message c) ++ ")".

Definition get_kubernetes_deployment_status (name namespace : string) : K string :=
  try_except_ApiException
    (status <- call (read_namespaced_deployment_status name namespace) ;;
     let available := or_Z (available_replicas status) 0 in
     let ready := or_Z (ready_replicas status) 0 in
     let total := or_Z (replicas status) 0 in
     let updated := or_Z (updated_replicas status) 0 in
     let conditions_str :=
       match conditions status with
       | Some (c :: cs) => join nl (map condition_line (c :: cs))
       | _ => "No conditions reported."
       end in
     ret ("Deployment '" ++ name ++ "' in namespace '" ++ namespace ++ "' Status:" ++ nl ++
          "  Replicas: " ++ str_of_Z ready ++ " ready / " ++ str_of_Z available ++
          " available / " ++ str_of_Z updated ++ " updated / " ++ str_of_Z total ++
          " total" ++ nl ++
          "Conditions:" ++ nl ++ conditions_str))
    (fun status e =>
       if (status =? 404)%Z
       then ret ("Deployment " ++ name ++ " not found in namespace " ++ namespace ++ ".")
       else ret ("Error getting deployment status for " ++ name ++ ": " ++ e)).

Definition get_kubernetes_config_map (name namespace : string) : K string :=
  try_except_ApiException
    (config_map <- call (read_namespaced_config_map name namespace) ;;
     let data_str :=
       match cm_data config_map with
       | Some (kv :: kvs) =>
           join nl (map (fun '(key, value) => "  " ++ key ++ ": " ++ value) (kv :: kvs))
       | _ => "No data."
       end in
     ret ("ConfigMap '" ++ name ++ "' in namespace '" ++ namespace ++ "':" ++ nl ++
          "Data:" ++ nl ++ data_str))
    (fun status e =>
       if (status =? 404)%Z
       then ret ("ConfigMap '" ++ name ++ "' not found in namespace '" ++ namespace ++ "'.")
       else ret ("Error getting ConfigMap '" ++ name ++ "': " ++ e)).

(** One entry of [encoded_data]: [v.encode('utf-8')] needs a [str]. *)
Definition encode_value (kv : string * pyval) : outcome (string * pyval) :=
  let '(k, v) := kv in
  match v with
  | PStr s => Ret (k, PStr (b64encode_text py (utf8_encode py s)))
  | _ => Raise (AttributeError "object has no attribute 'encode'")
  end.

Definition create_kubernetes_secret
  (name namespace : string) (data : list (string * pyval)) (secret_type : string)
  : K string :=
  try_except_ApiException
    (encoded_data <- lift (omap encode_value data) ;;
     let secret_manifest :=
       PDict [("apiVersion", PStr "v1"); ("kind", PStr "Secret");
              ("metadata", PDict [("name", PStr name)]);
              ("type", PStr secret_type);
              ("data", PDict encoded_data)] in
     _ <- call (create_namespaced_secret secret_manifest namespace) ;;
     ret ("Secret '" ++ name ++ "' created successfully in namespace '" ++ namespace ++ "'."))
    (fun _ e => ret ("Error creating Secret '" ++ name ++ "': " ++ e)).

Definition delete_kubernetes_secret (name namespace : string) (confirm : bool) : K string :=
  try_except_ApiException
    (if negb confirm then
       ret ("Confirmation required to delete Secret '" ++ name ++ "' in namespace '" ++
            namespace ++ "'. Please confirm by saying 'yes, delete secret " ++ name ++ "'.")
     else
       _ <- call (delete_namespaced_secret name namespace) ;;
       ret ("Secret '" ++ name ++ "' deleted successfully from namespace '" ++
            namespace ++ "'."))
    (fun status e =>
       if (status =? 404)%Z
       then ret ("Secret '" ++ name ++ "' not found in namespace '" ++ namespace ++ "'.")
       else ret ("Error deleting Secret '" ++ name ++ "': " ++ e)).

(** One iteration of the loop over [secret.data.items()]: the value is
    decoded whether or not it is shown. *)
Definition secret_item (mask_data : bool) (kv : string * string) : outcome string :=
  let '(key, value_b64) := kv in
  obind (b64decode py value_b64) (fun raw =>
  obind (utf8_decode py raw) (fun decoded_value =>
  if mask_data
  then Ret ("  " ++ key ++ ": " ++ "********")
  else Ret ("  " ++ key ++ ": " ++ decoded_value))).

Definition get_kubernetes_secret (name namespace : string) (mask_data : bool) : K string :=
  try_except_ApiException
    (secret <- call (read_namespaced_secret name namespace) ;;
     data_str <-
       match secret_data secret with
       | Some (kv :: kvs) =>
           data_items <- lift (omap (secret_item mask_data) (kv :: kvs)) ;;
           ret (join nl data_items)
       | _ => ret "No data."
       end ;;
     ret ("Secret '" ++ name ++ "' in namespace '" ++ namespace ++ "':" ++ nl ++
          "Type: " ++ str_opt (secret_type secret) ++ nl ++
          "Data:" ++ nl ++ data_str))
    (fun status e =>
       if (status =? 404)%Z
       then ret ("Secret '" ++ name ++ "' not found in namespace '" ++ namespace ++ "'.")
       else ret ("Error getting Secret '" ++ name ++ "': " ++ e)).

Definition create_kubernetes_ingress
  (name namespace host service_name : string) (service_port : Z) (path : string) : K string :=
  try_except_ApiException
    (let ingress_manifest :=
       PDict [("apiVersion", PStr "networking.k8s.io/v1"); ("kind", PStr "Ingress");
              ("metadata", PDict [("name", PStr name)]);
              ("spec", PDict [("rules", PList [PDict [
                 ("host", PStr host);
                 ("http", PDict [("paths", PList [PDict [
                    ("path", PStr path);
                    ("pathType", PStr "Prefix");
                    ("backend", PDict [("service", PDict [
                       ("name", PStr service_name);
                       ("port", PDict [("number", PInt service_port)])])])]])])]])])] in
     _ <- call (create_namespaced_ingress ingress_manifest namespace) ;;
     ret ("Ingress '" ++ name ++ "' created successfully in namespace '" ++ namespace ++
          "' for host '" ++ host ++ "'."))
    (fun _ e => ret ("Error creating Ingress '" ++ name ++ "': " ++ e)).

Definition delete_kubernetes_ingress (name namespace : string) (confirm : bool) : K string :=
  try_except_ApiException
    (if negb confirm then
       ret ("Confirmation required to delete Ingress '" ++ name ++ "' in namespace '" ++
            namespace ++ "'. Please confirm by saying 'yes, delete ingress " ++ name ++ "'.")
     else
       _ <- call (delete_namespaced_ingress name namespace) ;;
       ret ("Ingress '" ++ name ++ "' deleted successfully from namespace '" ++
            namespace ++ "'."))
    (fun status e =>
       if (status =? 404)%Z
       then ret ("Ingress '" ++ name ++ "' not found in namespace '" ++ namespace ++ "'.")
       else ret ("Error deleting Ingress '" ++ name ++ "': " ++ e)).

Definition get_kubernetes_ingress (name namespace : string) : K string :=
  try_except_ApiException
    (ingress <- call (read_namespaced_ingress name namespace) ;;
     rules_str <- lift (ingress_rules_str fmt ingress) ;;
     ret ("Ingress '" ++ name ++ "' in namespace '" ++ namespace ++ "':" ++ nl ++
          "Rules:" ++ nl ++ rules_str))
    (fun status e =>
       if (status =? 404)%Z
       then ret ("Ingress '" ++ name ++ "' not found in namespace '" ++ namespace ++ "'.")
       else ret ("Error getting Ingress '" ++ name ++ "': " ++ e)).

Definition get_kubernetes_hpa_status (name namespace : string) : K string :=
  try_except_ApiException
    (hpa <- call (read_namespaced_horizontal_pod_autoscaler_status name namespace) ;;
     lift (hpa_status_summary fmt name namespace hpa))
    (fun status e =>
       if (status =? 404)%Z
       then ret ("HPA '" ++ name ++ "' not found in namespace '" ++ namespace ++ "'.")
       else ret ("Error getting HPA status for '" ++ name ++ "': " ++ e)).

Definition create_kubernetes_pvc
  (name namespace storage_class size : string) (access_modes : list string) : K string :=
  try_except_ApiException
    (let pvc_manifest :=
       PDict [("apiVersion", PStr "v1"); ("kind", PStr "PersistentVolumeClaim");
              ("metadata", PDict [("name", PStr name)]);
              ("spec", PDict [
                 ("accessModes", PList (map PStr access_modes));
                 ("storageClassName", PStr storage_class);
                 ("resources", PDict [("requests", PDict [("storage", PStr size)])])])] in
     _ <- call (create_namespaced_persistent_volume_claim pvc_manifest namespace) ;;
     ret ("PVC '" ++ name ++ "' created successfully in namespace '" ++ namespace ++
          "' with size " ++ size ++ "."))
    (fun _ e => ret ("Error creating PVC '" ++ name ++ "': " ++ e)).

Definition delete_kubernetes_pvc (name namespace : string) (confirm : bool) : K string :=
  try_except_ApiException
    (if negb confirm then
       ret ("Confirmation required to delete PVC '" ++ name ++ "' in namespace '" ++
            namespace ++ "'. Please confirm by saying 'yes, delete pvc " ++ name ++ "'.")
     else
       _ <- call (delete_namespaced_persistent_volume_claim name namespace) ;;
       ret ("PVC '" ++ name ++ "' deleted successfully from namespace '" ++ namespace ++ "'."))
    (fun status e =>
       if (status =? 404)%Z
       then ret ("PVC '" ++ name ++ "' not found in namespace '" ++ namespace ++ "'.")
       else ret ("Error deleting PVC '" ++ name ++ "': " ++ e)).

Definition get_kubernetes_pvc (name namespace : string) : K string :=
  try_except_ApiException
    (pvc <- call (read_namespaced_persistent_volume_claim name namespace) ;;
     let status := str_opt (pvc_phase pvc) in
     let capacity :=
       match pvc_capacity pvc with
       | Some (kv :: kvs) =>
           match dict_get "storage" (kv :: kvs) with Some c => c | None => "N/A" end
       | _ => "N/A"
       end in
     let volume := or_str (pvc_volume_name pvc) "Unbound" in
     let storage_class := str_opt (pvc_storage_class_name pvc) in
     modes <-
       match pvc_access_modes pvc with
       | Some l => ret (join ", " l)
       | None => raise (TypeError "can only join an iterable")
       end ;;
     ret ("PVC '" ++ name ++ "' in namespace '" ++ namespace ++ "':" ++ nl ++
          "  Status: " ++ status ++ nl ++
          "  Volume: " ++ volume ++ nl ++
          "  Capacity: " ++ capacity ++ nl ++
          "  StorageClass: " ++ storage_class ++ nl ++
          "  Access Modes: " ++ modes))
    (fun status e =>
       if (status =? 404)%Z
       then ret ("PVC '" ++ name ++ "' not found in namespace '" ++ namespace ++ "'.")
       else ret ("Error getting PVC '" ++ name ++ "': " ++ e)).

(** [', '.join(l) if l else 'None'] *)
Definition join_or_None (l : list string) : string :=
  match l with
  | [] => "None"
  | _ => join ", " l
  end.

Definition list_kubernetes_pvcs (namespace : option string) : K string :=
  try_except_ApiException
    (if truthy_str namespace then
       pvcs <- call (list_namespaced_persistent_volume_claim (str_opt namespace)) ;;
       ret ("PVCs in namespace " ++ str_opt namespace ++ ": " ++ join_or_None pvcs)
     else
       pvcs <- call list_persistent_volume_claim_for_all_namespaces ;;
       ret ("All PVCs: " ++ join_or_None pvcs))
    (fun _ e => ret ("Error listing PVCs: " ++ e)).

Definition create_kubernetes_hpa
  (name namespace scale_target_kind scale_target_name : string)
  (min_replicas max_replicas cpu_utilization : Z) : K string :=
  try_except_ApiException
    (let hpa_manifest :=
       PDict [("apiVersion", PStr "autoscaling/v1");
              ("kind", PStr "HorizontalPodAutoscaler");
              ("metadata", PDict [("name", PStr name)]);
              ("spec", PDict [
                 ("scaleTargetRef", PDict [("apiVersion", PStr "apps/v1");
                                           ("kind", PStr scale_target_kind);
                                           ("name", PStr scale_target_name)]);
                 ("minReplicas", PInt min_replicas);
                 ("maxReplicas", PInt max_replicas);
                 ("targetCPUUtilizationPercentage", PInt cpu_utilization)])] in
     _ <- call (create_namespaced_horizontal_pod_autoscaler hpa_manifest namespace) ;;
     ret ("HPA '" ++ name ++ "' created successfully in namespace '" ++ namespace ++ "'."))
    (fun _ e => ret ("Error creating HPA '" ++ name ++ "': " ++ e)).

Definition delete_kubernetes_hpa (name namespace : string) (confirm : bool) : K string :=
  try_except_ApiException
    (if negb confirm then
       ret ("Confirmation required to delete HPA '" ++ name ++ "' in namespace '" ++
            namespace ++ "'. Please confirm by saying 'yes, delete hpa " ++ name ++ "'.")
     else
       _ <- call (delete_namespaced_horizontal_pod_autoscaler name namespace) ;;
       ret ("HPA '" ++ name ++ "' deleted successfully from namespace '" ++ namespace ++ "'."))
    (fun status e =>
       if (status =? 404)%Z
       then ret ("HPA '" ++ name ++ "' not found in namespace '" ++ namespace ++ "'.")
       else ret ("Error deleting HPA '" ++ name ++ "': " ++ e)).

Definition list_kubernetes_hpas (namespace : option string) : K string :=
  try_except_ApiException
    (if truthy_str namespace then
       hpas <- call (list_namespaced_horizontal_pod_autoscaler (str_opt namespace)) ;;
       ret ("HPAs in namespace " ++ str_opt namespace ++ ": " ++ join_or_None hpas)
     else
       hpas <- call list_horizontal_pod_autoscaler_for_all_namespaces ;;
       ret ("All HPAs: " ++ join_or_None hpas))
    (fun _ e => ret ("Error listing HPAs: " ++ e)).

Definition list_kubernetes_network_policies (namespace : string) : K string :=
  try_except_ApiException
    (policies <- call (list_namespaced_network_policy namespace) ;;
     ret ("NetworkPolicies in namespace " ++ namespace ++ ": " ++ join_or_None policies))
    (fun _ e => ret ("Error listing NetworkPolicies: " ++ e)).

(** [resource_api_map]: the read method behind each describable type (the
    client object is determined by the method). *)
Definition resource_api_map : list (string * string) :=
  [("pod", "read_namespaced_pod");
   ("deployment", "read_namespaced_deployment");
   ("service", "read_namespaced_service");
   ("namespace", "read_namespace");
   ("node", "read_node");
   ("configmap", "read_namespaced_config_map");
   ("secret", "read_namespaced_secret");
   ("ingress", "read_namespaced_ingress");
   ("pvc", "read_namespaced_persistent_volume_claim");
   ("hpa", "read_namespaced_horizontal_pod_autoscaler");
   ("networkpolicy", "read_namespaced_network_policy")].

Definition describe_kubernetes_resource
  (resource_type name : string) (namespace : option string) : K string :=
  let resource_type := lower py resource_type in
  match dict_get resource_type resource_api_map with
  | None =>
      ret ("Unsupported resource type for description: " ++ resource_type ++
           ". Supported types: " ++ join ", " (map fst resource_api_map))
  | Some read_method_name =>
      let described (resource_obj : pyval) : K string :=
        dumped <- lift (yaml_dump fmt resource_obj) ;;
        ret ("Description of " ++ resource_type ++ " '" ++ name ++ "' in namespace '" ++
             or_str namespace "N/A" ++ "':" ++ nl ++ dumped) in
      try_except_Exception
        (try_except_ApiException
           (if contains "namespaced" read_method_name then
              if negb (truthy_str namespace) then
                ret ("Namespace is required for resource type '" ++ resource_type ++ "'.")
              else
                resource_obj <- call (read_by_method read_method_name name namespace) ;;
                described resource_obj
            else
              resource_obj <- call (read_by_method read_method_name name None) ;;
              described resource_obj)
           (fun status e =>
              if (status =? 404)%Z
              then ret (resource_type ++ " '" ++ name ++ "' not found in namespace '" ++
                        or_str namespace "N/A" ++ "'.")
              else ret ("Error describing " ++ resource_type ++ " '" ++ name ++ "': " ++ e)))
        (fun e => ret ("An unexpected error occurred while describing " ++ resource_type ++
                       " '" ++ name ++ "': " ++ e))
  end.

Definition get_kubernetes_node_status (name : string) : K string :=
  try_except_ApiException
    (node <- call (read_node_status name) ;;
     lift (node_status_summary fmt name node))
    (fun status e =>
       if (status =? 404)%Z
       then ret ("Node '" ++ name ++ "' not found.")
       else ret ("Error getting node status for '" ++ name ++ "': " ++ e)).

Definition get_kubernetes_cluster_status : K string :=
  try_except_ApiException
    (nodes <- call list_node ;;
     lift (cluster_status_summary fmt nodes))
    (fun _ e => ret ("Error getting cluster status: " ++ e)).

Definition get_kubernetes_events
  (namespace field_selector : option string) (limit : Z) : K string :=
  try_except_ApiException
    (events <-
       (if truthy_str namespace
        then call (list_namespaced_event (str_opt namespace) field_selector limit)
        else call (list_event_for_all_namespaces field_selector limit)) ;;
     match events with
     | [] =>
         ret ("No events found in " ++
              (if truthy_str namespace then "namespace " ++ str_opt namespace
               else "all namespaces") ++
              (if truthy_str field_selector then " with selector " ++ str_opt field_selector
               else "") ++ ".")
     | _ =>
         event_strings <- lift (omap (event_string fmt) events) ;;
         ret ("Kubernetes Events:" ++ nl ++ join nl event_strings)
     end)
    (fun _ e => ret ("Error getting Kubernetes events: " ++ e)).

Definition get_kubernetes_pod_logs (name namespace : string) (tail_lines : Z) : K string :=
  try_except_ApiException
    (logs <- call (read_namespaced_pod_log name namespace tail_lines) ;;
     if blank py logs then
       ret ("No logs found for pod '" ++ name ++ "' in namespace '" ++ namespace ++ "'.")
     else
       ret ("Last " ++ str_of_Z tail_lines ++ " lines of logs for pod '" ++ name ++
            "' in namespace '" ++ namespace ++ "':" ++ nl ++ logs))
    (fun status e =>
       if (status =? 404)%Z
       then ret ("Pod '" ++ name ++ "' not found in namespace '" ++ namespace ++ "'.")
       else ret ("Error getting logs for pod '" ++ name ++ "': " ++ e)).

End Tools.

(** *** The registry

    A tool call as the agent proposes it: the tool and its arguments, with
    the defaults of the signature filled in ([namespace = "default"],
    [confirm = False], [mask_data = True], ...). *)
Inductive invocation : Type :=
| Call_list_kubernetes_namespaces
| Call_get_kubernetes_pod (name namespace : string)
| Call_list_kubernetes_pods (namespace : option string)
| Call_get_kubernetes_pod_logs (name namespace : string) (tail_lines : Z)
| Call_get_kubernetes_events (namespace field_selector : option string) (limit : Z)
| Call_get_kubernetes_deployment_status (name namespace : string)
| Call_get_kubernetes_config_map (name namespace : string)
| Call_get_kubernetes_secret (name namespace : string) (mask_data : bool)
| Call_create_kubernetes_secret
    (name namespace : string) (data : list (string * pyval)) (secret_type : string)
| Call_delete_kubernetes_secret (name namespace : string) (confirm : bool)
| Call_get_kubernetes_ingress (name namespace : string)
| Call_create_kubernetes_ingress
    (name namespace host service_name : string) (service_port : Z) (path : string)
| Call_delete_kubernetes_ingress (name namespace : string) (confirm : bool)
| Call_get_kubernetes_node_status (name : string)
| Call_get_kubernetes_cluster_status
| Call_get_kubernetes_hpa_status (name namespace : string)
| Call_list_kubernetes_hpas (namespace : option string)
| Call_create_kubernetes_hpa
    (name namespace scale_target_kind scale_target_name : string)
    (min_replicas max_replicas cpu_utilization : Z)
| Call_delete_kubernetes_hpa (name namespace : string) (confirm : bool)
| Call_describe_kubernetes_resource (resource_type name : string) (namespace : option string)
| Call_create_kubernetes_pod (name image namespace : string) (port : option Z)
| Call_delete_kubernetes_pod (name namespace : string) (confirm : bool)
| Call_create_kubernetes_namespace (name : string)
| Call_delete_kubernetes_namespace (name : string) (confirm : bool)
| Call_create_kubernetes_deployment
    (name image : string) (replicas : Z) (namespace : string) (port : option Z)
| Call_delete_kubernetes_deployment (name namespace : string) (confirm : bool)
| Call_scale_kubernetes_deployment (name : string) (replicas : pyval) (namespace : string)
| Call_create_kubernetes_service
    (name selector_app : string) (port target_port : Z) (namespace service_type : string)
| Call_delete_kubernetes_service (name namespace : string) (confirm : bool)
| Call_list_kubernetes_services (namespace : option string)
| Call_list_kubernetes_deployments (namespace : option string)
| Call_create_kubernetes_pvc
    (name namespace storage_class size : string) (access_modes : list string)
| Call_delete_kubernetes_pvc (name namespace : string) (confirm : bool)
| Call_get_kubernetes_pvc (name namespace : string)
| Call_list_kubernetes_pvcs (namespace : option string)
| Call_list_kubernetes_network_policies (namespace : string).

(** [tool.__name__] *)
Definition tool_name (inv : invocation) : string :=
  match inv with
  | Call_list_kubernetes_namespaces => "list_kubernetes_namespaces"
  | Call_get_kubernetes_pod _ _ => "get_kubernetes_pod"
  | Call_list_kubernetes_pods _ => "list_kubernetes_pods"
  | Call_get_kubernetes_pod_logs _ _ _ => "get_kubernetes_pod_logs"
  | Call_get_kubernetes_events _ _ _ => "get_kubernetes_events"
  | Call_get_kubernetes_deployment_status _ _ => "get_kubernetes_deployment_status"
  | Call_get_kubernetes_config_map _ _ => "get_kubernetes_config_map"
  | Call_get_kubernetes_secret _ _ _ => "get_kubernetes_secret"
  | Call_create_kubernetes_secret _ _ _ _ => "create_kubernetes_secret"
  | Call_delete_kubernetes_secret _ _ _ => "delete_kubernetes_secret"
  | Call_get_kubernetes_ingress _ _ => "get_kubernetes_ingress"
  | Call_create_kubernetes_ingress _ _ _ _ _ _ => "create_kubernetes_ingress"
  | Call_delete_kubernetes_ingress _ _ _ => "delete_kubernetes_ingress"
  | Call_get_kubernetes_node_status _ => "get_kubernetes_node_status"
  | Call_get_kubernetes_cluster_status => "get_kubernetes_cluster_status"
  | Call_get_kubernetes_hpa_status _ _ => "get_kubernetes_hpa_status"
  | Call_list_kubernetes_hpas _ => "list_kubernetes_hpas"
  | Call_create_kubernetes_hpa _ _ _ _ _ _ _ => "create_kubernetes_hpa"
  | Call_delete_kubernetes_hpa _ _ _ => "delete_kubernetes_hpa"
  | Call_describe_kubernetes_resource _ _ _ => "describe_kubernetes_resource"
  | Call_create_kubernetes_pod _ _ _ _ => "create_kubernetes_pod"
  | Call_delete_kubernetes_pod _ _ _ => "delete_kubernetes_pod"
  | Call_create_kubernetes_namespace _ => "create_kubernetes_namespace"
  | Call_delete_kubernetes_namespace _ _ => "delete_kubernetes_namespace"
  | Call_create_kubernetes_deployment _ _ _ _ _ => "create_kubernetes_deployment"
  | Call_delete_kubernetes_deployment _ _ _ => "delete_kubernetes_deployment"
  | Call_scale_kubernetes_deployment _ _ _ => "scale_kubernetes_deployment"
  | Call_create_kubernetes_service _ _ _ _ _ _ => "create_kubernetes_service"
  | Call_delete_kubernetes_service _ _ _ => "delete_kubernetes_service"
  | Call_list_kubernetes_services _ => "list_kubernetes_services"
  | Call_list_kubernetes_deployments _ => "list_kubernetes_deployments"
  | Call_create_kubernetes_pvc _ _ _ _ _ => "create_kubernetes_pvc"
  | Call_delete_kubernetes_pvc _ _ _ => "delete_kubernetes_pvc"
  | Call_get_kubernetes_pvc _ _ => "get_kubernetes_pvc"
  | Call_list_kubernetes_pvcs _ => "list_kubernetes_pvcs"
  | Call_list_kubernetes_network_policies _ => "list_kubernetes_network_policies"
  end.


(** Calling the registered function with the proposed arguments. *)
Definition invoke (api : cluster) (py : pylib) (fmt : formatters) (inv : invocation)
  : K string :=
  match inv with
  | Call_list_kubernetes_namespaces => list_kubernetes_namespaces api
  | Call_get_kubernetes_pod n ns => get_kubernetes_pod api n ns
  | Call_list_kubernetes_pods ns => list_kubernetes_pods api ns
  | Call_get_kubernetes_pod_logs n ns t => get_kubernetes_pod_logs api py n ns t
  | Call_get_kubernetes_events ns fs l => get_kubernetes_events api fmt ns fs l
  | Call_get_kubernetes_deployment_status n ns => get_kubernetes_deployment_status api n ns
  | Call_get_kubernetes_config_map n ns => get_kubernetes_config_map api n ns
  | Call_get_kubernetes_secret n ns m => get_kubernetes_secret api py n ns m
  | Call_create_kubernetes_secret n ns d t => create_kubernetes_secret api py n ns d t
  | Call_delete_kubernetes_secret n ns c => delete_kubernetes_secret api n ns c
  | Call_get_kubernetes_ingress n ns => get_kubernetes_ingress api fmt n ns
  | Call_create_kubernetes_ingress n ns h s p pa => create_kubernetes_ingress api n ns h s p pa
  | Call_delete_kubernetes_ingress n ns c => delete_kubernetes_ingress api n ns c
  | Call_get_kubernetes_node_status n => get_kubernetes_node_status api fmt n
  | Call_get_kubernetes_cluster_status => get_kubernetes_cluster_status api fmt
  | Call_get_kubernetes_hpa_status n ns => get_kubernetes_hpa_status api fmt n ns
  | Call_list_kubernetes_hpas ns => list_kubernetes_hpas api ns
  | Call_create_kubernetes_hpa n ns k t mn mx cpu => create_kubernetes_hpa api n ns k t mn mx cpu
  | Call_delete_kubernetes_hpa n ns c => delete_kubernetes_hpa api n ns c
  | Call_describe_kubernetes_resource t n ns => describe_kubernetes_resource api py fmt t n ns
  | Call_create_kubernetes_pod n i ns p => create_kubernetes_pod api n i ns p
  | Call_delete_kubernetes_pod n ns c => delete_kubernetes_pod api n ns c
  | Call_create_kubernetes_namespace n => create_kubernetes_namespace api n
  | Call_delete_kubernetes_namespace n c => delete_kubernetes_namespace api n c
  | Call_create_kubernetes_deployment n i r ns p => create_kubernetes_deployment api n i r ns p
  | Call_delete_kubernetes_deployment n ns c => delete_kubernetes_deployment api n ns c
  | Call_scale_kubernetes_deployment n r ns => scale_kubernetes_deployment api n r ns
  | Call_create_kubernetes_service n s p tp ns ty => create_kubernetes_service api n s p tp ns ty
  | Call_delete_kubernetes_service n ns c => delete_kubernetes_service api n ns c
  | Call_list_kubernetes_services ns => list_kubernetes_services api ns
  | Call_list_kubernetes_deployments ns => list_kubernetes_deployments api ns
  | Call_create_kubernetes_pvc n ns sc sz am => create_kubernetes_pvc api n ns sc sz am
  | Call_delete_kubernetes_pvc n ns c => delete_kubernetes_pvc api n ns c
  | Call_get_kubernetes_pvc n ns => get_kubernetes_pvc api n ns
  | Call_list_kubernetes_pvcs ns => list_kubernetes_pvcs api ns
  | Call_list_kubernetes_network_policies ns => list_kubernetes_network_policies api ns
  end.

(** *** Classification of the operations *)

Inductive op_kind : Type := Create | Delete | Scale | Read.

(** The registry carries no flag: what an operation does to the cluster is
    told by the verb its name starts with. *)
Definition kind_of (op : string) : op_kind :=
  if prefix "create_" op then Create
  else if prefix "delete_" op then Delete
  else if prefix "scale_" op then Scale
  else Read.

Definition mutating (op : string) : bool :=
  match kind_of op with
  | Read => false
  | _ => true
  end.

(** The [confirm] argument, for the tools whose signature has one. *)
Definition confirm_arg (inv : invocation) : option bool :=
  match inv with
  | Call_delete_kubernetes_secret _ _ c | Call_delete_kubernetes_ingress _ _ c
  | Call_delete_kubernetes_hpa _ _ c | Call_delete_kubernetes_pod _ _ c
  | Call_delete_kubernetes_namespace _ c | Call_delete_kubernetes_deployment _ _ c
  | Call_delete_kubernetes_service _ _ c | Call_delete_kubernetes_pvc _ _ c => Some c
  | _ => None
  end.

(** The phrase a delete tool asks the user to say. *)
Definition confirmation_phrase (inv : invocation) : option string :=
  match inv with
  | Call_delete_kubernetes_secret n _ _ => Some ("yes, delete secret " ++ n)
  | Call_delete_kubernetes_ingress n _ _ => Some ("yes, delete ingress " ++ n)
  | Call_delete_kubernetes_hpa n _ _ => Some ("yes, delete hpa " ++ n)
  | Call_delete_kubernetes_pod n _ _ => Some ("yes, delete pod " ++ n)
  | Call_delete_kubernetes_namespace n _ => Some ("yes, delete namespace " ++ n)
  | Call_delete_kubernetes_deployment n _ _ => Some ("yes, delete deployment " ++ n)
  | Call_delete_kubernetes_service n _ _ => Some ("yes, delete service " ++ n)
  | Call_delete_kubernetes_pvc n _ _ => Some ("yes, delete pvc " ++ n)
  | _ => None
  end.

(** The text a delete tool returns instead of deleting; it ends with the
    phrase, quoted. *)
Definition confirmation_prompt (inv : invocation) : option string :=
  match inv with
  | Call_delete_kubernetes_secret n ns _ =>
      Some ("Confirmation required to delete Secret '" ++ n ++ "' in namespace '" ++ ns ++
            "'. Please confirm by saying '" ++ ("yes, delete secret " ++ n) ++ "'.")
  | Call_delete_kubernetes_ingress n ns _ =>
      Some ("Confirmation required to delete Ingress '" ++ n ++ "' in namespace '" ++ ns ++
            "'. Please confirm by saying '" ++ ("yes, delete ingress " ++ n) ++ "'.")
  | Call_delete_kubernetes_hpa n ns _ =>
      Some ("Confirmation required to delete HPA '" ++ n ++ "' in namespace '" ++ ns ++
            "'. Please confirm by saying '" ++ ("yes, delete hpa " ++ n) ++ "'.")
  | Call_delete_kubernetes_pod n ns _ =>
      Some ("Confirmation required to delete pod '" ++ n ++ "' in namespace '" ++ ns ++
            "'. Please confirm by saying '" ++ ("yes, delete pod " ++ n) ++ "'.")
  | Call_delete_kubernetes_namespace n _ =>
      Some ("Confirmation required to delete namespace '" ++ n ++
            "'. Please confirm by saying '" ++ ("yes, delete namespace " ++ n) ++ "'.")
  | Call_delete_kubernetes_deployment n ns _ =>
      Some ("Confirmation required to delete deployment '" ++ n ++ "' in namespace '" ++ ns ++
            "'. Please confirm by saying '" ++ ("yes, delete deployment " ++ n) ++ "'.")
  | Call_delete_kubernetes_service n ns _ =>
      Some ("Confirmation required to delete service '" ++ n ++ "' in namespace '" ++ ns ++
            "'. Please confirm by saying '" ++ ("yes, delete service " ++ n) ++ "'.")
  | Call_delete_kubernetes_pvc n ns _ =>
      Some ("Confirmation required to delete PVC '" ++ n ++ "' in namespace '" ++ ns ++
            "'. Please confirm by saying '" ++ ("yes, delete pvc " ++ n) ++ "'.")
  | _ => None
  end.

(** *** The conversation, as the Confirmation Gate of the specification reads it *)

Inductive role : Type := User | Assistant | Tool.

Record turn := { turn_role : role; turn_content : string }.

(** Some user-authored turn of the history holds the phrase verbatim. *)
Definition user_said (history : list turn) (phrase : string) : bool :=
  existsb (fun t => match turn_role t with
                    | User => contains phrase (turn_content t)
                    | _ => false
                    end) history.

(** The history holds the confirmation an invocation needs; an operation
    for which the source defines no phrase cannot have been confirmed. *)
Definition confirmed_in (history : list turn) (inv : invocation) : bool :=
  match confirmation_phrase inv with
  | Some phrase => user_said history phrase
  | None => false
  end.

(** The agent is built with [tools=k8s_tools]: a proposed call is executed
    by calling the registered function on the proposed arguments.  The
    conversation is no argument of any tool. *)
Definition execute_proposed
  (api : cluster) (py : pylib) (fmt : formatters) (history : list turn) (inv : invocation)
  : K string :=
  invoke api py fmt inv.


(** *** What a masked secret shows *)

(** The keys of [secret.data], in the order of the dict. *)
Definition data_keys (s : V1Secret) : list string :=
  match secret_data s with
  | Some d => map fst d
  | None => []
  end.

(** Every value of the secret is base64 of well-formed UTF-8. *)
Definition decodable (py : pylib) (s : V1Secret) : Prop :=
  forall d key value, secret_data s = Some d -> In (key, value) d ->
  exists raw text, b64decode py value = Ret raw /\ utf8_decode py raw = Ret text.

(** The text that names the secret, its type and its keys, each value
    replaced by eight stars. *)
Definition masked_text (name namespace : string) (type : option string) (keys : list string)
  : string :=
  "Secret '" ++ name ++ "' in namespace '" ++ namespace ++ "':" ++ nl ++
  "Type: " ++ str_opt type ++ nl ++
  "Data:" ++ nl ++
  match keys with
  | [] => "No data."
  | _ => join nl (map (fun key => "  " ++ key ++ ": ********") keys)
  end.

End K8sTools.

(* ===================================================================== *)
(** ** A reference instance of the library functions                      *)
(* ===================================================================== *)

(** RFC 4648 base64 and RFC 3629 UTF-8 over texts held as their UTF-8
    bytes.  On the canonical base64 the API server stores, this is what
    [base64.b64decode(v).decode('utf-8')] computes.  The statements about
    the tools hold for every [pylib]; this one instantiates them. *)
Module RefPy.

Import K8sTools.

Definition bytes_of_text (s : string) : list Byte.byte := list_byte_of_string s.
Definition text_of_bytes (b : list Byte.byte) : string := string_of_list_byte b.

(** Position of a character in the base64 alphabet. *)
Definition b64_index (c : ascii) : option N :=
  let n := N_of_ascii c in
  if ((65 <=? n) && (n <=? 90))%N then Some (n - 65)%N
  else if ((97 <=? n) && (n <=? 122))%N then Some (n - 71)%N
  else if ((48 <=? n) && (n <=? 57))%N then Some (n + 4)%N
  else if (n =? 43)%N then Some 62%N
  else if (n =? 47)%N then Some 63%N
  else None.

Definition b64_char (i : N) : ascii :=
  if (i <? 26)%N then ascii_of_N (i + 65)
  else if (i <? 52)%N then ascii_of_N (i + 71)
  else if (i <? 62)%N then ascii_of_N (i - 4)
  else if (i =? 62)%N then "+"%char
  else "/"%char.

Definition byte_of_N (n : N) : Byte.byte :=
  match Byte.of_N (n mod 256) with
  | Some b => b
  | None => Byte.x00
  end.

Definition is_pad (c : ascii) : bool := (N_of_ascii c =? 61)%N.

(** Texts are decoded four characters at a time; padding may only close
    the last group. *)
Fixpoint b64decode_ref_aux (fuel : nat) (s : string) : outcome (list Byte.byte) :=
  match fuel with
  | O => Raise BinasciiError
  | S fuel' =>
      match s with
      | EmptyString => Ret []
      | String c1 (String c2 (String c3 (String c4 rest))) =>
          match b64_index c1, b64_index c2 with
          | Some i1, Some i2 =>
              let b1 := byte_of_N (i1 * 4 + i2 / 16) in
              match b64_index c3, b64_index c4 with
              | Some i3, Some i4 =>
                  obind (b64decode_ref_aux fuel' rest) (fun tl =>
                  Ret (b1 :: byte_of_N ((i2 mod 16) * 16 + i3 / 4)
                          :: byte_of_N ((i3 mod 4) * 64 + i4) :: tl))
              | Some i3, None =>
                  if is_pad c4 && (rest =? "")
                  then Ret [b1; byte_of_N ((i2 mod 16) * 16 + i3 / 4)]
                  else Raise BinasciiError
              | None, _ =>
                  if is_pad c3 && is_pad c4 && (rest =? "")
                  then Ret [b1]
                  else Raise BinasciiError
              end
          | _, _ => Raise BinasciiError
          end
      | _ => Raise BinasciiError
      end
  end.

Definition b64decode_ref (s : string) : outcome (list Byte.byte) :=
  b64decode_ref_aux (S (String.length s)) s.

Fixpoint b64encode_ref (b : list Byte.byte) : string :=
  let n (x : Byte.byte) := Byte.to_N x in
  match b with
  | [] => EmptyString
  | [x] =>
      String (b64_char (n x / 4)) (String (b64_char ((n x mod 4) * 16)) "==")
  | [x; y] =>
      String (b64_char (n x / 4))
        (String (b64_char ((n x mod 4) * 16 + n y / 16))
           (String (b64_char ((n y mod 16) * 4)) "="))
  | x :: y :: z :: rest =>
      String (b64_char (n x / 4))
        (String (b64_char ((n x mod 4) * 16 + n y / 16))
           (String (b64_char ((n y mod 16) * 4 + n z / 64))
              (String (b64_char (n z mod 64)) (b64encode_ref rest))))
  end.

Definition continuation (n : N) : bool := ((128 <=? n) && (n <=? 191))%N.

(** Well-formed UTF-8 (no overlong forms, no surrogates, at most U+10FFFF). *)
Fixpoint utf8_valid (fuel : nat) (l : list N) : bool :=
  match fuel with
  | O => false
  | S fuel' =>
      match l with
      | [] => true
      | a :: rest =>
          if (a <=? 127)%N then utf8_valid fuel' rest
          else if ((194 <=? a) && (a <=? 223))%N then
            match rest with
            | b :: rest' => continuation b && utf8_valid fuel' rest'
            | _ => false
            end
          else if ((224 <=? a) && (a <=? 239))%N then
            match rest with
            | b :: c :: rest' =>
                continuation b && continuation c
                && (if (a =? 224)%N then (160 <=? b)%N else true)
                && (if (a =? 237)%N then (b <=? 159)%N else true)
                && utf8_valid fuel' rest'
            | _ => false
            end
          else if ((240 <=? a) && (a <=? 244))%N then
            match rest with
            | b :: c :: d :: rest' =>
                continuation b && continuation c && continuation d
                && (if (a =? 240)%N then (144 <=? b)%N else true)
                && (if (a =? 244)%N then (b <=? 143)%N else true)
                && utf8_valid fuel' rest'
            | _ => false
            end
          else false
      end
  end.

Definition utf8_decode_ref (b : list Byte.byte) : outcome string :=
  if utf8_valid (S (List.length b)) (map Byte.to_N b)
  then Ret (text_of_bytes b)
  else Raise UnicodeDecodeError.

Definition lower_ascii (c : ascii) : ascii :=
  let n := nat_of_ascii c in
  if (65 <=? n)%nat && (n <=? 90)%nat then ascii_of_nat (n + 32) else c.

(** [s.lower()] of an ASCII text: the letters A to Z are mapped, every
    other byte is kept. *)
Fixpoint lower_ref (s : string) : string :=
  match s with
  | EmptyString => EmptyString
  | String c rest => String (lower_ascii c) (lower_ref rest)
  end.

(** [c.isspace()] of an ASCII character. *)
Definition isspace_ascii (c : ascii) : bool :=
  let n := nat_of_ascii c in
  ((9 <=? n) && (n <=? 13) || (28 <=? n) && (n <=? 32))%nat.

(** [not s.strip()] of an ASCII text. *)
Fixpoint blank_ref (s : string) : bool :=
  match s with
  | EmptyString => true
  | String c rest => isspace_ascii c && blank_ref rest
  end.

(** The reference library: exact on ASCII texts and on canonical base64. *)
Definition ref_pylib : pylib :=
  {| b64decode := b64decode_ref;
     utf8_decode := utf8_decode_ref;
     utf8_encode := bytes_of_text;
     b64encode_text := b64encode_ref;
     lower := lower_ref;
     blank := blank_ref |}.

(** Formatters that print nothing: enough to run the tools whose result
    does not go through one. *)
Definition silent_formatters : formatters :=
  {| yaml_dump := fun _ => Ret "";
     ingress_rules_str := fun _ => Ret "";
     hpa_status_summary := fun _ _ _ => Ret "";
     node_status_summary := fun _ _ => Ret "";
     cluster_status_summary := fun _ => Ret "";
     event_string := fun _ => Ret "" |}.

(** A cluster that accepts every change, holds nothing but the secret [s],
    and answers every read of a secret with it. *)
Definition serving (s : V1Secret) : cluster :=
  fun A r =>
    match r in request T return outcome T with
    | create_namespaced_pod _ _ => Ret tt
    | delete_namespaced_pod _ _ => Ret tt
    | read_namespaced_pod _ _ => Raise (ApiException 404 "(404) Reason: Not Found")
    | list_namespaced_pod _ => Ret []
    | list_pod_for_all_namespaces => Ret []
    | read_namespaced_pod_log _ _ _ => Raise (ApiException 404 "(404) Reason: Not Found")
    | create_namespace _ => Ret tt
    | delete_namespace _ => Ret tt
    | list_namespace => Ret ["default"]
    | create_namespaced_service _ _ => Ret tt
    | delete_namespaced_service _ _ => Ret tt
    | list_namespaced_service _ => Ret []
    | list_service_for_all_namespaces => Ret []
    | read_namespaced_config_map _ _ => Raise (ApiException 404 "(404) Reason: Not Found")
    | create_namespaced_secret _ _ => Ret tt
    | delete_namespaced_secret _ _ => Ret tt
    | read_namespaced_secret _ _ => Ret s
    | create_namespaced_persistent_volume_claim _ _ => Ret tt
    | delete_namespaced_persistent_volume_claim _ _ => Ret tt
    | read_namespaced_persistent_volume_claim _ _ =>
        Raise (ApiException 404 "(404) Reason: Not Found")
    | list_namespaced_persistent_volume_claim _ => Ret []
    | list_persistent_volume_claim_for_all_namespaces => Ret []
    | read_node_status _ => Raise (ApiException 404 "(404) Reason: Not Found")
    | list_node => Ret []
    | list_namespaced_event _ _ _ => Ret []
    | list_event_for_all_namespaces _ _ => Ret []
    | create_namespaced_deployment _ _ => Ret tt
    | delete_namespaced_deployment _ _ => Ret tt
    | list_namespaced_deployment _ => Ret []
    | list_deployment_for_all_namespaces => Ret []
    | patch_namespaced_deployment_scale _ _ _ => Ret tt
    | read_namespaced_deployment_status _ _ =>
        Raise (ApiException 404 "(404) Reason: Not Found")
    | create_namespaced_horizontal_pod_autoscaler _ _ => Ret tt
    | delete_namespaced_horizontal_pod_autoscaler _ _ => Ret tt
    | read_namespaced_horizontal_pod_autoscaler_status _ _ =>
        Raise (ApiException 404 "(404) Reason: Not Found")
    | list_namespaced_horizontal_pod_autoscaler _ => Ret []
    | list_horizontal_pod_autoscaler_for_all_namespaces => Ret []
    | create_namespaced_ingress _ _ => Ret tt
    | delete_namespaced_ingress _ _ => Ret tt
    | read_namespaced_ingress _ _ => Raise (ApiException 404 "(404) Reason: Not Found")
    | list_namespaced_network_policy _ => Ret []
    | read_by_method _ _ _ => Raise (ApiException 404 "(404) Reason: Not Found")
    end.

(** Two secrets with the same keys and different values. *)
Definition admin_secret : V1Secret :=
  {| secret_type := Some "Opaque";
     secret_data := Some [("user", "YWRtaW4="); ("password", "aHVudGVyMg==")] |}.

Definition root_secret : V1Secret :=
  {| secret_type := Some "Opaque";
     secret_data := Some [("user", "cm9vdA=="); ("password", "czNjcjN0")] |}.

(** A cluster that refuses every request with the same API error. *)
Definition refusing (status : Z) (text : string) : cluster :=
  fun A _ => Raise (ApiException status text).

(** A cluster that cannot be reached: the client library raises an error
    of its transport, which is not an [ApiException]. *)
Definition unreachable : cluster :=
  fun A _ => Raise (OtherError "Max retries exceeded: connection refused").



End RefPy.

(* ===================================================================== *)
(** ** database.py: the session store                                     *)
(* ===================================================================== *)

Module Database.

(** Rows of [chat_sessions] and [chat_messages].  [created_at] is the
    server's [now()] at the insert, in the resolution of the server clock. *)
Record ChatSession := {
  session_pk : string;
  session_created_at : nat }.

Record ChatMessage := {
  msg_id : string;
  msg_session_id : string;
  msg_role : string;
  msg_content : string;
  msg_created_at : nat }.

(** The two tables, each in insertion order; a query without [ORDER BY]
    returns rows in that order. *)
Record db := {
  chat_sessions : list ChatSession;
  chat_messages : list ChatMessage }.

Definition empty_db : db := {| chat_sessions := []; chat_messages := [] |}.

(** What the server supplies at an insert: [uuid.uuid4()] for the
    message key and [func.now()]. *)
Record stamp := { fresh_id : string; now : nat }.

(** [db.query(ChatSession).filter(ChatSession.id == session_id).first()] *)
Definition query_session (d : db) (session_id : string) : option ChatSession :=
  find (fun s => session_pk s =? session_id) (chat_sessions d).

(** [session.messages]: the rows that point to the session. *)
Definition messages_of (d : db) (session_id : string) : list ChatMessage :=
  filter (fun m => msg_session_id m =? session_id) (chat_messages d).

(** [sorted(l, key=lambda m: m.created_at)]: Python's sort is stable. *)
Fixpoint insert_sorted (x : ChatMessage) (l : list ChatMessage) : list ChatMessage :=
  match l with
  | [] => [x]
  | y :: ys =>
      if (msg_created_at x <=? msg_created_at y)%nat
      then x :: y :: ys
      else y :: insert_sorted x ys
  end.

Fixpoint sorted_by_created_at (l : list ChatMessage) : list ChatMessage :=
  match l with
  | [] => []
  | x :: xs => insert_sorted x (sorted_by_created_at xs)
  end.

(** An entry of the history: [{"role": ..., "content": ...}]. *)
Record entry := { role : string; content : string }.

Definition get_session_history (d : db) (session_id : string) : list entry :=
  match query_session d session_id with
  | None => []
  | Some _ =>
      map (fun msg => {| role := msg_role msg; content := msg_content msg |})
          (sorted_by_created_at (messages_of d session_id))
  end.

Definition add_message_to_session
  (d : db) (st : stamp) (session_id role content : string) : db :=
  let sessions :=
    match query_session d session_id with
    | None =>
        (chat_sessions d ++
         [{| session_pk := session_id; session_created_at := now st |}])%list
    | Some _ => chat_sessions d
    end in
  let message :=
    {| msg_id := fresh_id st; msg_session_id := session_id; msg_role := role;
       msg_content := content; msg_created_at := now st |} in
  {| chat_sessions := sessions;
     chat_messages := (chat_messages d ++ [message])%list |}.

(** Deleting a session cascades to its messages. *)
Definition delete_session (d : db) (session_id : string) : db * bool :=
  match query_session d session_id with
  | Some _ =>
      ({| chat_sessions :=
            filter (fun s => negb (session_pk s =? session_id)) (chat_sessions d);
          chat_messages :=
            filter (fun m => negb (msg_session_id m =? session_id)) (chat_messages d) |},
       true)
  | None => (d, false)
  end.

(** Every message belongs to a session of the store. *)
Definition consistent (d : db) : Prop :=
  forall m, In m (chat_messages d) -> query_session d (msg_session_id m) <> None.

(** The assistant turns recorded for a session. *)
Definition assistant_turns (d : db) (session_id : string) : list string :=
  map msg_content
      (filter (fun m => msg_role m =? "assistant") (messages_of d session_id)).

End Database.

(* ===================================================================== *)
(** ** main.py: the chat endpoints                                        *)
(* ===================================================================== *)

Module Main.

Import Database.

(** *** models.py *)

Record ChatRequest := {
  message : string;
  session_id : option string;
  enable_tool_response : bool }.

Record ToolInfo := { info_name : string; info_args : string }.
Record ToolResponse := { response_name : string; response_text : string }.

Record ChatResponse := {
  response_session_id : string;
  response : string;
  tools_info : list ToolInfo;
  tool_response : list ToolResponse }.

(** *** Messages of the agent framework *)

(** An entry of [additional_kwargs["tool_calls"]]; a key that is absent is
    [None]. *)
Record tool_call := {
  call_id : option string;
  function_name : option string;
  function_arguments : option string }.

Inductive msg : Type :=
| HumanMessage (content : string)
| AIMessage (content : string) (tool_calls : list tool_call)
| ToolMessage (content : string) (tool_call_id : option string)
| OtherMessage (content : string).

Definition msg_text (m : msg) : string :=
  match m with
  | HumanMessage c | AIMessage c _ | ToolMessage c _ | OtherMessage c => c
  end.

(** The [json] functions of the standard library. *)
Record jsonlib := {
  (** [json.dumps(s)] of a text: quoted and escaped *)
  dumps_str : string -> string;
  (** [json.dumps(json.loads(s))], or [json.dumps(s)] when [s] does not parse *)
  reserialize : string -> string }.

(** *** The agent, seen from the endpoints

    What [create_react_agent] does with the model and the tools is the
    framework's.  For a fixed model and cluster, a run on a given history
    produces new messages, each with the fragments that are streamed while
    it is produced, and then ends or fails. *)

Record produced := {
  produced_msg : msg;
  fragments : list string }.

Record agent_run := {
  run_messages : list produced;
  run_failure : option exn }.

(** A message of the model is streamed as the fragments of its content. *)
Definition faithful (p : produced) : Prop :=
  match produced_msg p with
  | AIMessage c _ => String.concat "" (fragments p) = c
  | _ => True
  end.

(** The history entries as the framework reads them. *)
Definition to_message (e : entry) : msg :=
  if role e =? "user" then HumanMessage (content e)
  else if role e =? "assistant" then AIMessage (content e) []
  else OtherMessage (content e).

Definition or_default (o : option string) (d : string) : string :=
  match o with Some s => s | None => d end.

Section Endpoints.

Variable json : jsonlib.
(** The agent behind [agent.ainvoke] and [agent.astream]. *)
Variable agent : list entry -> agent_run.

(** [await agent.ainvoke({"messages": history})]: the state holds the
    input messages followed by the new ones. *)
Definition ainvoke (history : list entry) : outcome (list msg) :=
  match run_failure (agent history) with
  | Some e => Raise e
  | None => Ret (map to_message history ++ map produced_msg (run_messages (agent history)))%list
  end.

(** The [content] of the tokens of
    [agent.astream({"messages": history}, stream_mode="messages")], and how
    the iteration ends. *)
Definition astream (history : list entry) : list string * option exn :=
  (flat_map fragments (run_messages (agent history)), run_failure (agent history)).

(** [chat_request.session_id or str(uuid.uuid4())] *)
Definition session_id_or (req : ChatRequest) (uuid4 : string) : string :=
  if truthy_str (session_id req) then str_opt (session_id req) else uuid4.

(** *** The buffered path *)

(** The variables of the loop over [result["messages"]]. *)
Record scan := {
  final_response : string;
  scan_tools_info : list ToolInfo;
  scan_tool_responses : list ToolResponse;
  tool_call_id_map : list (option string * string) }.

Definition option_string_eqb (a b : option string) : bool :=
  match a, b with
  | Some x, Some y => x =? y
  | None, None => true
  | _, _ => false
  end.

(** [d.get(k, default)] on a dict updated by prepending. *)
Fixpoint map_get (k : option string) (d : list (option string * string)) (default : string)
  : string :=
  match d with
  | [] => default
  | (k', v) :: rest => if option_string_eqb k k' then v else map_get k rest default
  end.

Definition scan_call (s : scan) (call : tool_call) : scan :=
  let name := or_default (function_name call) "unknown_tool" in
  let args_str := or_default (function_arguments call) "{}" in
  {| final_response := final_response s;
     scan_tools_info :=
       (scan_tools_info s ++ [{| info_name := name; info_args := reserialize json args_str |}])%list;
     scan_tool_responses := scan_tool_responses s;
     tool_call_id_map := (call_id call, name) :: tool_call_id_map s |}.

Definition scan_msg (s : scan) (m : msg) : scan :=
  match m with
  | AIMessage c calls =>
      let s' :=
        if negb (c =? "")
        then {| final_response := c; scan_tools_info := scan_tools_info s;
                scan_tool_responses := scan_tool_responses s;
                tool_call_id_map := tool_call_id_map s |}
        else s in
      fold_left scan_call calls s'
  | ToolMessage c id =>
      let tool_name := map_get id (tool_call_id_map s) "unknown_tool" in
      {| final_response := final_response s;
         scan_tools_info := scan_tools_info s;
         scan_tool_responses :=
           (scan_tool_responses s ++
            [{| response_name := tool_name; response_text := c |}])%list;
         tool_call_id_map := tool_call_id_map s |}
  | _ => s
  end.

Definition scan_messages (l : list msg) : scan :=
  fold_left scan_msg l
    {| final_response := ""; scan_tools_info := []; scan_tool_responses := [];
       tool_call_id_map := [] |}.

(** [chat_invoke]: the store after the request, and the response.  When
    [final_response] is empty the function falls off its end and returns
    [None]. *)
Definition chat_invoke
  (d : db) (user_stamp assistant_stamp : stamp) (uuid4 : string) (req : ChatRequest)
  : db * outcome (option ChatResponse) :=
  let sid := session_id_or req uuid4 in
  let d1 := add_message_to_session d user_stamp sid "user" (message req) in
  let history := get_session_history d1 sid in
  match ainvoke history with
  | Raise e => (d1, Raise e)
  | Ret messages =>
      let s := scan_messages messages in
      if negb (final_response s =? "") then
        (add_message_to_session d1 assistant_stamp sid "assistant" (final_response s),
         Ret (Some {| response_session_id := sid;
                      response := final_response s;
                      tools_info :=
                        if enable_tool_response req then scan_tools_info s else [];
                      tool_response :=
                        if enable_tool_response req then scan_tool_responses s else [] |}))
      else (d1, Ret None)
  end.

(** *** The streaming path *)

(** What [stream_tokens] yields. *)
Inductive sse_event : Type :=
| SessionEvent (session_id : string)
| Fragment (content : string).

(** The text of an event on the wire. *)
Definition wire (ev : sse_event) : string :=
  match ev with
  | SessionEvent sid =>
      "data: " ++ "{" ++ dquote ++ "session_id" ++ dquote ++ ": " ++ dumps_str json sid ++
      "}" ++ nl ++ nl
  | Fragment content => "data: " ++ content ++ nl ++ nl
  end.

(** The fragments among the events sent, in order. *)
Definition fragments_of (evs : list sse_event) : list string :=
  flat_map (fun ev => match ev with
                      | SessionEvent _ => []
                      | Fragment content => [content]
                      end) evs.

(** The generator [stream_tokens()]: not started, suspended at a [yield]
    with [full_response] so far and the tokens still to come, or finished. *)
Inductive generator : Type :=
| Created
| Suspended (full_response : string) (pending : list string)
| Closed.

(** What one resumption of the generator gives its consumer. *)
Inductive resumed : Type :=
| Yielded (ev : sse_event)
| StopIteration
| Raised (e : exn).

Section Stream.

Variable sid : string.
Variable history : list entry.
Variable assistant_stamp : stamp.

(** One [__anext__]: the code from the current [yield] to the next one, or
    to the end of the body. *)
Definition anext (g : generator) (d : db) : resumed * generator * db :=
  match g with
  | Created =>
      (Yielded (SessionEvent sid), Suspended "" (fst (astream history)), d)
  | Suspended full_response (content :: rest) =>
      (Yielded (Fragment content), Suspended (full_response ++ content) rest, d)
  | Suspended full_response [] =>
      match snd (astream history) with
      | Some e => (Raised e, Closed, d)
      | None =>
          if negb (full_response =? "")
          then (StopIteration, Closed,
                add_message_to_session d assistant_stamp sid "assistant" full_response)
          else (StopIteration, Closed, d)
      end
  | Closed => (StopIteration, Closed, d)
  end.

(** How the response ended for the client. *)
Inductive stream_end : Type :=
| Abandoned
| EndOfStream
| Failed (e : exn).

(** The server pulls events and sends them until the generator stops or
    fails; a client that goes away after [pulls] resumptions leaves the
    generator where it is suspended, and nothing after that [yield] runs. *)
Fixpoint consume (pulls : nat) (g : generator) (d : db)
  : list sse_event * stream_end * db :=
  match pulls with
  | O => ([], Abandoned, d)
  | S k =>
      match anext g d with
      | (Yielded ev, g', d') =>
          let '(evs, e, d'') := consume k g' d' in (ev :: evs, e, d'')
      | (StopIteration, _, d') => ([], EndOfStream, d')
      | (Raised e, _, d') => ([], Failed e, d')
      end
  end.

End Stream.

(** [chat_stream]: the store once the handler has returned, the session
    id, and the response as its client consumes it. *)
Definition chat_stream
  (d : db) (user_stamp assistant_stamp : stamp) (uuid4 : string) (req : ChatRequest)
  (pulls : nat) : list sse_event * stream_end * db :=
  let sid := session_id_or req uuid4 in
  let d1 := add_message_to_session d user_stamp sid "user" (message req) in
  let history := get_session_history d1 sid in
  consume sid history assistant_stamp pulls Created d1.

(** The store as [chat_stream] and [chat_invoke] leave it before the agent
    is consulted. *)
Definition with_user_turn (d : db) (user_stamp : stamp) (uuid4 : string) (req : ChatRequest)
  : db :=
  add_message_to_session d user_stamp (session_id_or req uuid4) "user" (message req).

(** The text a client assembles from the fragments. *)
Definition streamed_text (evs : list sse_event) : string :=
  String.concat "" (fragments_of evs).

End Endpoints.

End Main.

(* ===================================================================== *)
(** ** The agent loop of the specification                                *)
(* ===================================================================== *)

(** The repository obtains its reasoning/acting cycle from
    [langgraph.prebuilt.create_react_agent]; no loop and no iteration cap
    is written in its sources. *)
Module AgentLoop.

Import K8sTools.

(** Modelled from the spec: an element of the working history of one turn
    (section 4.1, steps 1 and 4c); the sources have no such type. *)
Inductive item : Type :=
| UserTurn (text : string)
| AssistantTurn (text : string)
| Proposal (inv : invocation)
| Observation (result_text : string).

(** Modelled from the spec: the Agent Step of section 3, what one
    consultation of the Oracle produces. *)
Inductive agent_step : Type :=
| FinalAnswer (text : string)
| ProposedInvocations (invs : list invocation).

Definition trace : Type := list (invocation * string).

(** Modelled from the spec: the states of the loop named in section 9
    (AwaitingOracle, ExecutingInvocations, Done, Aborted); [cycles] counts
    the consultations that ended in proposals. *)
Inductive loop_state : Type :=
| AwaitingOracle (cycles : nat) (working : list item) (tr : trace)
| ExecutingInvocations (cycles : nat) (pending : list invocation)
    (working : list item) (tr : trace)
| Done (cycles : nat) (final_text : string) (tr : trace)
| Aborted (reason : string).

Definition terminal (s : loop_state) : bool :=
  match s with
  | Done _ _ _ | Aborted _ => true
  | _ => false
  end.

(** Modelled from the spec: the degraded final answer of step 6, whose
    wording the spec leaves open. *)
Definition limit_reached : string :=
  "The iteration limit was reached before a final answer was produced.".

Section Loop.

(** The Reasoning Oracle; [None] is an Oracle failure. *)
Variable oracle : list item -> option agent_step.
(** Gate and Registry together: the textual result of one invocation. *)
Variable execute : list item -> invocation -> string.
(** The hard iteration cap. *)
Variable cap : nat.

(** Modelled from the spec: the transition function of the bounded cycle
    of section 4.1 ([run_turn], steps 2 to 6), which the sources leave to
    the agent framework.  One proposed invocation is executed per step, in
    the order proposed, and its result is appended to the working history
    before the Oracle is consulted again. *)
Definition step (s : loop_state) : loop_state :=
  match s with
  | AwaitingOracle cycles working tr =>
      if (cap <=? cycles)%nat then Done cycles limit_reached tr
      else
        match oracle working with
        | None => Aborted "oracle failure"
        | Some (FinalAnswer text) => Done cycles text tr
        | Some (ProposedInvocations invs) =>
            ExecutingInvocations (S cycles) invs working tr
        end
  | ExecutingInvocations cycles [] working tr => AwaitingOracle cycles working tr
  | ExecutingInvocations cycles (inv :: rest) working tr =>
      let r := execute working inv in
      ExecutingInvocations cycles rest
        (working ++ [Proposal inv; Observation r])%list (tr ++ [(inv, r)])%list
  | Done cycles text tr => Done cycles text tr
  | Aborted reason => Aborted reason
  end.

Fixpoint steps (n : nat) (s : loop_state) : loop_state :=
  match n with
  | O => s
  | S k => steps k (step s)
  end.

(** Modelled from the spec: step 1 of [run_turn], the working copy of the
    session history with the user message appended. *)
Definition start (session_history : list item) (user_message : string) : loop_state :=
  AwaitingOracle 0 (session_history ++ [UserTurn user_message])%list [].

(** The Oracle never answers and never fails. *)
Definition never_final : Prop :=
  forall working, exists invs, oracle working = Some (ProposedInvocations invs).

End Loop.

End AgentLoop.

(* ===================================================================== *)
(** ** The session endpoints of main.py and their queries                 *)
(* ===================================================================== *)

Module Sessions.

Import Database.

(** [ORDER BY created_at DESC]: newest first; sessions created within the
    same tick stay in the order of the table. *)
Fixpoint insert_newest (s : ChatSession) (l : list ChatSession) : list ChatSession :=
  match l with
  | [] => [s]
  | y :: ys =>
      if (session_created_at y <=? session_created_at s)%nat
      then s :: y :: ys
      else y :: insert_newest s ys
  end.

(** [database.get_all_sessions] *)
Definition get_all_sessions (d : db) : list ChatSession :=
  fold_right insert_newest [] (chat_sessions d).

(** config.py: the two keys read from the environment; [os.getenv] gives
    [None] for a variable that is not set. *)
Record config := {
  ADMIN_API_KEY : option string;
  USER_API_KEY : option string }.

(** What a handler (or a dependency) ends with: a value, or an
    [HTTPException] with its status code and detail. *)
Inductive http (A : Type) : Type :=
| Returns (a : A)
| HTTPException (status_code : nat) (detail : string).
Arguments Returns {A} a.
Arguments HTTPException {A} status_code detail.

Definition key_is (configured : option string) (x_api_key : string) : bool :=
  match configured with
  | Some k => x_api_key =? k
  | None => false
  end.

(** [verify_api_key]: [x_api_key not in {ADMIN_API_KEY, USER_API_KEY}]
    raises; the header is always a text, so it never equals a key that is
    [None]. *)
Definition verify_api_key (cfg : config) (x_api_key : string) : http unit :=
  if negb (key_is (ADMIN_API_KEY cfg) x_api_key || key_is (USER_API_KEY cfg) x_api_key)
  then HTTPException 401 "Invalid API Key"
  else Returns tt.

(** A handler behind [Depends(verify_api_key)]: the dependency is resolved
    before the body runs. *)
Definition depends_verify_api_key {A} (cfg : config) (x_api_key : string) (body : http A)
  : http A :=
  match verify_api_key cfg x_api_key with
  | HTTPException status_code detail => HTTPException status_code detail
  | Returns _ => body
  end.

(** The body of [GET /sessions/{session_id}]. *)
Record SessionHistory := {
  history_id : string;
  history_created_at : nat;
  history_messages : list entry }.

(** [GET /sessions] *)
Definition list_sessions (cfg : config) (x_api_key : string) (d : db)
  : http (list ChatSession) :=
  depends_verify_api_key cfg x_api_key (Returns (get_all_sessions d)).

(** [GET /sessions/{session_id}] *)
Definition get_session (cfg : config) (x_api_key : string) (d : db) (session_id : string)
  : http SessionHistory :=
  depends_verify_api_key cfg x_api_key
    match query_session d session_id with
    | None => HTTPException 404 "Session not found"
    | Some session =>
        let history := get_session_history d session_id in
        Returns {| history_id := session_pk session;
                   history_created_at := session_created_at session;
                   history_messages := history |}
    end.

(** [DELETE /sessions/{session_id}] (status 204): the store afterwards,
    and the answer. *)
Definition remove_session (cfg : config) (x_api_key : string) (d : db) (session_id : string)
  : db * http unit :=
  match verify_api_key cfg x_api_key with
  | HTTPException status_code detail => (d, HTTPException status_code detail)
  | Returns _ =>
      let '(d', deleted) := delete_session d session_id in
      if negb deleted then (d', HTTPException 404 "Session not found")
      else (d', Returns tt)
  end.

(** Session ids are a primary key. *)
Definition unique_sessions (d : db) : Prop := NoDup (map session_pk (chat_sessions d)).

(** The store as the two tables constrain it. *)
Definition well_formed (d : db) : Prop := unique_sessions d /\ consistent d.

(** The entry a message is read as. *)
Definition entry_of (m : ChatMessage) : entry :=
  {| role := msg_role m; content := msg_content m |}.

(** No earlier message of the session is younger than [t]. *)
Definition not_before (d : db) (session_id : string) (t : nat) : Prop :=
  forall m, In m (messages_of d session_id) -> (msg_created_at m <= t)%nat.

End Sessions.

(* ===================================================================== *)
(** ** Vocabulary for further properties of the registry                  *)
(* ===================================================================== *)

Module ToolSpec.

Import K8sTools.

(** What a request does to the cluster, by the verb of the API method. *)
Definition request_kind (s : sent) : op_kind :=
  match s with
  | Sent r =>
      match r with
      | create_namespaced_pod _ _ | create_namespace _ | create_namespaced_service _ _
      | create_namespaced_secret _ _ | create_namespaced_persistent_volume_claim _ _
      | create_namespaced_deployment _ _ | create_namespaced_horizontal_pod_autoscaler _ _
      | create_namespaced_ingress _ _ => Create
      | delete_namespaced_pod _ _ | delete_namespace _ | delete_namespaced_service _ _
      | delete_namespaced_secret _ _ | delete_namespaced_persistent_volume_claim _ _
      | delete_namespaced_deployment _ _ | delete_namespaced_horizontal_pod_autoscaler _ _
      | delete_namespaced_ingress _ _ => Delete
      | patch_namespaced_deployment_scale _ _ _ => Scale
      | _ => Read
      end
  end.

Definition op_kind_eqb (a b : op_kind) : bool :=
  match a, b with
  | Create, Create | Delete, Delete | Scale, Scale | Read, Read => true
  | _, _ => false
  end.

(** The request a delete tool sends for its target once confirmed. *)
Definition delete_request (inv : invocation) : option sent :=
  match inv with
  | Call_delete_kubernetes_secret n ns _ => Some (Sent (delete_namespaced_secret n ns))
  | Call_delete_kubernetes_ingress n ns _ => Some (Sent (delete_namespaced_ingress n ns))
  | Call_delete_kubernetes_hpa n ns _ =>
      Some (Sent (delete_namespaced_horizontal_pod_autoscaler n ns))
  | Call_delete_kubernetes_pod n ns _ => Some (Sent (delete_namespaced_pod n ns))
  | Call_delete_kubernetes_namespace n _ => Some (Sent (delete_namespace n))
  | Call_delete_kubernetes_deployment n ns _ =>
      Some (Sent (delete_namespaced_deployment n ns))
  | Call_delete_kubernetes_service n ns _ => Some (Sent (delete_namespaced_service n ns))
  | Call_delete_kubernetes_pvc n ns _ =>
      Some (Sent (delete_namespaced_persistent_volume_claim n ns))
  | _ => None
  end.

(** The [data] argument of [create_kubernetes_secret] for a dict of texts. *)
Definition text_data (items : list (string * string)) : list (string * pyval) :=
  map (fun kv => (fst kv, PStr (snd kv))) items.

(** The secret a cluster holds once it has accepted a manifest built by
    [create_kubernetes_secret]: its [type] and its [data]. *)
Definition secret_of_manifest (body : pyval) : option V1Secret :=
  match body with
  | PDict fields =>
      match dict_get "type" fields, dict_get "data" fields with
      | Some (PStr type), Some (PDict data) =>
          Some {| secret_type := Some type;
                  secret_data :=
                    Some (flat_map (fun kv => match snd kv with
                                              | PStr v => [(fst kv, v)]
                                              | _ => []
                                              end) data) |}
      | _, _ => None
      end
  | _ => None
  end.

(** The text of [get_kubernetes_secret] that shows the values. *)
Definition shown_text (name namespace type : string) (items : list (string * string))
  : string :=
  "Secret '" ++ name ++ "' in namespace '" ++ namespace ++ "':" ++ nl ++
  "Type: " ++ type ++ nl ++
  "Data:" ++ nl ++
  match items with
  | [] => "No data."
  | _ => join nl (map (fun kv => "  " ++ fst kv ++ ": " ++ snd kv) items)
  end.

End ToolSpec.

(* ===================================================================== *)
(** ** Vocabulary for further properties of the chat endpoint             *)
(* ===================================================================== *)

Module ChatSpec.

Import Database Main.

(** The content of the latest assistant turn of a history that has one,
    the empty text when there is none. *)
Definition last_assistant (history : list entry) : string :=
  fold_left (fun acc e =>
               if (role e =? "assistant") && negb (content e =? "") then content e else acc)
            history "".

(** The contents of the tool messages of a run, in order. *)
Definition tool_outputs (l : list msg) : list string :=
  flat_map (fun m => match m with
                     | ToolMessage c _ => [c]
                     | _ => []
                     end) l.

(** The names of the tools called in a run, in order ([unknown_tool] for a
    call without a function name). *)
Definition called_names (l : list msg) : list string :=
  flat_map (fun m => match m with
                     | AIMessage _ calls =>
                         map (fun call => or_default (function_name call) "unknown_tool") calls
                     | _ => []
                     end) l.

(** No message of the model in the run has a content. *)
Definition says_nothing (run : agent_run) : Prop :=
  forall p c calls, In p (run_messages run) -> produced_msg p = AIMessage c calls -> c = "".

End ChatSpec.

(* ===================================================================== *)
(** ** Properties of the registry                                         *)
(* ===================================================================== *)

Module ToolFacts.

Import K8sTools RefPy.

Lemma prefix_append (a b : string) : prefix a (a ++ b) = true.
Proof.
  induction a as [|c a IH]; simpl.
  - destruct b; reflexivity.
  - destruct (ascii_dec c c) as [_|n]; [exact IH | contradiction].
Qed.

Lemma contains_prefix (needle hay : string) :
  prefix needle hay = true -> contains needle hay = true.
Proof. intros H. destruct hay; simpl in *; rewrite H; reflexivity. Qed.

Lemma contains_append (needle before after : string) :
  contains needle (before ++ needle ++ after) = true.
Proof.
  induction before as [|c before IH]; simpl.
  - apply contains_prefix, prefix_append.
  - rewrite IH. apply orb_true_r.
Qed.

(** What leaves a [try] that only catches [ApiException]. *)
Lemma try_except_ApiException_passes {A}
  (log : list sent) (e : exn) (handler : Z -> string -> K A) :
  (forall status text, e <> ApiException status text) ->
  try_except_ApiException (log, Raise e) handler = (log, Raise e).
Proof.
  intros H. destruct e; try reflexivity. exfalso. exact (H status text eq_refl).
Qed.

Lemma non_negative_int_guard (v : pyval) :
  negb (isinstance_int v) || negative v = negb (non_negative_int v).
Proof.
  unfold non_negative_int, negative.
  destruct v as [| [|] | z | | | |]; simpl; try reflexivity.
  destruct (Z.ltb_spec z 0), (Z.leb_spec 0 z); simpl; try reflexivity; lia.
Qed.

(** A body that sends one request and then only builds its text, under a
    handler that only builds a text, sends exactly that request. *)
Lemma requests_of_single_call {A B}
  (api : cluster) (r : request A) (k : A -> K B) (handler : Z -> string -> K B) :
  (forall a, requests (k a) = []) ->
  (forall status text, requests (handler status text) = []) ->
  requests (try_except_ApiException (bind (call api r) k) handler) = [Sent r].
Proof.
  intros Hk Hh. unfold call, bind, try_except_ApiException, requests in *.
  destruct (api A r) as [a|e].
  - specialize (Hk a). destruct (k a) as [log' [b|e']]; simpl in *; subst log'.
    + reflexivity.
    + destruct e'; try reflexivity.
      specialize (Hh status text). destruct (handler status text); simpl in *.
      subst; reflexivity.
  - destruct e; try reflexivity.
    specialize (Hh status text). destruct (handler status text); simpl in *.
    subst; reflexivity.
Qed.

(** C9. [scale_kubernetes_deployment]: when [replicas] is not a
    non-negative integer the tool returns
    ['Error: Replicas must be a non-negative integer.'] and sends nothing to
    the cluster; every request the tool sends is the scale patch, and it is
    sent only (and then exactly once) when [replicas] is an integer [>= 0]. *)
Theorem scale_replicas_guard :
  forall (api : cluster) (name : string) (replicas : pyval) (namespace : string),
    let run := scale_kubernetes_deployment api name replicas namespace in
    let patch := PDict [("spec", PDict [("replicas", replicas)])] in
    (non_negative_int replicas = false ->
       run = ([], Ret "Error: Replicas must be a non-negative integer.")) /\
    (forall r, In r (requests run) ->
       non_negative_int replicas = true /\
       r = Sent (patch_namespaced_deployment_scale name namespace patch)) /\
    (non_negative_int replicas = true ->
       requests run = [Sent (patch_namespaced_deployment_scale name namespace patch)]).
Proof.
  intros api name replicas namespace run patch.
  assert (Hsent : non_negative_int replicas = true ->
            requests run = [Sent (patch_namespaced_deployment_scale name namespace patch)]).
  { intros Hv. subst run. unfold scale_kubernetes_deployment.
    rewrite non_negative_int_guard, Hv. cbn [negb].
    apply requests_of_single_call.
    - intros a. reflexivity.
    - intros status text. destruct (status =? 404)%Z; reflexivity. }
  split; [|split].
  - intros Hv. subst run. unfold scale_kubernetes_deployment.
    rewrite non_negative_int_guard, Hv. reflexivity.
  - intros r Hin. destruct (non_negative_int replicas) eqn:Hv.
    + rewrite (Hsent eq_refl) in Hin. destruct Hin as [<-|[]]. split; reflexivity.
    + subst run. unfold scale_kubernetes_deployment in Hin.
      rewrite non_negative_int_guard, Hv in Hin. destruct Hin.
  - exact Hsent.
Qed.

(** The guard of C9 on a negative count, a text, and a valid count. *)
Lemma scale_replicas_guard_witness :
  scale_kubernetes_deployment unreachable "web" (PInt (-1)) "default"
    = ([], Ret "Error: Replicas must be a non-negative integer.") /\
  scale_kubernetes_deployment unreachable "web" (PStr "3") "default"
    = ([], Ret "Error: Replicas must be a non-negative integer.") /\
  requests (scale_kubernetes_deployment unreachable "web" (PInt 3) "default")
    = [Sent (patch_namespaced_deployment_scale "web" "default"
               (PDict [("spec", PDict [("replicas", PInt 3)])]))].
Proof.
  split; [|split].
  - apply (scale_replicas_guard unreachable "web" (PInt (-1)) "default"). reflexivity.
  - apply (scale_replicas_guard unreachable "web" (PStr "3") "default"). reflexivity.
  - apply (scale_replicas_guard unreachable "web" (PInt 3) "default"). reflexivity.
Defined.

Lemma contains_skip (needle before hay : string) :
  contains needle hay = true -> contains needle (before ++ hay) = true.
Proof.
  intros H. induction before as [|c before IH]; simpl.
  - exact H.
  - rewrite IH. apply orb_true_r.
Qed.

Ltac find_phrase :=
  repeat first
    [ apply contains_prefix; apply prefix_append
    | apply contains_skip ].

(** The claim C1 fails on the code: the user only asked for the deletion and
    never said the phrase, the agent proposes the deletion with
    [confirm=True], and the pod is deleted. *)
Lemma confirmed_delete_ignores_history :
  let history :=
    [{| turn_role := User; turn_content := "delete pod nginx-1 in default" |}] in
  let inv := Call_delete_kubernetes_pod "nginx-1" "default" true in
  let api := serving {| secret_type := None; secret_data := None |} in
  mutating (tool_name inv) = true /\
  confirmed_in history inv = false /\
  execute_proposed api ref_pylib silent_formatters history inv
    = ([Sent (delete_namespaced_pod "nginx-1" "default")],
       Ret "Pod nginx-1 deleted successfully from namespace default.").
Proof. repeat split. Qed.

(** C1, amended.  For every proposed invocation of a delete operation whose
    [confirm] argument is false (its default), whatever the conversation
    history holds, nothing is sent to the cluster and the invocation yields
    only the prompt that states the exact phrase required,
    ['yes, delete <type> <name>']. *)
Theorem delete_without_confirm_only_prompts :
  forall (api : cluster) (py : pylib) (fmt : formatters)
         (history : list turn) (inv : invocation),
    kind_of (tool_name inv) = Delete ->
    confirm_arg inv = Some false ->
    exists phrase prompt,
      confirmation_phrase inv = Some phrase /\
      confirmation_prompt inv = Some prompt /\
      contains phrase prompt = true /\
      execute_proposed api py fmt history inv = ([], Ret prompt).
Proof.
  intros api py fmt history inv Hkind Hconfirm.
  destruct inv; try discriminate Hkind; simpl in Hconfirm;
    injection Hconfirm as ->;
    eexists; eexists;
    (split; [reflexivity | split; [reflexivity | split; [| reflexivity]]]);
    find_phrase.
Qed.

(** C1 at the deletion of pod [nginx-1], proposed without [confirm], after
    the user did say the phrase. *)
Lemma delete_without_confirm_only_prompts_witness :
  exists phrase prompt,
    confirmation_phrase (Call_delete_kubernetes_pod "nginx-1" "default" false) = Some phrase /\
    confirmation_prompt (Call_delete_kubernetes_pod "nginx-1" "default" false) = Some prompt /\
    contains phrase prompt = true /\
    execute_proposed unreachable ref_pylib silent_formatters
      [{| turn_role := User; turn_content := "yes, delete pod nginx-1" |}]
      (Call_delete_kubernetes_pod "nginx-1" "default" false) = ([], Ret prompt).
Proof.
  apply (delete_without_confirm_only_prompts unreachable ref_pylib silent_formatters
           [{| turn_role := User; turn_content := "yes, delete pod nginx-1" |}]
           (Call_delete_kubernetes_pod "nginx-1" "default" false));
    reflexivity.
Defined.






(** A value of a secret that is not text makes [get_kubernetes_secret]
    raise, masked or not: the decoding error is no [ApiException]. *)
Lemma get_kubernetes_secret_undecodable
  (api : cluster) (py : pylib) (name namespace key value : string)
  (rest : list (string * string)) (type : option string) (mask_data : bool)
  (raw : list Byte.byte) :
  api _ (read_namespaced_secret name namespace)
    = Ret {| secret_type := type; secret_data := Some ((key, value) :: rest) |} ->
  b64decode py value = Ret raw ->
  utf8_decode py raw = Raise UnicodeDecodeError ->
  get_kubernetes_secret api py name namespace mask_data
    = ([Sent (read_namespaced_secret name namespace)], Raise UnicodeDecodeError).
Proof.
  intros Hread Hb64 Hutf8.
  unfold get_kubernetes_secret, call, bind, lift. rewrite Hread. simpl.
  rewrite Hb64. simpl. rewrite Hutf8. reflexivity.
Qed.

(** C3 fails on the code (a defect of the code).  Three invocations that
    leave their tool as an exception instead of a text: reading a secret that
    holds a binary value (the byte [0xFF], stored as [/w==]), creating a
    secret from a number, and listing namespaces on a cluster that cannot be
    reached.  [describe_kubernetes_resource], which also catches
    [Exception], turns the same failure into a text. *)
Theorem tools_raise_other_exceptions :
  let binary := {| secret_type := Some "Opaque";
                   secret_data := Some [("keystore", "/w==")] |} in
  invoke (serving binary) ref_pylib silent_formatters
    (Call_get_kubernetes_secret "tls" "default" true)
    = ([Sent (read_namespaced_secret "tls" "default")], Raise UnicodeDecodeError) /\
  invoke (serving binary) ref_pylib silent_formatters
    (Call_create_kubernetes_secret "db" "default" [("port", PInt 5432)] "Opaque")
    = ([], Raise (AttributeError "object has no attribute 'encode'")) /\
  invoke unreachable ref_pylib silent_formatters Call_list_kubernetes_namespaces
    = ([Sent list_namespace],
       Raise (OtherError "Max retries exceeded: connection refused")) /\
  invoke unreachable ref_pylib silent_formatters
    (Call_describe_kubernetes_resource "node" "node-1" None)
    = ([Sent (read_by_method "read_node" "node-1" None)],
       Ret ("An unexpected error occurred while describing node 'node-1': " ++
            "Max retries exceeded: connection refused")).
Proof. cbv zeta. repeat split. Qed.

Ltac unfold_tools :=
  unfold list_kubernetes_namespaces, get_kubernetes_pod, list_kubernetes_pods,
    get_kubernetes_pod_logs, get_kubernetes_events, get_kubernetes_deployment_status,
    get_kubernetes_config_map, get_kubernetes_secret, create_kubernetes_secret,
    delete_kubernetes_secret, get_kubernetes_ingress, create_kubernetes_ingress,
    delete_kubernetes_ingress, get_kubernetes_node_status, get_kubernetes_cluster_status,
    get_kubernetes_hpa_status, list_kubernetes_hpas, create_kubernetes_hpa,
    delete_kubernetes_hpa, describe_kubernetes_resource, create_kubernetes_pod,
    delete_kubernetes_pod, create_kubernetes_namespace, delete_kubernetes_namespace,
    create_kubernetes_deployment, delete_kubernetes_deployment,
    scale_kubernetes_deployment, create_kubernetes_service, delete_kubernetes_service,
    list_kubernetes_services, list_kubernetes_deployments, create_kubernetes_pvc,
    delete_kubernetes_pvc, get_kubernetes_pvc, list_kubernetes_pvcs,
    list_kubernetes_network_policies, call, lift, bind, ret.

(** Operation failures are absorbed: when the cluster refuses the request of
    a tool with an [ApiException], whatever its status, the tool returns a
    text.  (A tool that sent nothing either returned a text without the
    cluster or raised while preparing its request.) *)
Theorem api_errors_become_text :
  forall (py : pylib) (fmt : formatters) (status : Z) (text : string) (inv : invocation),
    let run := invoke (refusing status text) py fmt inv in
    requests run = [] \/ returned (result run) = true.
Proof.
  intros py fmt status text inv run. subst run.
  destruct inv; cbn [invoke]; unfold_tools; unfold refusing; cbn;
    repeat (match goal with
            | |- context [if ?b then _ else _] => destruct b
            | |- context [match dict_get ?k ?m with _ => _ end] => destruct (dict_get k m)
            | |- context [match omap ?f ?l with _ => _ end] => destruct (omap f l)
            end; cbn);
    try (right; reflexivity); try (left; reflexivity).
  left. destruct e; reflexivity.
Qed.

Lemma masked_items (py : pylib) (d : list (string * string)) :
  (forall key value, In (key, value) d ->
     exists raw text, b64decode py value = Ret raw /\ utf8_decode py raw = Ret text) ->
  omap (secret_item py true) d
    = Ret (map (fun key => "  " ++ key ++ ": ********") (map fst d)).
Proof.
  induction d as [|[key value] d IH]; intros Hd; simpl.
  - reflexivity.
  - destruct (Hd key value (or_introl eq_refl)) as (raw & text & Hb64 & Hutf8).
    rewrite Hb64. simpl. rewrite Hutf8. simpl.
    rewrite IH by (intros k v Hin; apply (Hd k v); right; exact Hin).
    reflexivity.
Qed.

(** What [get_kubernetes_secret] returns for a decodable secret when
    [mask_data] is true. *)
Lemma masked_secret_text
  (api : cluster) (py : pylib) (name namespace : string) (s : V1Secret) :
  api _ (read_namespaced_secret name namespace) = Ret s ->
  decodable py s ->
  get_kubernetes_secret api py name namespace true
    = ([Sent (read_namespaced_secret name namespace)],
       Ret (masked_text name namespace (secret_type s) (data_keys s))).
Proof.
  intros Hread Hdec.
  unfold get_kubernetes_secret, call, bind, lift, masked_text, data_keys.
  rewrite Hread. cbn [try_except_ApiException].
  destruct s as [type [[|kv d]|]]; cbn [secret_data secret_type] in *; try reflexivity.
  rewrite (masked_items py (kv :: d)) by (intros k v Hin; exact (Hdec _ k v eq_refl Hin)).
  destruct kv as [key value]. reflexivity.
Qed.

(** C10. [get_kubernetes_secret] with [mask_data] at its default [True]: two
    secrets with the same name, type and data keys, whose values all are
    base64 of UTF-8 text, give the same output, in which every value reads
    ['********']. *)
Theorem masked_secret_independent_of_values :
  forall (py : pylib) (api1 api2 : cluster) (name namespace : string) (s1 s2 : V1Secret),
    api1 _ (read_namespaced_secret name namespace) = Ret s1 ->
    api2 _ (read_namespaced_secret name namespace) = Ret s2 ->
    secret_type s1 = secret_type s2 ->
    data_keys s1 = data_keys s2 ->
    decodable py s1 ->
    decodable py s2 ->
    get_kubernetes_secret api1 py name namespace true
      = get_kubernetes_secret api2 py name namespace true /\
    result (get_kubernetes_secret api1 py name namespace true)
      = Ret (masked_text name namespace (secret_type s1) (data_keys s1)).
Proof.
  intros py api1 api2 name namespace s1 s2 H1 H2 Htype Hkeys Hd1 Hd2.
  rewrite (masked_secret_text api1 py name namespace s1 H1 Hd1).
  rewrite (masked_secret_text api2 py name namespace s2 H2 Hd2).
  rewrite Htype, Hkeys. split; reflexivity.
Qed.

Lemma decodable_by_evaluation (py : pylib) (s : V1Secret) :
  (match secret_data s with
   | Some d =>
       forallb (fun kv => match obind (b64decode py (snd kv)) (utf8_decode py) with
                          | Ret _ => true
                          | Raise _ => false
                          end) d
   | None => true
   end = true) ->
  decodable py s.
Proof.
  intros H d key value Hd Hin. rewrite Hd in H.
  rewrite forallb_forall in H. specialize (H _ Hin). simpl in H.
  destruct (b64decode py value) as [raw|]; simpl in H; [|discriminate].
  destruct (utf8_decode py raw) as [text|] eqn:Hutf8; [|discriminate].
  exists raw, text. split; [reflexivity | exact Hutf8].
Qed.

(** C10 on two secrets that hold different credentials under the same keys. *)
Lemma masked_secret_independent_of_values_witness :
  get_kubernetes_secret (serving admin_secret) ref_pylib "db" "default" true
    = get_kubernetes_secret (serving root_secret) ref_pylib "db" "default" true /\
  result (get_kubernetes_secret (serving admin_secret) ref_pylib "db" "default" true)
    = Ret (masked_text "db" "default" (secret_type admin_secret) (data_keys admin_secret)).
Proof.
  apply (masked_secret_independent_of_values ref_pylib
           (serving admin_secret) (serving root_secret) "db" "default"
           admin_secret root_secret eq_refl eq_refl eq_refl eq_refl).
  - apply decodable_by_evaluation. vm_compute. reflexivity.
  - apply decodable_by_evaluation. vm_compute. reflexivity.
Defined.

End ToolFacts.

(* ===================================================================== *)
(** ** Properties of the session store                                    *)
(* ===================================================================== *)

Module DatabaseFacts.

Import Database.

(** Messages in the order of a clock that never goes back. *)
Inductive chronological : list ChatMessage -> Prop :=
| chrono_nil : chronological []
| chrono_one : forall m, chronological [m]
| chrono_cons : forall m m' l,
    (msg_created_at m <= msg_created_at m')%nat ->
    chronological (m' :: l) ->
    chronological (m :: m' :: l).

(** The stable sort leaves a chronological list as it is. *)
Lemma sorted_chronological (l : list ChatMessage) :
  chronological l -> sorted_by_created_at l = l.
Proof.
  induction 1 as [|m|m m' l Hle Hl IH]; try reflexivity.
  change (insert_sorted m (sorted_by_created_at (m' :: l)) = m :: m' :: l).
  rewrite IH. simpl.
  destruct (Nat.leb_spec (msg_created_at m) (msg_created_at m')); [reflexivity | lia].
Qed.

Lemma find_app_found {A} (f : A -> bool) (l l' : list A) :
  find f l <> None -> find f (l ++ l') <> None.
Proof.
  induction l as [|x l IH]; simpl; [contradiction|].
  destruct (f x); [discriminate | exact IH].
Qed.

Lemma find_app_last {A} (f : A -> bool) (l : list A) (x : A) :
  f x = true -> find f (l ++ [x]) <> None.
Proof.
  intros Hx. induction l as [|y l IH]; simpl.
  - rewrite Hx. discriminate.
  - destruct (f y); [discriminate | exact IH].
Qed.

Lemma query_session_added (d : db) (st : stamp) (sid role content : string) :
  query_session (add_message_to_session d st sid role content) sid <> None.
Proof.
  unfold add_message_to_session.
  destruct (query_session d sid) as [s|] eqn:Hq; unfold query_session in *; simpl.
  - rewrite Hq. discriminate.
  - apply find_app_last. simpl. apply String.eqb_refl.
Qed.

Lemma query_session_kept (d : db) (st : stamp) (sid sid' role content : string) :
  query_session d sid' <> None ->
  query_session (add_message_to_session d st sid role content) sid' <> None.
Proof.
  intros H. unfold add_message_to_session.
  destruct (query_session d sid) as [s|]; unfold query_session in *; simpl.
  - exact H.
  - apply find_app_found, H.
Qed.

(** Appending a message keeps every message attached to a session. *)
Lemma add_message_consistent (d : db) (st : stamp) (sid role content : string) :
  consistent d -> consistent (add_message_to_session d st sid role content).
Proof.
  intros Hd m Hin.
  unfold add_message_to_session in Hin at 1. simpl in Hin.
  apply in_app_or in Hin. destruct Hin as [Hin|[<-|[]]].
  - apply query_session_kept, Hd, Hin.
  - simpl. apply query_session_added.
Qed.

(** A session id that is not in the store has no messages. *)
Lemma fresh_session_has_no_messages (d : db) (sid : string) :
  consistent d -> query_session d sid = None -> messages_of d sid = [].
Proof.
  intros Hd Hq. unfold messages_of.
  destruct (filter _ (chat_messages d)) as [|m l] eqn:Hf; [reflexivity|].
  assert (Hin : In m (filter (fun m => msg_session_id m =? sid) (chat_messages d)))
    by (rewrite Hf; left; reflexivity).
  apply filter_In in Hin. destruct Hin as [Hin Heq].
  apply String.eqb_eq in Heq. specialize (Hd m Hin). rewrite Heq in Hd. contradiction.
Qed.

Lemma messages_of_added (d : db) (st : stamp) (sid role content : string) :
  messages_of (add_message_to_session d st sid role content) sid
    = (messages_of d sid ++
       [{| msg_id := fresh_id st; msg_session_id := sid; msg_role := role;
           msg_content := content; msg_created_at := now st |}])%list.
Proof.
  unfold messages_of, add_message_to_session. simpl.
  rewrite filter_app. simpl. rewrite String.eqb_refl. reflexivity.
Qed.

(** C8, amended.  Session round trip: on a session id that is new to the
    store, appending the turn (user, "hello") and then the turn
    (assistant, "hi") at times [t1 <= t2] (the clock of the store does not go
    back between the two inserts), and then reading the session returns
    exactly those two turns in that order; the rows carry the timestamps
    [t1] and [t2]. *)
Theorem session_round_trip :
  forall (d : db) (sid : string) (st1 st2 : stamp),
    consistent d ->
    query_session d sid = None ->
    (now st1 <= now st2)%nat ->
    let d2 :=
      add_message_to_session
        (add_message_to_session d st1 sid "user" "hello") st2 sid "assistant" "hi" in
    get_session_history d2 sid
      = [{| role := "user"; content := "hello" |};
         {| role := "assistant"; content := "hi" |}] /\
    map msg_created_at (messages_of d2 sid) = [now st1; now st2].
Proof.
  intros d sid st1 st2 Hd Hfresh Hclock d2. subst d2.
  unfold get_session_history.
  destruct (query_session (add_message_to_session _ _ _ _ _) sid) eqn:Hq;
    [| exfalso; exact (query_session_added _ _ _ _ _ Hq)].
  rewrite !messages_of_added, (fresh_session_has_no_messages d sid Hd Hfresh).
  cbn [app]. split; [|reflexivity].
  rewrite sorted_chronological; [reflexivity|].
  apply chrono_cons; [exact Hclock | apply chrono_one].
Qed.

(** C8 on the empty store, both turns within the same tick of the clock. *)
Lemma session_round_trip_witness :
  let st1 := {| fresh_id := "m1"; now := 7 |} in
  let st2 := {| fresh_id := "m2"; now := 7 |} in
  let d2 :=
    add_message_to_session
      (add_message_to_session empty_db st1 "s" "user" "hello") st2 "s" "assistant" "hi" in
  get_session_history d2 "s"
    = [{| role := "user"; content := "hello" |};
       {| role := "assistant"; content := "hi" |}] /\
  map msg_created_at (messages_of d2 "s") = [now st1; now st2].
Proof.
  apply (session_round_trip empty_db "s"
           {| fresh_id := "m1"; now := 7 |} {| fresh_id := "m2"; now := 7 |}).
  - intros m [].
  - reflexivity.
  - simpl. lia.
Defined.

(** The claim C8 fails on the code without a condition on the clock.  On
    the empty store the user turn is inserted at time 8 and the assistant
    turn at time 7 (the clock was set back in between): the rows carry
    [t1 = 8 > t2 = 7], and the read, which sorts by [created_at], returns
    the assistant turn before the user turn. *)
Lemma clock_going_back_reverses :
  let st1 := {| fresh_id := "m1"; now := 8 |} in
  let st2 := {| fresh_id := "m2"; now := 7 |} in
  let d2 :=
    add_message_to_session
      (add_message_to_session empty_db st1 "s" "user" "hello") st2 "s" "assistant" "hi" in
  consistent empty_db /\
  query_session empty_db "s" = None /\
  get_session_history d2 "s"
    = [{| role := "assistant"; content := "hi" |};
       {| role := "user"; content := "hello" |}] /\
  get_session_history d2 "s"
    <> [{| role := "user"; content := "hello" |};
        {| role := "assistant"; content := "hi" |}] /\
  map msg_created_at (messages_of d2 "s") = [8; 7] /\
  ~ (now st1 <= now st2)%nat.
Proof.
  cbv zeta. split; [intros m []|]. split; [reflexivity|]. split; [reflexivity|].
  split; [discriminate|]. split; [reflexivity|]. simpl. lia.
Qed.

(** Turns are read in the order they were appended whenever the clock did
    not go back between the inserts of the session. *)
Theorem history_in_insertion_order :
  forall (d : db) (sid : string),
    query_session d sid <> None ->
    chronological (messages_of d sid) ->
    get_session_history d sid
      = map (fun m => {| role := msg_role m; content := msg_content m |})
            (messages_of d sid).
Proof.
  intros d sid Hq Hchrono. unfold get_session_history.
  destruct (query_session d sid); [|contradiction].
  rewrite (sorted_chronological _ Hchrono). reflexivity.
Qed.

(** Three turns of one session, the last two within the same tick. *)
Lemma history_in_insertion_order_witness :
  let d :=
    add_message_to_session
      (add_message_to_session
         (add_message_to_session empty_db {| fresh_id := "m1"; now := 3 |} "s" "user" "a")
         {| fresh_id := "m2"; now := 5 |} "s" "assistant" "b")
      {| fresh_id := "m3"; now := 5 |} "s" "user" "c" in
  get_session_history d "s"
    = map (fun m => {| role := msg_role m; content := msg_content m |}) (messages_of d "s").
Proof.
  apply (history_in_insertion_order
           (add_message_to_session
              (add_message_to_session
                 (add_message_to_session empty_db {| fresh_id := "m1"; now := 3 |}
                    "s" "user" "a")
                 {| fresh_id := "m2"; now := 5 |} "s" "assistant" "b")
              {| fresh_id := "m3"; now := 5 |} "s" "user" "c") "s").
  - discriminate.
  - apply chrono_cons; [simpl; lia|]. apply chrono_cons; [simpl; lia|]. apply chrono_one.
Defined.

Lemma find_filtered_out {A} (f : A -> bool) (l : list A) :
  find f (filter (fun x => negb (f x)) l) = None.
Proof.
  induction l as [|x l IH]; simpl; [reflexivity|].
  destruct (f x) eqn:Hx; simpl; [exact IH | rewrite Hx; exact IH].
Qed.

Lemma filter_filtered_out {A} (f : A -> bool) (l : list A) :
  filter f (filter (fun x => negb (f x)) l) = [].
Proof.
  induction l as [|x l IH]; simpl; [reflexivity|].
  destruct (f x) eqn:Hx; simpl; [exact IH | rewrite Hx; exact IH].
Qed.

(** Deleting a session: an unknown id is reported and changes nothing; a
    known one is removed together with all its messages. *)
Theorem delete_session_cascades :
  forall (d : db) (sid : string),
    (query_session d sid = None /\ delete_session d sid = (d, false)) \/
    (query_session d sid <> None /\
     snd (delete_session d sid) = true /\
     query_session (fst (delete_session d sid)) sid = None /\
     messages_of (fst (delete_session d sid)) sid = [] /\
     get_session_history (fst (delete_session d sid)) sid = []).
Proof.
  intros d sid. unfold delete_session.
  destruct (query_session d sid) as [s|] eqn:Hq; [right | left; split; reflexivity].
  split; [discriminate|]. split; [reflexivity|]. cbn [fst].
  assert (Hgone :
    query_session
      {| chat_sessions := filter (fun s => negb (session_pk s =? sid)) (chat_sessions d);
         chat_messages :=
           filter (fun m => negb (msg_session_id m =? sid)) (chat_messages d) |} sid = None).
  { unfold query_session. cbn [chat_sessions].
    apply (find_filtered_out (fun s => session_pk s =? sid)). }
  split; [exact Hgone|]. split.
  - unfold messages_of. cbn [chat_messages].
    apply (filter_filtered_out (fun m => msg_session_id m =? sid)).
  - unfold get_session_history. rewrite Hgone. reflexivity.
Qed.

(** Recording a user turn adds no assistant turn to any session. *)
Lemma user_turn_adds_no_assistant_turn
  (d : db) (st : stamp) (sid sid' content : string) :
  assistant_turns (add_message_to_session d st sid "user" content) sid'
    = assistant_turns d sid'.
Proof.
  unfold assistant_turns, messages_of, add_message_to_session. cbn [chat_messages].
  rewrite !filter_app, map_app. cbn [filter msg_session_id].
  destruct (sid =? sid'); cbn; rewrite ?app_nil_r; reflexivity.
Qed.

End DatabaseFacts.

(* ===================================================================== *)
(** ** Properties of the chat endpoints                                   *)
(* ===================================================================== *)

Module MainFacts.

Import Database Main.

(** [json] on texts that need no escaping. *)
Definition plain_json : jsonlib :=
  {| dumps_str := fun s => dquote ++ s ++ dquote;
     reserialize := fun s => s |}.

(** A turn with one tool cycle: the model announces what it will do and
    calls [list_kubernetes_pods], the tool answers, the model concludes. *)
Definition one_tool_cycle : agent_run :=
  {| run_messages :=
       [{| produced_msg :=
             AIMessage "Let me check the pods."
               [{| call_id := Some "call_1";
                   function_name := Some "list_kubernetes_pods";
                   function_arguments := Some "{}" |}];
           fragments := ["Let me check"; " the pods."] |};
        {| produced_msg := ToolMessage "All pods: web" (Some "call_1");
           fragments := [] |};
        {| produced_msg := AIMessage "There is one pod: web." [];
           fragments := ["There is one pod: "; "web."] |}];
     run_failure := None |}.

(** The same turn with a model that says nothing before it calls the tool,
    and a framework that streams no tool output. *)
Definition silent_tool_cycle : agent_run :=
  {| run_messages :=
       [{| produced_msg :=
             AIMessage ""
               [{| call_id := Some "call_1";
                   function_name := Some "list_kubernetes_pods";
                   function_arguments := Some "{}" |}];
           fragments := [] |};
        {| produced_msg := ToolMessage "All pods: web" (Some "call_1");
           fragments := [] |};
        {| produced_msg := AIMessage "There is one pod: web." [];
           fragments := ["There is one pod: "; "web."] |}];
     run_failure := None |}.

(** A turn in which the model is lost after its first fragments. *)
Definition failing_run : agent_run :=
  {| run_messages :=
       [{| produced_msg := AIMessage "There is" []; fragments := ["There"; " is"] |}];
     run_failure := Some (OtherError "connection to the model lost") |}.

Definition ask_pods : ChatRequest :=
  {| message := "which pods are running?"; session_id := None;
     enable_tool_response := false |}.

Lemma append_empty_r (s : string) : s ++ "" = s.
Proof. induction s as [|c s IH]; simpl; [reflexivity | rewrite IH; reflexivity]. Qed.

Lemma append_assoc (a b c : string) : (a ++ b) ++ c = a ++ (b ++ c).
Proof. induction a as [|x a IH]; simpl; [reflexivity | rewrite IH; reflexivity]. Qed.

Lemma concat_cons (x : string) (l : list string) :
  String.concat "" (x :: l) = x ++ String.concat "" l.
Proof. destruct l; simpl; [symmetry; apply append_empty_r | reflexivity]. Qed.

Lemma concat_app (l l' : list string) :
  String.concat "" (l ++ l') = String.concat "" l ++ String.concat "" l'.
Proof.
  induction l as [|x l IH].
  - reflexivity.
  - change ((x :: l) ++ l')%list with (x :: (l ++ l'))%list.
    rewrite !concat_cons, IH, append_assoc. reflexivity.
Qed.

Lemma fragments_of_map (l : list string) : fragments_of (map Fragment l) = l.
Proof. induction l as [|x l IH]; simpl; [reflexivity | rewrite IH; reflexivity]. Qed.

Section StreamFacts.

Variable agent : list entry -> agent_run.
Variable sid : string.
Variable history : list entry.
Variable assistant_stamp : stamp.

(** The store when the generator has run to its end without a failure. *)
Definition persisted (d : db) (full_response : string) : db :=
  if negb (full_response =? "")
  then add_message_to_session d assistant_stamp sid "assistant" full_response
  else d.

(** How a stream that is read to its end ends, and what it leaves. *)
Definition completion (d : db) (full_response : string) : stream_end * db :=
  match snd (astream agent history) with
  | Some e => (Failed e, d)
  | None => (EndOfStream, persisted d full_response)
  end.

(** A suspended generator read [pulls] more times. *)
Lemma consume_suspended (pending : list string) :
  forall (pulls : nat) (full_response : string) (d : db),
    consume agent sid history assistant_stamp pulls (Suspended full_response pending) d
    = if (pulls <=? List.length pending)%nat
      then (map Fragment (firstn pulls pending), Abandoned, d)
      else (map Fragment pending,
            fst (completion d (full_response ++ String.concat "" pending)),
            snd (completion d (full_response ++ String.concat "" pending))).
Proof.
  induction pending as [|content rest IH]; intros pulls full_response d.
  - destruct pulls as [|k]; [reflexivity|].
    cbn [consume anext List.length Nat.leb map String.concat].
    rewrite append_empty_r. unfold completion, persisted.
    destruct (snd (astream agent history)); [reflexivity|].
    destruct (negb (full_response =? "")); reflexivity.
  - destruct pulls as [|k]; [reflexivity|].
    cbn [consume anext]. rewrite IH. cbn [List.length Nat.leb].
    rewrite concat_cons, append_assoc.
    destruct (k <=? List.length rest)%nat; reflexivity.
Qed.

(** The whole response, read [pulls] times. *)
Lemma consume_created (pulls : nat) (d : db) :
  let tokens := fst (astream agent history) in
  consume agent sid history assistant_stamp pulls Created d
  = if (pulls <=? S (List.length tokens))%nat
    then (firstn pulls (SessionEvent sid :: map Fragment tokens), Abandoned, d)
    else (SessionEvent sid :: map Fragment tokens,
          fst (completion d (String.concat "" tokens)),
          snd (completion d (String.concat "" tokens))).
Proof.
  intros tokens. destruct pulls as [|k]; [reflexivity|].
  cbn [consume anext]. rewrite consume_suspended. fold tokens.
  cbn [Nat.leb firstn]. rewrite firstn_map.
  destruct (k <=? List.length tokens)%nat; reflexivity.
Qed.

End StreamFacts.

(** C7. The events of a streaming chat request: whatever the client reads
    is an initial part of the sequence that starts with the session
    identifier and goes on with the text fragments in the order the agent
    makes them available; the identifier is the generated one when the
    client supplied none; and a client that reads on until the generator
    stops, the agent not failing, has received the whole sequence when the
    stream ends. *)
Theorem stream_event_order :
  forall (agent : list entry -> agent_run) (d : db) (user_stamp assistant_stamp : stamp)
         (uuid4 : string) (req : ChatRequest) (pulls : nat),
    let sid := session_id_or req uuid4 in
    let history := get_session_history (with_user_turn d user_stamp uuid4 req) sid in
    let all := SessionEvent sid :: map Fragment (fst (astream agent history)) in
    let '(evs, ending, _) := chat_stream agent d user_stamp assistant_stamp uuid4 req pulls in
    evs = firstn pulls all /\
    (session_id req = None -> sid = uuid4) /\
    (ending = EndOfStream -> evs = all) /\
    (snd (astream agent history) = None ->
     (List.length all < pulls)%nat -> ending = EndOfStream /\ evs = all).
Proof.
  intros agent d user_stamp assistant_stamp uuid4 req pulls sid history all.
  subst all history. unfold chat_stream, with_user_turn. fold sid.
  set (d1 := add_message_to_session d user_stamp sid "user" (message req)).
  set (history := get_session_history d1 sid).
  rewrite consume_created.
  set (tokens := fst (astream agent history)).
  assert (Hsid : session_id req = None -> sid = uuid4).
  { intros Hnone. subst sid. unfold session_id_or. rewrite Hnone. reflexivity. }
  assert (Hall : forall n, (List.length tokens < S n)%nat ->
            firstn (S n) (SessionEvent sid :: map Fragment tokens)
            = SessionEvent sid :: map Fragment tokens).
  { intros n Hn. apply firstn_all2. cbn [List.length]. rewrite length_map. lia. }
  destruct (Nat.leb_spec pulls (S (List.length tokens))) as [Hle|Hlt].
  - split; [reflexivity|]. split; [exact Hsid|]. split; [discriminate|].
    intros _ Hlen. cbn [List.length] in Hlen. rewrite length_map in Hlen. lia.
  - destruct pulls as [|n]; [lia|]. rewrite Hall by lia.
    unfold completion.
    destruct (snd (astream agent history)) as [e|]; cbn [fst snd].
    + split; [reflexivity|]. split; [exact Hsid|]. split; [discriminate|]. discriminate.
    + split; [reflexivity|]. split; [exact Hsid|]. split; [reflexivity|].
      intros _ _. split; reflexivity.
Qed.

(** C7 on a turn with one tool cycle, read to the end by a client that sent
    no session id. *)
Lemma stream_event_order_witness :
  chat_stream (fun _ => one_tool_cycle) empty_db
    {| fresh_id := "m1"; now := 1 |} {| fresh_id := "m2"; now := 2 |}
    "generated-id" ask_pods 6
  = ([SessionEvent "generated-id"; Fragment "Let me check"; Fragment " the pods.";
      Fragment "There is one pod: "; Fragment "web."],
     EndOfStream,
     add_message_to_session
       (with_user_turn empty_db {| fresh_id := "m1"; now := 1 |} "generated-id" ask_pods)
       {| fresh_id := "m2"; now := 2 |} "generated-id" "assistant"
       "Let me check the pods.There is one pod: web.") /\
  (let '(evs, ending, _) :=
     chat_stream (fun _ => one_tool_cycle) empty_db
       {| fresh_id := "m1"; now := 1 |} {| fresh_id := "m2"; now := 2 |}
       "generated-id" ask_pods 6 in
   evs = firstn 6 (SessionEvent "generated-id"
                     :: map Fragment (fst (astream (fun _ => one_tool_cycle) []))) /\
   (session_id ask_pods = None -> "generated-id" = "generated-id") /\
   (ending = EndOfStream ->
    evs = SessionEvent "generated-id"
            :: map Fragment (fst (astream (fun _ => one_tool_cycle) []))) /\
   (snd (astream (fun _ => one_tool_cycle) []) = None ->
    (5 < 6)%nat ->
    ending = EndOfStream /\
    evs = SessionEvent "generated-id"
            :: map Fragment (fst (astream (fun _ => one_tool_cycle) [])))).
Proof.
  split; [reflexivity|].
  exact (stream_event_order (fun _ => one_tool_cycle) empty_db
           {| fresh_id := "m1"; now := 1 |} {| fresh_id := "m2"; now := 2 |}
           "generated-id" ask_pods 6).
Defined.

(** The store after a response read [pulls] times: untouched unless the
    generator ran to its end, and then holding the complete response. *)
Lemma consume_persists
  (agent : list entry -> agent_run) (sid : string) (history : list entry)
  (assistant_stamp : stamp) (pulls : nat) (d : db) :
  let tokens := fst (astream agent history) in
  let '(evs, ending, d') := consume agent sid history assistant_stamp pulls Created d in
  (ending <> EndOfStream -> d' = d) /\
  (ending = EndOfStream ->
     snd (astream agent history) = None /\
     evs = SessionEvent sid :: map Fragment tokens /\
     d' = if negb (String.concat "" tokens =? "")
          then add_message_to_session d assistant_stamp sid "assistant"
                 (String.concat "" tokens)
          else d).
Proof.
  intros tokens. rewrite consume_created. fold tokens.
  destruct (pulls <=? S (List.length tokens))%nat.
  - split; [reflexivity | discriminate].
  - unfold completion, persisted.
    destruct (snd (astream agent history)) as [e|]; cbn [fst snd].
    + split; [reflexivity | discriminate].
    + split; [intros H; contradiction H; reflexivity|].
      intros _. repeat split.
Qed.

(** A failure of the agent leaves [chat_invoke] before anything but the
    user turn is recorded. *)
Lemma chat_invoke_failure
  (json : jsonlib) (agent : list entry -> agent_run) (d : db)
  (user_stamp assistant_stamp : stamp) (uuid4 : string) (req : ChatRequest) (e : exn) :
  snd (chat_invoke json agent d user_stamp assistant_stamp uuid4 req) = Raise e ->
  fst (chat_invoke json agent d user_stamp assistant_stamp uuid4 req)
    = with_user_turn d user_stamp uuid4 req.
Proof.
  unfold chat_invoke, with_user_turn.
  destruct (ainvoke agent _) as [messages|e']; [|reflexivity].
  destruct (negb (final_response (scan_messages json messages) =? "")); discriminate.
Qed.

(** C6. No partial assistant turn is persisted.  On the streaming path the
    store is left as it was when the agent was first consulted (the user
    turn recorded, no assistant turn added) unless the stream reached its
    end: a client that abandons the stream, or an agent that fails
    mid-stream, leaves nothing of the accumulated response.  When the stream
    does reach its end, the agent has not failed, the client has received
    every fragment, and what is recorded is the complete response.  On the
    buffered path a failing agent leaves the store in that same state. *)
Theorem no_partial_assistant_turn :
  forall (agent : list entry -> agent_run) (d : db) (user_stamp assistant_stamp : stamp)
         (uuid4 : string) (req : ChatRequest) (pulls : nat),
    let sid := session_id_or req uuid4 in
    let d1 := with_user_turn d user_stamp uuid4 req in
    let history := get_session_history d1 sid in
    let tokens := fst (astream agent history) in
    let '(evs, ending, d') := chat_stream agent d user_stamp assistant_stamp uuid4 req pulls in
    (ending <> EndOfStream -> d' = d1) /\
    (ending = EndOfStream ->
       snd (astream agent history) = None /\
       evs = SessionEvent sid :: map Fragment tokens /\
       d' = if negb (String.concat "" tokens =? "")
            then add_message_to_session d1 assistant_stamp sid "assistant"
                   (String.concat "" tokens)
            else d1) /\
    (forall (json : jsonlib) (e : exn),
       snd (chat_invoke json agent d user_stamp assistant_stamp uuid4 req) = Raise e ->
       fst (chat_invoke json agent d user_stamp assistant_stamp uuid4 req) = d1).
Proof.
  intros agent d user_stamp assistant_stamp uuid4 req pulls sid d1 history tokens.
  pose proof (consume_persists agent sid history assistant_stamp pulls d1) as H.
  change (consume agent sid history assistant_stamp pulls Created d1)
    with (chat_stream agent d user_stamp assistant_stamp uuid4 req pulls) in H.
  destruct (chat_stream agent d user_stamp assistant_stamp uuid4 req pulls)
    as [[evs ending] d'].
  destruct H as [Hkept Hended].
  split; [exact Hkept|]. split; [exact Hended|].
  intros json e. apply chat_invoke_failure.
Qed.

(** C6 on a stream abandoned after two fragments. *)
Lemma no_partial_assistant_turn_witness :
  chat_stream (fun _ => one_tool_cycle) empty_db
    {| fresh_id := "m1"; now := 1 |} {| fresh_id := "m2"; now := 2 |}
    "generated-id" ask_pods 3
  = ([SessionEvent "generated-id"; Fragment "Let me check"; Fragment " the pods."],
     Abandoned,
     with_user_turn empty_db {| fresh_id := "m1"; now := 1 |} "generated-id" ask_pods) /\
  (let '(evs, ending, d') :=
     chat_stream (fun _ => one_tool_cycle) empty_db
       {| fresh_id := "m1"; now := 1 |} {| fresh_id := "m2"; now := 2 |}
       "generated-id" ask_pods 3 in
   ending <> EndOfStream ->
   d' = with_user_turn empty_db {| fresh_id := "m1"; now := 1 |} "generated-id" ask_pods).
Proof.
  split; [reflexivity|].
  exact (proj1 (no_partial_assistant_turn (fun _ => one_tool_cycle) empty_db
                  {| fresh_id := "m1"; now := 1 |} {| fresh_id := "m2"; now := 2 |}
                  "generated-id" ask_pods 3)).
Defined.

(** A model that fails mid-stream: the fragments already produced are
    sent, the stream fails, and no assistant turn is recorded, on either
    path. *)
Lemma failing_agent_leaves_no_turn :
  chat_stream (fun _ => failing_run) empty_db
    {| fresh_id := "m1"; now := 1 |} {| fresh_id := "m2"; now := 2 |}
    "generated-id" ask_pods 10
  = ([SessionEvent "generated-id"; Fragment "There"; Fragment " is"],
     Failed (OtherError "connection to the model lost"),
     with_user_turn empty_db {| fresh_id := "m1"; now := 1 |} "generated-id" ask_pods) /\
  chat_invoke plain_json (fun _ => failing_run) empty_db
    {| fresh_id := "m1"; now := 1 |} {| fresh_id := "m2"; now := 2 |}
    "generated-id" ask_pods
  = (with_user_turn empty_db {| fresh_id := "m1"; now := 1 |} "generated-id" ask_pods,
     Raise (OtherError "connection to the model lost")).
Proof. split; reflexivity. Qed.

Lemma final_response_scan_calls (json : jsonlib) (calls : list tool_call) :
  forall s, final_response (fold_left (scan_call json) calls s) = final_response s.
Proof.
  induction calls as [|call calls IH]; intros s; simpl; [reflexivity|].
  rewrite IH. reflexivity.
Qed.

(** The buffered response is the content of the last message of the model
    that has one. *)
Lemma final_response_last (json : jsonlib) (l : list msg) (c : string)
  (calls : list tool_call) :
  c <> "" ->
  final_response (scan_messages json (l ++ [AIMessage c calls])) = c.
Proof.
  intros Hc. unfold scan_messages. rewrite fold_left_app. cbn [fold_left scan_msg].
  rewrite final_response_scan_calls.
  destruct (String.eqb_spec c ""); [contradiction | reflexivity].
Qed.

Lemma flat_map_silent (l : list produced) :
  (forall p, In p l -> fragments p = []) -> flat_map fragments l = [].
Proof.
  induction l as [|p l IH]; intros H; simpl; [reflexivity|].
  rewrite (H p (or_introl eq_refl)), IH; [reflexivity|].
  intros q Hq. apply H. right. exact Hq.
Qed.

(** What [chat_invoke] answers when the agent returns. *)
Lemma chat_invoke_response
  (json : jsonlib) (agent : list entry -> agent_run) (d : db)
  (user_stamp assistant_stamp : stamp) (uuid4 : string) (req : ChatRequest)
  (messages : list msg) :
  ainvoke agent (get_session_history (with_user_turn d user_stamp uuid4 req)
                   (session_id_or req uuid4)) = Ret messages ->
  final_response (scan_messages json messages) <> "" ->
  snd (chat_invoke json agent d user_stamp assistant_stamp uuid4 req)
  = Ret (Some {| response_session_id := session_id_or req uuid4;
                 response := final_response (scan_messages json messages);
                 tools_info :=
                   if enable_tool_response req
                   then scan_tools_info (scan_messages json messages) else [];
                 tool_response :=
                   if enable_tool_response req
                   then scan_tool_responses (scan_messages json messages) else [] |}).
Proof.
  intros Hm Hfinal. unfold chat_invoke, with_user_turn in *. cbv zeta. rewrite Hm.
  destruct (String.eqb_spec (final_response (scan_messages json messages)) "");
    [contradiction | reflexivity].
Qed.

(** The claim C5 fails on the code: in a turn with a tool cycle the model
    says what it is about to do before it calls the tool.  Every fragment is
    streamed; the buffered response is the last message alone. *)
Lemma stream_differs_from_buffered :
  let agent := fun _ : list entry => one_tool_cycle in
  let st1 := {| fresh_id := "m1"; now := 1 |} in
  let st2 := {| fresh_id := "m2"; now := 2 |} in
  Forall faithful (run_messages one_tool_cycle) /\
  snd (chat_invoke plain_json agent empty_db st1 st2 "generated-id" ask_pods)
    = Ret (Some {| response_session_id := "generated-id";
                   response := "There is one pod: web.";
                   tools_info := []; tool_response := [] |}) /\
  chat_stream agent empty_db st1 st2 "generated-id" ask_pods 6
    = ([SessionEvent "generated-id"; Fragment "Let me check"; Fragment " the pods.";
        Fragment "There is one pod: "; Fragment "web."],
       EndOfStream,
       add_message_to_session (with_user_turn empty_db st1 "generated-id" ask_pods)
         st2 "generated-id" "assistant" "Let me check the pods.There is one pod: web.") /\
  streamed_text (fst (fst (chat_stream agent empty_db st1 st2 "generated-id" ask_pods 6)))
    = "Let me check the pods.There is one pod: web." /\
  streamed_text (fst (fst (chat_stream agent empty_db st1 st2 "generated-id" ask_pods 6)))
    <> "There is one pod: web.".
Proof.
  cbv zeta. split; [|split; [|split; [|split]]].
  - repeat constructor.
  - reflexivity.
  - reflexivity.
  - reflexivity.
  - discriminate.
Qed.

(** C5, amended.  For a fixed agent, input message and session history:
    when the turn ends with a message of the model that has a content,
    streamed as the fragments of that content, and nothing else produced in
    the turn is streamed (the model says nothing before it calls a tool),
    the concatenation of the fragments sent to a client that reads the
    stream to its end equals the [response] of the buffered path. *)
Theorem stream_equals_buffered_final_answer :
  forall (json : jsonlib) (agent : list entry -> agent_run) (d : db)
         (user_stamp assistant_stamp : stamp) (uuid4 : string) (req : ChatRequest)
         (pulls : nat) (earlier : list produced) (last : produced)
         (c : string) (calls : list tool_call),
    let sid := session_id_or req uuid4 in
    let history := get_session_history (with_user_turn d user_stamp uuid4 req) sid in
    run_failure (agent history) = None ->
    run_messages (agent history) = (earlier ++ [last])%list ->
    (forall p, In p earlier -> fragments p = []) ->
    produced_msg last = AIMessage c calls ->
    c <> "" ->
    faithful last ->
    (List.length (fragments last) + 1 < pulls)%nat ->
    exists resp,
      snd (chat_invoke json agent d user_stamp assistant_stamp uuid4 req) = Ret (Some resp) /\
      streamed_text (fst (fst (chat_stream agent d user_stamp assistant_stamp uuid4 req pulls)))
        = response resp.
Proof.
  intros json agent d user_stamp assistant_stamp uuid4 req pulls earlier last c calls
         sid history Hok Hrun Hsilent Hlast Hc Hfaithful Hpulls.
  assert (Htokens : fst (astream agent history) = fragments last).
  { unfold astream. cbn [fst]. rewrite Hrun, flat_map_app, (flat_map_silent _ Hsilent).
    simpl. apply app_nil_r. }
  assert (Hcontent : String.concat "" (fragments last) = c).
  { unfold faithful in Hfaithful. rewrite Hlast in Hfaithful. exact Hfaithful. }
  assert (Hstream :
    fst (fst (chat_stream agent d user_stamp assistant_stamp uuid4 req pulls))
    = SessionEvent sid :: map Fragment (fragments last)).
  { change (chat_stream agent d user_stamp assistant_stamp uuid4 req pulls)
      with (consume agent sid history assistant_stamp pulls Created
              (with_user_turn d user_stamp uuid4 req)).
    rewrite consume_created, Htokens.
    destruct (Nat.leb_spec pulls (S (List.length (fragments last)))); [lia | reflexivity]. }
  assert (Hscan : forall messages,
    ainvoke agent history = Ret messages -> final_response (scan_messages json messages) = c).
  { intros messages Hm. unfold ainvoke in Hm. rewrite Hok, Hrun in Hm.
    injection Hm as <-. rewrite map_app, app_assoc. cbn [map]. rewrite Hlast.
    apply final_response_last, Hc. }
  rewrite Hstream. unfold streamed_text. cbn [fragments_of flat_map app].
  change (flat_map _ (map Fragment (fragments last)))
    with (fragments_of (map Fragment (fragments last))).
  rewrite fragments_of_map, Hcontent.
  destruct (ainvoke agent history) as [messages|e] eqn:Hm.
  - eexists. split.
    + apply (chat_invoke_response json agent d user_stamp assistant_stamp uuid4 req
               messages Hm).
      rewrite (Hscan messages eq_refl). exact Hc.
    + cbn [response]. rewrite (Hscan messages eq_refl). reflexivity.
  - unfold ainvoke in Hm. rewrite Hok in Hm. discriminate Hm.
Qed.

(** C5 on a turn whose tool cycle streams nothing. *)
Lemma stream_equals_buffered_final_answer_witness :
  exists resp,
    snd (chat_invoke plain_json (fun _ => silent_tool_cycle) empty_db
           {| fresh_id := "m1"; now := 1 |} {| fresh_id := "m2"; now := 2 |}
           "generated-id" ask_pods) = Ret (Some resp) /\
    streamed_text
      (fst (fst (chat_stream (fun _ => silent_tool_cycle) empty_db
                   {| fresh_id := "m1"; now := 1 |} {| fresh_id := "m2"; now := 2 |}
                   "generated-id" ask_pods 4)))
      = response resp.
Proof.
  apply (stream_equals_buffered_final_answer plain_json (fun _ => silent_tool_cycle) empty_db
           {| fresh_id := "m1"; now := 1 |} {| fresh_id := "m2"; now := 2 |}
           "generated-id" ask_pods 4
           [{| produced_msg :=
                 AIMessage ""
                   [{| call_id := Some "call_1";
                       function_name := Some "list_kubernetes_pods";
                       function_arguments := Some "{}" |}];
               fragments := [] |};
            {| produced_msg := ToolMessage "All pods: web" (Some "call_1");
               fragments := [] |}]
           {| produced_msg := AIMessage "There is one pod: web." [];
              fragments := ["There is one pod: "; "web."] |}
           "There is one pod: web." []).
  - reflexivity.
  - reflexivity.
  - intros p [<-|[<-|[]]]; reflexivity.
  - reflexivity.
  - discriminate.
  - reflexivity.
  - simpl. lia.
Defined.

End MainFacts.

(* ===================================================================== *)
(** ** Properties of the agent loop                                       *)
(* ===================================================================== *)

Module AgentLoopFacts.

Import K8sTools AgentLoop.

Section LoopFacts.

Variable oracle : list item -> option agent_step.
Variable execute : list item -> invocation -> string.
Variable cap : nat.

Lemma steps_add (n m : nat) (s : loop_state) :
  steps oracle execute cap (n + m) s = steps oracle execute cap m (steps oracle execute cap n s).
Proof. revert s. induction n as [|n IH]; intros s; simpl; [reflexivity | apply IH]. Qed.

(** The pending invocations are executed one per step, and the loop goes
    back to the Oracle. *)
Lemma executing_returns (pending : list invocation) :
  forall cycles working tr,
  exists working' tr',
    steps oracle execute cap (S (List.length pending)) (ExecutingInvocations cycles pending working tr)
    = AwaitingOracle cycles working' tr'.
Proof.
  induction pending as [|inv rest IH]; intros cycles working tr.
  - exists working, tr. reflexivity.
  - destruct (IH cycles (working ++ [Proposal inv; Observation (execute working inv)])%list
                (tr ++ [(inv, execute working inv)])%list) as (w' & t' & H).
    exists w', t'. exact H.
Qed.

(** From any consultation within the cap, the loop reaches a terminal
    state without exceeding the cap; an Oracle that never answers is
    stopped at the cap with the degraded answer. *)
Lemma awaiting_terminates (budget : nat) :
  forall cycles working tr,
    (cycles + budget = cap)%nat ->
    exists n final,
      steps oracle execute cap n (AwaitingOracle cycles working tr) = final /\
      terminal final = true /\
      (forall c text tr', final = Done c text tr' -> (c <= cap)%nat) /\
      (never_final oracle -> exists tr', final = Done cap limit_reached tr').
Proof.
  induction budget as [|budget IH]; intros cycles working tr Hcap.
  - exists 1, (Done cycles limit_reached tr). simpl.
    destruct (Nat.leb_spec cap cycles) as [Hge|Hlt]; [|lia].
    split; [reflexivity|]. split; [reflexivity|]. split.
    + intros c text tr' H. injection H as <- _ _. lia.
    + intros _. exists tr. f_equal. lia.
  - destruct (oracle working) as [[text|invs]|] eqn:Horacle.
    + exists 1, (Done cycles text tr). simpl.
      destruct (Nat.leb_spec cap cycles) as [Hge|Hlt]; [lia|]. rewrite Horacle.
      split; [reflexivity|]. split; [reflexivity|]. split.
      * intros c text' tr' H. injection H as <- _ _. lia.
      * intros Hnever. destruct (Hnever working) as [invs Hinvs]. congruence.
    + destruct (executing_returns invs (S cycles) working tr) as (w' & t' & Hexec).
      destruct (IH (S cycles) w' t' ltac:(lia)) as (n & final & Hrun & Hrest).
      exists (1 + (S (List.length invs) + n)), final.
      split; [|exact Hrest].
      rewrite steps_add. simpl steps at 2.
      destruct (Nat.leb_spec cap cycles) as [Hge|Hlt]; [lia|]. rewrite Horacle.
      rewrite steps_add, Hexec. exact Hrun.
    + exists 1, (Aborted "oracle failure"). simpl.
      destruct (Nat.leb_spec cap cycles) as [Hge|Hlt]; [lia|]. rewrite Horacle.
      split; [reflexivity|]. split; [reflexivity|]. split.
      * intros c text tr' H. discriminate H.
      * intros Hnever. destruct (Hnever working) as [invs Hinvs]. congruence.
Qed.

End LoopFacts.

(** C4. Every turn of the loop terminates: from the start of a turn a
    terminal state is reached after finitely many steps, with at most [cap]
    cycles; against an Oracle that never returns a final answer the turn
    ends at the cap, in the state [Done] (the turn is over, the loop is not
    aborted), with the degraded answer that states that the limit was
    reached. *)
Theorem run_turn_terminates_at_cap :
  forall (oracle : list item -> option agent_step)
         (execute : list item -> invocation -> string) (cap : nat)
         (session_history : list item) (user_message : string),
  exists n final,
    steps oracle execute cap n (start session_history user_message) = final /\
    terminal final = true /\
    (forall c text tr, final = Done c text tr -> (c <= cap)%nat) /\
    (never_final oracle -> exists tr, final = Done cap limit_reached tr).
Proof.
  intros oracle execute cap session_history user_message.
  apply (awaiting_terminates oracle execute cap cap). reflexivity.
Qed.

(** An Oracle that asks for the namespaces again and again, under a cap of
    ten cycles: the turn ends after thirty-one steps. *)
Lemma looping_oracle_is_stopped :
  steps (fun _ => Some (ProposedInvocations [Call_list_kubernetes_namespaces]))
        (fun _ _ => "Available namespaces: default") 10 31
        (start [] "list the namespaces")
  = Done 10 limit_reached
      (repeat (Call_list_kubernetes_namespaces, "Available namespaces: default") 10).
Proof. vm_compute. reflexivity. Qed.

End AgentLoopFacts.

(* ===================================================================== *)
(** ** Further properties of the session store and its endpoints          *)
(* ===================================================================== *)

Module SessionFacts.

Import Database Sessions DatabaseFacts.

Lemma find_app_other {A} (f : A -> bool) (l : list A) (x : A) :
  f x = false -> find f (l ++ [x]) = find f l.
Proof.
  intros Hx. induction l as [|y l IH]; simpl.
  - rewrite Hx. reflexivity.
  - destruct (f y); [reflexivity | exact IH].
Qed.

(** Looking for [sid'] among the rows that are not of [sid]. *)
Lemma find_filter_other {A} (key : A -> string) (sid sid' : string) (l : list A) :
  sid' <> sid ->
  find (fun x => key x =? sid') (filter (fun x => negb (key x =? sid)) l)
    = find (fun x => key x =? sid') l.
Proof.
  intros Hne. induction l as [|x l IH]; simpl; [reflexivity|].
  destruct (String.eqb_spec (key x) sid) as [Hx|Hx]; simpl.
  - destruct (String.eqb_spec (key x) sid'); [congruence | exact IH].
  - destruct (key x =? sid'); [reflexivity | exact IH].
Qed.

Lemma filter_filter_other {A} (key : A -> string) (sid sid' : string) (l : list A) :
  sid' <> sid ->
  filter (fun x => key x =? sid') (filter (fun x => negb (key x =? sid)) l)
    = filter (fun x => key x =? sid') l.
Proof.
  intros Hne. induction l as [|x l IH]; simpl; [reflexivity|].
  destruct (String.eqb_spec (key x) sid) as [Hx|Hx]; simpl.
  - destruct (String.eqb_spec (key x) sid'); [congruence | exact IH].
  - destruct (key x =? sid'); [rewrite IH; reflexivity | exact IH].
Qed.

Lemma query_session_other_added (d : db) (st : stamp) (sid sid' role content : string) :
  sid' <> sid ->
  query_session (add_message_to_session d st sid role content) sid' = query_session d sid'.
Proof.
  intros Hne. unfold add_message_to_session.
  destruct (query_session d sid); unfold query_session; simpl; [reflexivity|].
  apply find_app_other. simpl. destruct (String.eqb_spec sid sid'); [congruence | reflexivity].
Qed.

Lemma messages_of_other_added (d : db) (st : stamp) (sid sid' role content : string) :
  sid' <> sid ->
  messages_of (add_message_to_session d st sid role content) sid' = messages_of d sid'.
Proof.
  intros Hne. unfold messages_of, add_message_to_session. simpl.
  rewrite filter_app. simpl.
  destruct (String.eqb_spec sid sid'); [congruence | apply app_nil_r].
Qed.

(** Sessions do not interfere: appending a message to a session, or
    deleting a session, leaves what is read of every other session as it
    was. *)
Theorem other_sessions_untouched :
  forall (d : db) (st : stamp) (sid sid' role content : string),
    sid' <> sid ->
    get_session_history (add_message_to_session d st sid role content) sid'
      = get_session_history d sid' /\
    get_session_history (fst (delete_session d sid)) sid' = get_session_history d sid'.
Proof.
  intros d st sid sid' role content Hne. split.
  - unfold get_session_history.
    rewrite query_session_other_added, messages_of_other_added by exact Hne. reflexivity.
  - unfold delete_session. destruct (query_session d sid); [|reflexivity].
    cbn [fst]. unfold get_session_history, query_session, messages_of.
    cbn [chat_sessions chat_messages].
    rewrite (find_filter_other session_pk sid sid' _ Hne).
    rewrite (filter_filter_other msg_session_id sid sid' _ Hne). reflexivity.
Qed.

(** Two sessions of one store. *)
Definition two_sessions : db :=
  add_message_to_session
    (add_message_to_session empty_db {| fresh_id := "m1"; now := 1 |} "a" "user" "hello")
    {| fresh_id := "m2"; now := 2 |} "b" "user" "bonjour".

Lemma other_sessions_untouched_witness :
  get_session_history
    (add_message_to_session two_sessions {| fresh_id := "m3"; now := 3 |} "b" "assistant" "salut")
    "a"
    = get_session_history two_sessions "a" /\
  get_session_history (fst (delete_session two_sessions "b")) "a"
    = get_session_history two_sessions "a".
Proof.
  apply (other_sessions_untouched two_sessions {| fresh_id := "m3"; now := 3 |}
           "b" "a" "assistant" "salut").
  discriminate.
Defined.

Lemma find_none_not_in (sid : string) (l : list ChatSession) :
  find (fun s => session_pk s =? sid) l = None -> ~ In sid (map session_pk l).
Proof.
  induction l as [|x l IH]; simpl; intros Hf; [tauto|].
  destruct (String.eqb_spec (session_pk x) sid) as [Hx|Hx]; [discriminate|].
  intros [H|H]; [contradiction | exact (IH Hf H)].
Qed.

Lemma NoDup_snoc {A} (l : list A) (x : A) : NoDup l -> ~ In x l -> NoDup (l ++ [x]).
Proof.
  intros Hl Hx. induction Hl as [|y l Hy Hl IH]; simpl.
  - constructor; [tauto | constructor].
  - constructor.
    + intros Hin. apply in_app_or in Hin. destruct Hin as [Hin|[->|[]]].
      * contradiction.
      * apply Hx. left. reflexivity.
    + apply IH. intros Hin. apply Hx. right. exact Hin.
Qed.

(** Dropping rows keeps the remaining session ids distinct. *)
Lemma unique_after_filter (keep : ChatSession -> bool) (sessions : list ChatSession) :
  NoDup (map session_pk sessions) -> NoDup (map session_pk (filter keep sessions)).
Proof.
  intros Huniq. induction sessions as [|s sessions IH]; simpl in *; [constructor|].
  apply NoDup_cons_iff in Huniq. destruct Huniq as [Hfresh Hrest].
  destruct (keep s); simpl; [|exact (IH Hrest)].
  apply NoDup_cons_iff. split; [|exact (IH Hrest)].
  intros Hin. apply Hfresh. apply in_map_iff in Hin. destruct Hin as (y & Hy & Hin).
  apply filter_In in Hin. apply in_map_iff. exists y. tauto.
Qed.

(** The store keeps its shape: after appending a message (to a known or to
    a new session id) and after deleting a session, session ids are still
    unique and every message still belongs to a session of the store. *)
Theorem store_stays_well_formed :
  forall (d : db) (st : stamp) (sid role content : string),
    well_formed d ->
    well_formed (add_message_to_session d st sid role content) /\
    well_formed (fst (delete_session d sid)).
Proof.
  intros d st sid role content [Huniq Hcons]. split; split.
  - unfold unique_sessions, add_message_to_session.
    destruct (query_session d sid) eqn:Hq; cbn [chat_sessions]; [exact Huniq|].
    rewrite map_app. cbn [map session_pk]. apply NoDup_snoc; [exact Huniq|].
    apply find_none_not_in. exact Hq.
  - apply add_message_consistent. exact Hcons.
  - unfold unique_sessions, delete_session.
    destruct (query_session d sid); cbn [fst chat_sessions]; [|exact Huniq].
    apply unique_after_filter. exact Huniq.
  - unfold delete_session. destruct (query_session d sid); cbn [fst]; [|exact Hcons].
    intros m Hin. cbn [chat_messages] in Hin. apply filter_In in Hin.
    destruct Hin as [Hin Hother].
    unfold query_session. cbn [chat_sessions].
    rewrite (find_filter_other session_pk sid (msg_session_id m)).
    + exact (Hcons m Hin).
    + destruct (String.eqb_spec (msg_session_id m) sid); [discriminate | assumption].
Qed.

Lemma empty_db_well_formed : well_formed empty_db.
Proof. split; [constructor | intros m []]. Qed.

Lemma store_stays_well_formed_witness :
  well_formed (add_message_to_session empty_db {| fresh_id := "m1"; now := 1 |}
                 "a" "user" "hello") /\
  well_formed (fst (delete_session empty_db "a")).
Proof.
  apply (store_stays_well_formed empty_db {| fresh_id := "m1"; now := 1 |} "a" "user" "hello").
  exact empty_db_well_formed.
Defined.

Lemma insert_sorted_last (x m : ChatMessage) (l : list ChatMessage) :
  (msg_created_at x <= msg_created_at m)%nat ->
  insert_sorted x (l ++ [m]) = (insert_sorted x l ++ [m])%list.
Proof.
  intros Hle. induction l as [|y l IH]; simpl.
  - destruct (Nat.leb_spec (msg_created_at x) (msg_created_at m)); [reflexivity | lia].
  - destruct (msg_created_at x <=? msg_created_at y)%nat; [reflexivity|].
    rewrite IH. reflexivity.
Qed.

(** A message that is not older than any other sorts last. *)
Lemma sorted_last (l : list ChatMessage) (m : ChatMessage) :
  (forall x, In x l -> (msg_created_at x <= msg_created_at m)%nat) ->
  sorted_by_created_at (l ++ [m]) = (sorted_by_created_at l ++ [m])%list.
Proof.
  induction l as [|x l IH]; intros Hall; simpl; [reflexivity|].
  rewrite IH by (intros y Hy; apply Hall; right; exact Hy).
  apply insert_sorted_last. apply Hall. left. reflexivity.
Qed.

(** The read after an insert that is not older than what is there. *)
Lemma add_message_appends :
  forall (d : db) (st : stamp) (sid role content : string),
    consistent d ->
    not_before d sid (now st) ->
    get_session_history (add_message_to_session d st sid role content) sid
      = (get_session_history d sid ++ [{| role := role; content := content |}])%list.
Proof.
  intros d st sid role content Hcons Hlate.
  unfold get_session_history at 1.
  destruct (query_session (add_message_to_session d st sid role content) sid) eqn:Hq;
    [| exfalso; exact (query_session_added _ _ _ _ _ Hq)].
  rewrite messages_of_added.
  unfold get_session_history. destruct (query_session d sid) eqn:Hold.
  - rewrite sorted_last by exact Hlate. rewrite map_app. reflexivity.
  - rewrite (fresh_session_has_no_messages d sid Hcons Hold). reflexivity.
Qed.

(** Appending is appending: when no message of the session carries a later
    timestamp than the new one, the session read after
    [add_message_to_session] is the session read before it followed by the
    new turn; this holds for a session id seen for the first time, whose
    history was empty. *)
Theorem history_grows_at_the_end :
  forall (d : db) (st : stamp) (sid role content : string),
    consistent d ->
    not_before d sid (now st) ->
    get_session_history (add_message_to_session d st sid role content) sid
      = (get_session_history d sid ++ [{| role := role; content := content |}])%list.
Proof. exact add_message_appends. Qed.

Lemma history_grows_at_the_end_witness :
  get_session_history
    (add_message_to_session two_sessions {| fresh_id := "m3"; now := 2 |} "a" "assistant" "hi")
    "a"
  = (get_session_history two_sessions "a" ++ [{| role := "assistant"; content := "hi" |}])%list.
Proof.
  apply (history_grows_at_the_end two_sessions {| fresh_id := "m3"; now := 2 |}
           "a" "assistant" "hi").
  - unfold two_sessions. apply add_message_consistent, add_message_consistent. intros m [].
  - intros m [<-|[]]. simpl. lia.
Defined.

Lemma insert_newest_permutation (s : ChatSession) (l : list ChatSession) :
  Permutation (insert_newest s l) (s :: l).
Proof.
  induction l as [|y l IH]; simpl; [apply Permutation_refl|].
  destruct (session_created_at y <=? session_created_at s)%nat; [apply Permutation_refl|].
  apply perm_trans with (y :: s :: l); [apply perm_skip, IH | apply perm_swap].
Qed.

(** Newest first. *)
Definition newer_first (a b : ChatSession) : Prop :=
  (session_created_at b <= session_created_at a)%nat.

Lemma insert_newest_sorted (s : ChatSession) (l : list ChatSession) :
  StronglySorted newer_first l -> StronglySorted newer_first (insert_newest s l).
Proof.
  induction 1 as [|y l Hl IH Hy]; simpl.
  - constructor; constructor.
  - destruct (Nat.leb_spec (session_created_at y) (session_created_at s)) as [Hle|Hlt].
    + constructor; [constructor; assumption|].
      constructor; [exact Hle|].
      apply Forall_impl with (P := newer_first y); [|exact Hy].
      intros z Hz. unfold newer_first in *. lia.
    + constructor; [exact IH|].
      apply Forall_forall. intros z Hz.
      apply (Permutation_in _ (insert_newest_permutation s l)) in Hz.
      destruct Hz as [<-|Hz].
      * unfold newer_first. lia.
      * rewrite Forall_forall in Hy. exact (Hy z Hz).
Qed.

(** [get_all_sessions] lists every session of the store exactly once, none
    that is not there, and never an older session before a newer one. *)
Theorem all_sessions_newest_first :
  forall d : db,
    Permutation (get_all_sessions d) (chat_sessions d) /\
    StronglySorted newer_first (get_all_sessions d).
Proof.
  intros d. unfold get_all_sessions.
  induction (chat_sessions d) as [|s l [IHp IHs]]; simpl.
  - split; constructor.
  - split.
    + apply perm_trans with (s :: fold_right insert_newest [] l).
      * apply insert_newest_permutation.
      * apply perm_skip, IHp.
    + apply insert_newest_sorted, IHs.
Qed.

(** The key of a request is accepted exactly when it equals one of the two
    configured keys (so no key is accepted when neither is configured);
    with any other key every session endpoint answers 401 and the store is
    neither read into the answer nor changed. *)
Theorem endpoints_need_a_configured_key :
  forall (cfg : config) (x_api_key : string),
    (verify_api_key cfg x_api_key = Returns tt <->
     ADMIN_API_KEY cfg = Some x_api_key \/ USER_API_KEY cfg = Some x_api_key) /\
    (verify_api_key cfg x_api_key <> Returns tt ->
     forall (d : db) (sid : string),
       list_sessions cfg x_api_key d = HTTPException 401 "Invalid API Key" /\
       get_session cfg x_api_key d sid = HTTPException 401 "Invalid API Key" /\
       remove_session cfg x_api_key d sid = (d, HTTPException 401 "Invalid API Key")).
Proof.
  intros cfg key. split.
  - unfold verify_api_key, key_is.
    destruct (ADMIN_API_KEY cfg) as [a|], (USER_API_KEY cfg) as [u|]; simpl;
      repeat match goal with
             | |- context [key =? ?k] => destruct (String.eqb_spec key k)
             end; simpl; subst;
      (split; [intros H; first [discriminate H | tauto]
              | intros [H|H]; first [reflexivity | congruence]]).
  - intros Hno d sid.
    unfold list_sessions, get_session, remove_session, depends_verify_api_key.
    destruct (verify_api_key cfg key) as [[]|status detail] eqn:Hv; [contradiction|].
    unfold verify_api_key in Hv.
    destruct (negb _); [|discriminate]. injection Hv as <- <-.
    repeat split.
Qed.

(** Removing a session: an unknown id is answered 404 and changes nothing;
    a known id is answered with success, after which reading that session
    and removing it again are both answered 404. *)
Theorem removed_session_is_gone :
  forall (cfg : config) (x_api_key : string) (d : db) (sid : string),
    verify_api_key cfg x_api_key = Returns tt ->
    (query_session d sid = None ->
     remove_session cfg x_api_key d sid = (d, HTTPException 404 "Session not found")) /\
    (query_session d sid <> None ->
     snd (remove_session cfg x_api_key d sid) = Returns tt /\
     get_session cfg x_api_key (fst (remove_session cfg x_api_key d sid)) sid
       = HTTPException 404 "Session not found" /\
     remove_session cfg x_api_key (fst (remove_session cfg x_api_key d sid)) sid
       = (fst (remove_session cfg x_api_key d sid), HTTPException 404 "Session not found")).
Proof.
  intros cfg key d sid Hkey.
  assert (Hunknown : forall d', query_session d' sid = None ->
            remove_session cfg key d' sid = (d', HTTPException 404 "Session not found")).
  { intros d' Hq. unfold remove_session, delete_session. rewrite Hkey, Hq. reflexivity. }
  split; [apply Hunknown|].
  intros Hq.
  assert (Hgone : query_session (fst (remove_session cfg key d sid)) sid = None).
  { unfold remove_session, delete_session. rewrite Hkey.
    destruct (query_session d sid); [|contradiction]. cbn [negb fst].
    unfold query_session. cbn [chat_sessions].
    apply (find_filtered_out (fun s => session_pk s =? sid)). }
  split; [|split].
  - unfold remove_session, delete_session. rewrite Hkey.
    destruct (query_session d sid); [reflexivity | contradiction].
  - unfold get_session, depends_verify_api_key. rewrite Hkey, Hgone. reflexivity.
  - apply Hunknown, Hgone.
Qed.

Lemma removed_session_is_gone_witness :
  (query_session two_sessions "a" <> None ->
   snd (remove_session {| ADMIN_API_KEY := Some "k"; USER_API_KEY := None |} "k"
          two_sessions "a") = Returns tt /\
   get_session {| ADMIN_API_KEY := Some "k"; USER_API_KEY := None |} "k"
     (fst (remove_session {| ADMIN_API_KEY := Some "k"; USER_API_KEY := None |} "k"
             two_sessions "a")) "a"
     = HTTPException 404 "Session not found" /\
   remove_session {| ADMIN_API_KEY := Some "k"; USER_API_KEY := None |} "k"
     (fst (remove_session {| ADMIN_API_KEY := Some "k"; USER_API_KEY := None |} "k"
             two_sessions "a")) "a"
     = (fst (remove_session {| ADMIN_API_KEY := Some "k"; USER_API_KEY := None |} "k"
               two_sessions "a"),
        HTTPException 404 "Session not found")) /\
  query_session two_sessions "a" <> None.
Proof.
  split; [|discriminate].
  apply (removed_session_is_gone {| ADMIN_API_KEY := Some "k"; USER_API_KEY := None |} "k"
           two_sessions "a").
  reflexivity.
Defined.

End SessionFacts.

(* ===================================================================== *)
(** ** Further properties of the registry                                 *)
(* ===================================================================== *)

Module RegistryFacts.

Import K8sTools RefPy ToolSpec.

Ltac unfold_registry :=
  unfold list_kubernetes_namespaces, get_kubernetes_pod, list_kubernetes_pods,
    get_kubernetes_pod_logs, get_kubernetes_events, get_kubernetes_deployment_status,
    get_kubernetes_config_map, get_kubernetes_secret, create_kubernetes_secret,
    delete_kubernetes_secret, get_kubernetes_ingress, create_kubernetes_ingress,
    delete_kubernetes_ingress, get_kubernetes_node_status, get_kubernetes_cluster_status,
    get_kubernetes_hpa_status, list_kubernetes_hpas, create_kubernetes_hpa,
    delete_kubernetes_hpa, describe_kubernetes_resource, create_kubernetes_pod,
    delete_kubernetes_pod, create_kubernetes_namespace, delete_kubernetes_namespace,
    create_kubernetes_deployment, delete_kubernetes_deployment,
    scale_kubernetes_deployment, create_kubernetes_service, delete_kubernetes_service,
    list_kubernetes_services, list_kubernetes_deployments, create_kubernetes_pvc,
    delete_kubernetes_pvc, get_kubernetes_pvc, list_kubernetes_pvcs,
    list_kubernetes_network_policies, call, lift, bind, ret, raise.

(** Case analysis on everything a tool body branches on: its guards, the
    answer of the cluster, the exception in flight. *)
Ltac branch_tool :=
  repeat (match goal with
          | |- context [if ?b then _ else _] => destruct b
          | |- context [match dict_get ?k ?m with _ => _ end] => destruct (dict_get k m)
          | |- context [match omap ?f ?l with _ => _ end] => destruct (omap f l)
          | |- context [match ?api ?A ?r with _ => _ end] =>
              match type of api with cluster => destruct (api A r) end
          | |- context [match ?e with ApiException _ _ => _ | _ => _ end] => destruct e
          | |- context [match ?x with Ret _ => _ | Raise _ => _ end] => destruct x
          | |- context [match ?x with Some _ => _ | None => _ end] => destruct x
          | |- context [match ?x with [] => _ | _ :: _ => _ end] => destruct x
          | |- context [let (_, _) := ?x in _] => destruct x
          end; cbn).

(** Whatever the cluster answers, an invocation sends at most one request,
    and the request is of the kind of the tool: a read or list tool only
    reads, a create tool only creates, a delete tool only deletes, the
    scale tool only patches the scale. *)
Theorem one_request_of_the_tools_kind :
  forall (api : cluster) (py : pylib) (fmt : formatters) (inv : invocation),
    (List.length (requests (invoke api py fmt inv)) <= 1)%nat /\
    forallb (fun s => op_kind_eqb (request_kind s) (kind_of (tool_name inv)))
            (requests (invoke api py fmt inv)) = true.
Proof.
  intros api py fmt inv.
  destruct inv; cbn [invoke tool_name]; unfold_registry; cbn; branch_tool;
    (split; [lia | reflexivity]).
Qed.

(** [describe_kubernetes_resource] never raises, whatever the cluster, the
    YAML dump and [str.lower] do: every failure comes back as a text.  The
    answer depends on the resource type only through its lower-cased form,
    so two spellings that [str.lower] maps to the same text are answered
    alike; a type whose lower-cased form is not in [resource_api_map], and a
    namespaced type asked without a namespace, are answered without any
    request to the cluster. *)
Theorem describe_always_answers :
  forall (api : cluster) (py : pylib) (fmt : formatters) (resource_type name : string)
         (namespace : option string),
    let run := describe_kubernetes_resource api py fmt resource_type name namespace in
    returned (result run) = true /\
    (forall spelling, lower py spelling = lower py resource_type ->
       describe_kubernetes_resource api py fmt spelling name namespace = run) /\
    (dict_get (lower py resource_type) resource_api_map = None -> requests run = []) /\
    (forall method, dict_get (lower py resource_type) resource_api_map = Some method ->
       contains "namespaced" method = true -> truthy_str namespace = false ->
       run = ([], Ret ("Namespace is required for resource type '" ++
                       lower py resource_type ++ "'."))).
Proof.
  intros api py fmt resource_type name namespace run. subst run.
  split; [|split; [|split]].
  - unfold describe_kubernetes_resource.
    destruct (dict_get (lower py resource_type) resource_api_map) as [method|];
      [|reflexivity].
    unfold call, lift, bind, ret. cbn. branch_tool; reflexivity.
  - intros spelling Hsame. unfold describe_kubernetes_resource. rewrite Hsame. reflexivity.
  - intros Hnone. unfold describe_kubernetes_resource. rewrite Hnone. reflexivity.
  - intros method Hsome Hns Hfalsy. unfold describe_kubernetes_resource.
    rewrite Hsome, Hns, Hfalsy. reflexivity.
Qed.

(** On the reference library: [Pod] and [POD] are answered alike, a cron
    job is not a supported type, and a pod needs a namespace. *)
Lemma describe_always_answers_witness :
  describe_kubernetes_resource unreachable ref_pylib silent_formatters "POD" "web" None
    = describe_kubernetes_resource unreachable ref_pylib silent_formatters "Pod" "web" None /\
  requests (describe_kubernetes_resource unreachable ref_pylib silent_formatters
              "CronJob" "nightly" (Some "default")) = [] /\
  describe_kubernetes_resource unreachable ref_pylib silent_formatters "Pod" "web" None
    = ([], Ret ("Namespace is required for resource type '" ++ lower ref_pylib "Pod" ++ "'.")).
Proof.
  destruct (describe_always_answers unreachable ref_pylib silent_formatters "Pod" "web" None)
    as (_ & Hsame & _ & Hnamespace).
  destruct (describe_always_answers unreachable ref_pylib silent_formatters
              "CronJob" "nightly" (Some "default")) as (_ & _ & Hunsupported & _).
  split; [|split].
  - apply Hsame. reflexivity.
  - apply Hunsupported. reflexivity.
  - apply (Hnamespace "read_namespaced_pod"); reflexivity.
Defined.

(** A confirmed deletion reaches the cluster: with [confirm=True] every
    delete tool sends exactly one request, the deletion of the named
    resource in the named namespace, and what it can raise is never an
    [ApiException]. *)
Theorem confirmed_delete_sends_its_request :
  forall (api : cluster) (py : pylib) (fmt : formatters) (inv : invocation),
    kind_of (tool_name inv) = Delete ->
    confirm_arg inv = Some true ->
    exists s,
      delete_request inv = Some s /\
      requests (invoke api py fmt inv) = [s] /\
      forall e status text,
        result (invoke api py fmt inv) = Raise e -> e <> ApiException status text.
Proof.
  intros api py fmt inv Hkind Hconfirm.
  destruct inv; try discriminate Hkind; simpl in Hconfirm; injection Hconfirm as ->;
    (eexists; split; [reflexivity|]);
    cbn [invoke]; unfold_registry; cbn; branch_tool;
    (split; [reflexivity | intros e0 st tx H; first [discriminate H | injection H as <-; discriminate]]).
Qed.

Lemma confirmed_delete_sends_its_request_witness :
  exists s,
    delete_request (Call_delete_kubernetes_pod "nginx-1" "default" true) = Some s /\
    requests (invoke unreachable ref_pylib silent_formatters
                (Call_delete_kubernetes_pod "nginx-1" "default" true)) = [s] /\
    forall e status text,
      result (invoke unreachable ref_pylib silent_formatters
                (Call_delete_kubernetes_pod "nginx-1" "default" true)) = Raise e ->
      e <> ApiException status text.
Proof.
  apply (confirmed_delete_sends_its_request unreachable ref_pylib silent_formatters
           (Call_delete_kubernetes_pod "nginx-1" "default" true)); reflexivity.
Defined.

Lemma encode_text_data (py : pylib) (items : list (string * string)) :
  omap (encode_value py) (text_data items)
    = Ret (map (fun kv => (fst kv, PStr (b64encode_text py (utf8_encode py (snd kv))))) items).
Proof.
  unfold text_data.
  induction items as [|[k v] items IH]; [reflexivity|].
  cbn [map omap encode_value fst snd obind]. rewrite IH. reflexivity.
Qed.

Lemma stored_data (py : pylib) (items : list (string * string)) :
  flat_map (fun kv : string * pyval => match snd kv with
                                       | PStr v => [(fst kv, v)]
                                       | _ => []
                                       end)
    (map (fun kv => (fst kv, PStr (b64encode_text py (utf8_encode py (snd kv))))) items)
  = map (fun kv => (fst kv, b64encode_text py (utf8_encode py (snd kv)))) items.
Proof.
  induction items as [|[k v] items IH]; simpl; [reflexivity|]. rewrite IH. reflexivity.
Qed.

Lemma shown_items (py : pylib) (items : list (string * string)) :
  (forall k v, In (k, v) items ->
     obind (b64decode py (b64encode_text py (utf8_encode py v))) (utf8_decode py) = Ret v) ->
  omap (secret_item py false)
       (map (fun kv => (fst kv, b64encode_text py (utf8_encode py (snd kv)))) items)
    = Ret (map (fun kv => "  " ++ fst kv ++ ": " ++ snd kv) items).
Proof.
  induction items as [|[k v] items IH]; intros Hrt; simpl; [reflexivity|].
  pose proof (Hrt k v (or_introl eq_refl)) as Hv.
  destruct (b64decode py (b64encode_text py (utf8_encode py v))) as [raw|]; simpl in Hv;
    [|discriminate Hv].
  simpl. rewrite Hv. simpl.
  rewrite IH by (intros k' v' Hin; apply (Hrt k' v'); right; exact Hin). reflexivity.
Qed.

(** Round trip of a secret.  [create_kubernetes_secret] on a dict of texts
    sends one manifest; on a cluster that holds the secret of that manifest,
    [get_kubernetes_secret] with [mask_data=False] shows every key with the
    text it was created from, in the order of the dict, provided base64 and
    UTF-8 decoding invert the encoding on these texts. *)
Theorem secret_round_trip :
  forall (api_create api_read : cluster) (py : pylib) (name namespace type : string)
         (items : list (string * string)),
    (forall k v, In (k, v) items ->
       obind (b64decode py (b64encode_text py (utf8_encode py v))) (utf8_decode py) = Ret v) ->
    exists body s,
      requests (create_kubernetes_secret api_create py name namespace (text_data items)
                  type)
        = [Sent (create_namespaced_secret body namespace)] /\
      secret_of_manifest body = Some s /\
      (api_read _ (read_namespaced_secret name namespace) = Ret s ->
       get_kubernetes_secret api_read py name namespace false
         = ([Sent (read_namespaced_secret name namespace)],
            Ret (shown_text name namespace type items))).
Proof.
  intros api_create api_read py name namespace type items Hrt.
  eexists. eexists. split; [|split].
  - unfold create_kubernetes_secret, lift, bind, call, ret.
    rewrite encode_text_data. cbn.
    destruct (api_create unit _) as [[]|e]; cbn; [reflexivity|].
    destruct e; reflexivity.
  - cbn. rewrite stored_data. reflexivity.
  - intros Hread. unfold get_kubernetes_secret, call, bind, lift, ret, shown_text.
    rewrite Hread. cbn [try_except_ApiException secret_data secret_type str_opt].
    destruct items as [|kv items]; [reflexivity|].
    pose proof (shown_items py (kv :: items) Hrt) as Hshown.
    cbn [map] in Hshown |- *. rewrite Hshown. reflexivity.
Qed.

Lemma secret_round_trip_witness :
  exists body s,
    requests (create_kubernetes_secret unreachable ref_pylib "db" "default"
                (text_data [("user", "admin"); ("password", "hunter2")]) "Opaque")
      = [Sent (create_namespaced_secret body "default")] /\
    secret_of_manifest body = Some s /\
    (serving admin_secret _ (read_namespaced_secret "db" "default") = Ret s ->
     get_kubernetes_secret (serving admin_secret) ref_pylib "db" "default" false
       = ([Sent (read_namespaced_secret "db" "default")],
          Ret (shown_text "db" "default" "Opaque"
                 [("user", "admin"); ("password", "hunter2")]))).
Proof.
  apply (secret_round_trip unreachable (serving admin_secret) ref_pylib "db" "default"
           "Opaque" [("user", "admin"); ("password", "hunter2")]).
  intros k v [H|[H|[]]]; injection H as <- <-; reflexivity.
Defined.

(** The secret created from the two texts above is the sample secret. *)
Lemma created_secret_is_admin_secret :
  secret_of_manifest
    (PDict [("apiVersion", PStr "v1"); ("kind", PStr "Secret");
            ("metadata", PDict [("name", PStr "db")]);
            ("type", PStr "Opaque");
            ("data", PDict [("user", PStr (b64encode_ref (bytes_of_text "admin")));
                            ("password", PStr (b64encode_ref (bytes_of_text "hunter2")))])])
  = Some admin_secret.
Proof. reflexivity. Qed.

Lemma secret_items_fail_alike (py : pylib) (d : list (string * string)) :
  match omap (secret_item py true) d, omap (secret_item py false) d with
  | Ret masked, Ret shown => List.length masked = List.length shown
  | Raise e, Raise e' => e = e'
  | _, _ => False
  end.
Proof.
  induction d as [|[key value] d IH]; cbn; [reflexivity|].
  destruct (b64decode py value) as [raw|e]; cbn; [|reflexivity].
  destruct (utf8_decode py raw) as [text|e]; cbn; [|reflexivity].
  destruct (omap (secret_item py true) d), (omap (secret_item py false) d);
    cbn in *; try contradiction.
  - f_equal. exact IH.
  - exact IH.
Qed.

(** Masking hides values, it does not skip them: with [mask_data] true or
    false, [get_kubernetes_secret] sends the same request and fails in
    exactly the same cases with the same exception, so a value that cannot
    be decoded makes the masked call fail as well. *)
Theorem masking_still_decodes :
  forall (api : cluster) (py : pylib) (name namespace : string),
    requests (get_kubernetes_secret api py name namespace true)
      = requests (get_kubernetes_secret api py name namespace false) /\
    match result (get_kubernetes_secret api py name namespace true),
          result (get_kubernetes_secret api py name namespace false) with
    | Ret _, Ret _ => True
    | Raise e, Raise e' => e = e'
    | _, _ => False
    end.
Proof.
  intros api py name namespace.
  unfold get_kubernetes_secret, call, bind, lift, ret.
  destruct (api V1Secret (read_namespaced_secret name namespace)) as [s|e].
  - destruct (secret_data s) as [[|kv d]|]; try (cbn; split; [reflexivity | exact I]).
    pose proof (secret_items_fail_alike py (kv :: d)) as H.
    set (masked := omap (secret_item py true) (kv :: d)) in *.
    set (shown := omap (secret_item py false) (kv :: d)) in *.
    clearbody masked shown.
    destruct masked as [masked|e], shown as [shown|e']; try contradiction; cbn.
    + split; [reflexivity | exact I].
    + subst e'. destruct e; cbn; (split; [reflexivity|]);
        try reflexivity; destruct (status =? 404)%Z; exact I.
  - cbn. destruct e; cbn; (split; [reflexivity|]); try reflexivity.
    destruct (status =? 404)%Z; exact I.
Qed.

End RegistryFacts.

(* ===================================================================== *)
(** ** Further properties of the chat endpoint                            *)
(* ===================================================================== *)

Module ChatFacts.

Import Database Main Sessions ChatSpec.

(** What a response of [chat_invoke] tells about the store. *)
Lemma chat_invoke_success
  (json : jsonlib) (agent : list entry -> agent_run) (d : db)
  (user_stamp assistant_stamp : stamp) (uuid4 : string) (req : ChatRequest)
  (resp : ChatResponse) :
  snd (chat_invoke json agent d user_stamp assistant_stamp uuid4 req) = Ret (Some resp) ->
  response_session_id resp = session_id_or req uuid4 /\
  fst (chat_invoke json agent d user_stamp assistant_stamp uuid4 req)
    = add_message_to_session (with_user_turn d user_stamp uuid4 req) assistant_stamp
        (session_id_or req uuid4) "assistant" (response resp).
Proof.
  unfold chat_invoke, with_user_turn. cbv zeta.
  destruct (ainvoke agent _) as [messages|e]; [|discriminate].
  destruct (negb (final_response (scan_messages json messages) =? "")); [|discriminate].
  cbn [fst snd]. intros H. injection H as <-. split; reflexivity.
Qed.

Lemma query_session_found (d : db) (sid : string) (s : ChatSession) :
  query_session d sid = Some s -> session_pk s = sid.
Proof.
  unfold query_session. intros H. apply find_some in H. destruct H as [_ H].
  apply String.eqb_eq. exact H.
Qed.

(** What a chat answers is what the session shows: after a buffered chat
    that returned a response, on a store whose clock did not go back,
    [GET /sessions/{id}] for the session id of the response finds the
    session and returns its earlier turns followed by the user's message and
    the assistant's response. *)
Theorem chat_is_recorded :
  forall (json : jsonlib) (agent : list entry -> agent_run) (d : db)
         (user_stamp assistant_stamp : stamp) (uuid4 : string) (req : ChatRequest)
         (resp : ChatResponse) (cfg : config) (x_api_key : string),
    consistent d ->
    verify_api_key cfg x_api_key = Returns tt ->
    not_before d (session_id_or req uuid4) (now user_stamp) ->
    (now user_stamp <= now assistant_stamp)%nat ->
    snd (chat_invoke json agent d user_stamp assistant_stamp uuid4 req) = Ret (Some resp) ->
    exists created,
      get_session cfg x_api_key
        (fst (chat_invoke json agent d user_stamp assistant_stamp uuid4 req))
        (response_session_id resp)
      = Returns
          {| history_id := response_session_id resp;
             history_created_at := created;
             history_messages :=
               (get_session_history d (response_session_id resp) ++
                [{| role := "user"; content := message req |};
                 {| role := "assistant"; content := response resp |}])%list |}.
Proof.
  intros json agent d user_stamp assistant_stamp uuid4 req resp cfg key
         Hcons Hkey Hlate Hclock Hresp.
  destruct (chat_invoke_success json agent d user_stamp assistant_stamp uuid4 req resp Hresp)
    as [Hsid Hstore].
  rewrite Hstore, Hsid. unfold with_user_turn.
  set (sid := session_id_or req uuid4) in *.
  set (d1 := add_message_to_session d user_stamp sid "user" (message req)).
  unfold get_session, depends_verify_api_key. rewrite Hkey.
  destruct (query_session (add_message_to_session d1 assistant_stamp sid "assistant"
                             (response resp)) sid) as [session|] eqn:Hq;
    [| exfalso; exact (DatabaseFacts.query_session_added _ _ _ _ _ Hq)].
  exists (session_created_at session). cbv zeta.
  rewrite (query_session_found _ _ _ Hq).
  rewrite SessionFacts.add_message_appends.
  - unfold d1. rewrite SessionFacts.add_message_appends by assumption.
    rewrite <- app_assoc. reflexivity.
  - apply DatabaseFacts.add_message_consistent. exact Hcons.
  - intros m Hin. unfold d1 in Hin. rewrite DatabaseFacts.messages_of_added in Hin.
    apply in_app_or in Hin. destruct Hin as [Hin|[<-|[]]].
    + specialize (Hlate m Hin). lia.
    + simpl. exact Hclock.
Qed.

Lemma chat_is_recorded_witness :
  exists created,
    get_session {| ADMIN_API_KEY := Some "k"; USER_API_KEY := None |} "k"
      (fst (chat_invoke MainFacts.plain_json (fun _ => MainFacts.silent_tool_cycle) empty_db
              {| fresh_id := "m1"; now := 1 |} {| fresh_id := "m2"; now := 2 |}
              "generated-id" MainFacts.ask_pods))
      (response_session_id
         {| response_session_id := "generated-id"; response := "There is one pod: web.";
            tools_info := []; tool_response := [] |})
    = Returns
        {| history_id := "generated-id";
           history_created_at := created;
           history_messages :=
             (get_session_history empty_db "generated-id" ++
              [{| role := "user"; content := message MainFacts.ask_pods |};
               {| role := "assistant"; content := "There is one pod: web." |}])%list |}.
Proof.
  apply (chat_is_recorded MainFacts.plain_json (fun _ => MainFacts.silent_tool_cycle) empty_db
           {| fresh_id := "m1"; now := 1 |} {| fresh_id := "m2"; now := 2 |}
           "generated-id" MainFacts.ask_pods
           {| response_session_id := "generated-id"; response := "There is one pod: web.";
              tools_info := []; tool_response := [] |}
           {| ADMIN_API_KEY := Some "k"; USER_API_KEY := None |} "k").
  - intros m [].
  - reflexivity.
  - intros m [].
  - simpl. lia.
  - reflexivity.
Defined.

(** Scanning the history part of the agent's result. *)
Lemma scan_history (json : jsonlib) (history : list entry) :
  forall s,
    final_response (fold_left (scan_msg json) (map to_message history) s)
    = fold_left (fun acc e =>
                   if (role e =? "assistant") && negb (content e =? "")
                   then content e else acc)
                history (final_response s).
Proof.
  induction history as [|e history IH]; intros s; [reflexivity|].
  cbn [map fold_left]. rewrite IH. f_equal.
  unfold to_message.
  destruct (role e =? "user") eqn:Huser.
  - apply String.eqb_eq in Huser. rewrite Huser. reflexivity.
  - destruct (role e =? "assistant"); [|reflexivity].
    cbn [scan_msg fold_left andb]. destruct (negb (content e =? "")); reflexivity.
Qed.

(** Messages of a run in which the model says nothing leave the response
    as it was. *)
Lemma scan_silent (json : jsonlib) (l : list produced) :
  (forall p c calls, In p l -> produced_msg p = AIMessage c calls -> c = "") ->
  forall s,
    final_response (fold_left (scan_msg json) (map produced_msg l) s) = final_response s.
Proof.
  induction l as [|p l IH]; intros Hsilent s; [reflexivity|].
  cbn [map fold_left].
  rewrite IH by (intros q c calls Hin; apply (Hsilent q c calls); right; exact Hin).
  destruct (produced_msg p) as [c|c calls|c id|c] eqn:Hp; try reflexivity.
  rewrite (Hsilent p c calls (or_introl eq_refl) Hp).
  cbn [scan_msg]. apply MainFacts.final_response_scan_calls.
Qed.

(** A turn in which the model produces no text.  On a session with an
    earlier assistant turn, [chat_invoke] answers with the text of the latest
    one and records it once more as a new assistant turn; on a session
    without one it returns no response at all and records only the user
    turn. *)
Theorem silent_turn_repeats_last_answer :
  forall (json : jsonlib) (agent : list entry -> agent_run) (d : db)
         (user_stamp assistant_stamp : stamp) (uuid4 : string) (req : ChatRequest),
    let sid := session_id_or req uuid4 in
    let d1 := with_user_turn d user_stamp uuid4 req in
    let history := get_session_history d1 sid in
    run_failure (agent history) = None ->
    says_nothing (agent history) ->
    (last_assistant history = "" ->
     chat_invoke json agent d user_stamp assistant_stamp uuid4 req = (d1, Ret None)) /\
    (last_assistant history <> "" ->
     fst (chat_invoke json agent d user_stamp assistant_stamp uuid4 req)
       = add_message_to_session d1 assistant_stamp sid "assistant" (last_assistant history) /\
     exists resp,
       snd (chat_invoke json agent d user_stamp assistant_stamp uuid4 req) = Ret (Some resp) /\
       response resp = last_assistant history).
Proof.
  intros json agent d user_stamp assistant_stamp uuid4 req sid d1 history Hok Hsilent.
  assert (Hscan : forall messages,
            ainvoke agent history = Ret messages ->
            final_response (scan_messages json messages) = last_assistant history).
  { intros messages Hm. unfold ainvoke in Hm. rewrite Hok in Hm. injection Hm as <-.
    unfold scan_messages. rewrite fold_left_app, (scan_silent json _ Hsilent), scan_history.
    reflexivity. }
  assert (Hret : exists messages, ainvoke agent history = Ret messages).
  { unfold ainvoke. rewrite Hok. eexists. reflexivity. }
  destruct Hret as [messages Hm]. specialize (Hscan messages Hm).
  split.
  - intros Hnone. unfold chat_invoke. cbv zeta.
    change (ainvoke agent _) with (ainvoke agent history). rewrite Hm, Hscan, Hnone.
    reflexivity.
  - intros Hsome.
    assert (Hresp := MainFacts.chat_invoke_response json agent d user_stamp assistant_stamp
                       uuid4 req messages Hm).
    rewrite Hscan in Hresp. specialize (Hresp Hsome).
    split.
    + destruct (chat_invoke_success json agent d user_stamp assistant_stamp uuid4 req _ Hresp)
        as [_ Hstore].
      exact Hstore.
    + eexists. split; [exact Hresp | reflexivity].
Qed.

(** A session with one exchange. *)
Definition greeted : db :=
  add_message_to_session
    (add_message_to_session empty_db {| fresh_id := "m1"; now := 1 |} "s" "user" "hello")
    {| fresh_id := "m2"; now := 2 |} "s" "assistant" "Hello, I am your Kubernetes assistant.".

(** A run in which the model answers with an empty content. *)
Definition empty_answer : agent_run :=
  {| run_messages := [{| produced_msg := AIMessage "" []; fragments := [] |}];
     run_failure := None |}.

Lemma silent_turn_repeats_last_answer_witness :
  let req := {| message := "and now?"; session_id := Some "s";
                enable_tool_response := false |} in
  let st3 := {| fresh_id := "m3"; now := 3 |} in
  let st4 := {| fresh_id := "m4"; now := 4 |} in
  chat_invoke MainFacts.plain_json (fun _ => empty_answer) greeted st3 st4 "unused" req
    = (add_message_to_session (with_user_turn greeted st3 "unused" req) st4 "s" "assistant"
         "Hello, I am your Kubernetes assistant.",
       Ret (Some {| response_session_id := "s";
                    response := "Hello, I am your Kubernetes assistant.";
                    tools_info := []; tool_response := [] |})) /\
  (fst (chat_invoke MainFacts.plain_json (fun _ => empty_answer) greeted st3 st4 "unused" req)
     = add_message_to_session (with_user_turn greeted st3 "unused" req) st4 "s" "assistant"
         (last_assistant (get_session_history (with_user_turn greeted st3 "unused" req) "s")) /\
   exists resp,
     snd (chat_invoke MainFacts.plain_json (fun _ => empty_answer) greeted st3 st4 "unused" req)
       = Ret (Some resp) /\
     response resp
       = last_assistant (get_session_history (with_user_turn greeted st3 "unused" req) "s")).
Proof.
  split; [reflexivity|].
  apply (silent_turn_repeats_last_answer MainFacts.plain_json (fun _ => empty_answer) greeted
           {| fresh_id := "m3"; now := 3 |} {| fresh_id := "m4"; now := 4 |} "unused"
           {| message := "and now?"; session_id := Some "s"; enable_tool_response := false |}).
  - reflexivity.
  - intros p c calls [<-|[]] H. injection H as <- _. reflexivity.
  - discriminate.
Defined.

Lemma scan_calls_trace (json : jsonlib) (calls : list tool_call) :
  forall s,
    scan_tool_responses (fold_left (scan_call json) calls s) = scan_tool_responses s /\
    map info_name (scan_tools_info (fold_left (scan_call json) calls s))
    = (map info_name (scan_tools_info s) ++
       map (fun call => or_default (function_name call) "unknown_tool") calls)%list.
Proof.
  induction calls as [|call calls IH]; intros s; cbn [fold_left map].
  - rewrite app_nil_r. split; reflexivity.
  - destruct (IH (scan_call json s call)) as [Hr Hi]. rewrite Hr, Hi. split; [reflexivity|].
    cbn [scan_call scan_tools_info]. rewrite map_app, <- app_assoc. reflexivity.
Qed.

(** The two lists of the trace grow in the order of the messages. *)
Lemma scan_trace (json : jsonlib) (l : list msg) :
  forall s,
    map response_text (scan_tool_responses (fold_left (scan_msg json) l s))
    = (map response_text (scan_tool_responses s) ++ tool_outputs l)%list /\
    map info_name (scan_tools_info (fold_left (scan_msg json) l s))
    = (map info_name (scan_tools_info s) ++ called_names l)%list.
Proof.
  induction l as [|m l IH]; intros s; cbn [fold_left].
  - unfold tool_outputs, called_names. cbn [flat_map]. rewrite !app_nil_r. split; reflexivity.
  - destruct (IH (scan_msg json s m)) as [Hr Hi]. rewrite Hr, Hi.
    unfold tool_outputs, called_names. cbn [flat_map].
    destruct m as [c|c calls|c id|c]; cbn [scan_msg].
    + split; reflexivity.
    + match goal with
      | |- context [fold_left (scan_call json) calls ?s0] =>
          destruct (scan_calls_trace json calls s0) as [Hcr Hci]; rewrite Hcr, Hci
      end.
      rewrite <- app_assoc.
      destruct (negb (c =? "")); split; reflexivity.
    + cbn [scan_tool_responses scan_tools_info]. rewrite map_app, <- app_assoc.
      split; reflexivity.
    + split; reflexivity.
Qed.

Lemma history_has_no_trace (history : list entry) :
  tool_outputs (map to_message history) = [] /\ called_names (map to_message history) = [].
Proof.
  induction history as [|e history [IHo IHc]]; [split; reflexivity|].
  unfold tool_outputs, called_names in *. cbn [map flat_map]. rewrite IHo, IHc.
  unfold to_message. destruct (role e =? "user"); [split; reflexivity|].
  destruct (role e =? "assistant"); split; reflexivity.
Qed.

(** The trace of a buffered response follows the run: when the request asks
    for it, [tool_response] holds the outputs of the tool messages of this
    turn, and [tools_info] the names of the tools called in this turn, each
    in the order the run produced them (nothing of earlier turns, nothing
    reordered); when the request does not ask for it, both are empty. *)
Theorem trace_follows_the_run :
  forall (json : jsonlib) (agent : list entry -> agent_run) (d : db)
         (user_stamp assistant_stamp : stamp) (uuid4 : string) (req : ChatRequest)
         (resp : ChatResponse),
    let history :=
      get_session_history (with_user_turn d user_stamp uuid4 req) (session_id_or req uuid4) in
    let run := map produced_msg (run_messages (agent history)) in
    snd (chat_invoke json agent d user_stamp assistant_stamp uuid4 req) = Ret (Some resp) ->
    (enable_tool_response req = true ->
     map response_text (tool_response resp) = tool_outputs run /\
     map info_name (tools_info resp) = called_names run) /\
    (enable_tool_response req = false -> tool_response resp = [] /\ tools_info resp = []).
Proof.
  intros json agent d user_stamp assistant_stamp uuid4 req resp history run.
  unfold chat_invoke, with_user_turn in *. cbv zeta.
  change (ainvoke agent _) with (ainvoke agent history).
  destruct (ainvoke agent history) as [messages|e] eqn:Hm; [|discriminate].
  destruct (negb (final_response (scan_messages json messages) =? "")); [|discriminate].
  cbn [snd]. intros H. injection H as <-. cbn [tool_response tools_info].
  unfold ainvoke in Hm. destruct (run_failure (agent history)); [discriminate|].
  injection Hm as <-. fold run.
  destruct (scan_trace json (map to_message history ++ run)
              {| final_response := ""; scan_tools_info := []; scan_tool_responses := [];
                 tool_call_id_map := [] |}) as [Hr Hi].
  fold (scan_messages json (map to_message history ++ run)) in Hr, Hi.
  cbn [scan_tool_responses scan_tools_info map app] in Hr, Hi.
  unfold tool_outputs, called_names in Hr, Hi. rewrite flat_map_app in Hr, Hi.
  destruct (history_has_no_trace history) as [Ho Hc].
  unfold tool_outputs, called_names in Ho, Hc. rewrite Ho in Hr. rewrite Hc in Hi.
  split.
  - intros ->. split; [exact Hr | exact Hi].
  - intros ->. split; reflexivity.
Qed.

Lemma trace_follows_the_run_witness :
  let req := {| message := "which pods are running?"; session_id := None;
                enable_tool_response := true |} in
  let resp := {| response_session_id := "generated-id";
                 response := "There is one pod: web.";
                 tools_info := [{| info_name := "list_kubernetes_pods"; info_args := "{}" |}];
                 tool_response := [{| response_name := "list_kubernetes_pods";
                                      response_text := "All pods: web" |}] |} in
  snd (chat_invoke MainFacts.plain_json (fun _ => MainFacts.one_tool_cycle) empty_db
         {| fresh_id := "m1"; now := 1 |} {| fresh_id := "m2"; now := 2 |}
         "generated-id" req) = Ret (Some resp) /\
  ((enable_tool_response req = true ->
    map response_text (tool_response resp)
      = tool_outputs (map produced_msg (run_messages MainFacts.one_tool_cycle)) /\
    map info_name (tools_info resp)
      = called_names (map produced_msg (run_messages MainFacts.one_tool_cycle))) /\
   (enable_tool_response req = false -> tool_response resp = [] /\ tools_info resp = [])).
Proof.
  split; [reflexivity|].
  apply (trace_follows_the_run MainFacts.plain_json (fun _ => MainFacts.one_tool_cycle) empty_db
           {| fresh_id := "m1"; now := 1 |} {| fresh_id := "m2"; now := 2 |} "generated-id"
           {| message := "which pods are running?"; session_id := None;
              enable_tool_response := true |}).
  reflexivity.
Defined.

End ChatFacts.
